(** * TgBot_vpn: payment and subscription lifecycle

    A shallow embedding of the payment code of the bot
    (bot/utils/payments.py, bot/utils/helpers.py, bot/models/database.py,
    bot/config/settings.py, bot/handlers/main.py, bot/handlers/admin.py)
    and the properties of it that the specification states.

    Conventions.
    - Python [int] is [Z]; the [Float] columns and every true division
      [/] are IEEE binary64, modelled by Rocq's primitive floats.
    - [datetime] values are microseconds on the UTC time line ([Z]).
    - A table is the list of its rows, a row the record of the columns
      the payment code reads or writes.  A session hands out rows as
      plain records; what SQLAlchemy does to loaded instances on commit
      and close is outside the model.
    - Handlers are coroutines: [coro] keeps every [await] as a node of
      its own, so the places where the event loop may switch to another
      handler are exactly the ones of the source.
    - The outside world (clock, providers' HTTP answers, Telegram,
      randomness) is a [world] of oracles indexed by the number of
      effects performed so far. *)

From Stdlib Require Import ZArith Floats Uint63.
From stdpp Require Import base gmap strings list pretty.

Local Open Scope Z_scope.
Local Open Scope string_scope.

(** ** Python values and exceptions *)

Module Py.

(** The exception classes the modelled code raises or catches.  All of
    them derive from [Exception]. *)
Inductive exn : Type :=
| RequestException            (* requests.RequestException and subclasses *)
| PaymentError (msg : string) (* bot.utils.payments.PaymentError *)
| TelegramError               (* telegram.error.TelegramError *)
| AttributeError
| KeyError
| TypeError
| ValueError
| OtherException (name : string).

Definition is_RequestException (e : exn) : bool :=
  match e with RequestException => true | _ => false end.

Definition is_PaymentError (e : exn) : bool :=
  match e with PaymentError _ => true | _ => false end.

(** What [response.json()] can return, which is also what the dynamic
    fields taken from it hold. [JNull] is [None]. *)
#[warnings="-register-all"]
Inductive json : Type :=
| JNull
| JBool (b : bool)
| JInt (n : Z)
| JFloat (f : float)
| JStr (s : string)
| JArr (l : list json)
| JObj (m : gmap string json).

(** [v == 'lit'] for a string literal. *)
Definition eq_str (v : json) (lit : string) : bool :=
  match v with JStr s => String.eqb s lit | _ => false end.

(** [v in ['a', 'b', ...]] for a list of string literals. *)
Definition in_strs (v : json) (lits : list string) : bool :=
  existsb (eq_str v) lits.

(** [v == 0]: [False == 0] and [0.0 == 0] hold in Python. *)
Definition eq_zero (v : json) : bool :=
  match v with
  | JBool b => negb b
  | JInt n => Z.eqb n 0
  | JFloat f => PrimFloat.eqb f 0%float
  | _ => false
  end.

(** Truth value of an optional string ([None] and [''] are false). *)
Definition truthy (o : option string) : bool :=
  match o with Some s => negb (String.eqb s "") | None => false end.

(** [float(z)] for [|z| < 2^63]; exact below [2^53]. *)
Definition float_of_Z (z : Z) : float :=
  if Z.ltb z 0 then PrimFloat.opp (PrimFloat.of_uint63 (Uint63.of_Z (- z)))
  else PrimFloat.of_uint63 (Uint63.of_Z z).

(** [a / b] on two ints: the correctly rounded quotient, which is the
    binary64 quotient of the converted operands as long as both are
    below [2^53] in magnitude. *)
Definition truediv (a b : Z) : float :=
  PrimFloat.div (float_of_Z a) (float_of_Z b).

(** [int(f)]: truncation towards zero; [None] stands for the
    [OverflowError]/[ValueError] on an infinity or a NaN. *)
Definition int_of_float (f : float) : option Z :=
  match Prim2SF f with
  | S754_zero _ => Some 0
  | S754_finite sgn m e =>
      let a := if Z.leb 0 e then Z.shiftl (Zpos m) e
               else Z.shiftr (Zpos m) (- e) in
      Some (if sgn then - a else a)
  | S754_infinity _ => None
  | S754_nan => None
  end.

End Py.
Import Py.

(** ** bot/config/settings.py *)

Record Config := mkConfig {
  YOOMONEY_TOKEN : option string;
  QIWI_TOKEN : option string;
  CRYPTOMUS_API_KEY : option string;
  CRYPTOMUS_MERCHANT_ID : option string;
  PLAN_1_MONTH_PRICE : Z;
  PLAN_3_MONTH_PRICE : Z;
  PLAN_6_MONTH_PRICE : Z;
  PLAN_12_MONTH_PRICE : Z;
  REFERRAL_BONUS_PERCENT : Z
}.

(** The values [settings.py] falls back to when the environment sets
    nothing but the three provider credentials. *)
Definition default_config : Config :=
  {| YOOMONEY_TOKEN := Some "yoomoney-token";
     QIWI_TOKEN := Some "qiwi-token";
     CRYPTOMUS_API_KEY := Some "cryptomus-key";
     CRYPTOMUS_MERCHANT_ID := Some "merchant";
     PLAN_1_MONTH_PRICE := 299;
     PLAN_3_MONTH_PRICE := 799;
     PLAN_6_MONTH_PRICE := 1499;
     PLAN_12_MONTH_PRICE := 2699;
     REFERRAL_BONUS_PERCENT := 10 |}.

Record Plan := mkPlan {
  plan_name : string;
  price : Z;            (* rubles *)
  duration_days : Z;
  popular : bool
}.

(** The dict literal [SUBSCRIPTION_PLANS], in source order.  The display
    names are Russian texts in the source and are given in English. *)
Definition SUBSCRIPTION_PLANS (cfg : Config) : list (string * Plan) :=
  [ ("1_month",   mkPlan "1 month"  (PLAN_1_MONTH_PRICE cfg)  30  false);
    ("3_months",  mkPlan "3 months" (PLAN_3_MONTH_PRICE cfg)  90  true);
    ("6_months",  mkPlan "6 months" (PLAN_6_MONTH_PRICE cfg)  180 false);
    ("12_months", mkPlan "1 year"   (PLAN_12_MONTH_PRICE cfg) 365 false) ].

(** [SUBSCRIPTION_PLANS.get(plan_type)]. *)
Fixpoint dict_get {V} (d : list (string * V)) (k : string) : option V :=
  match d with
  | [] => None
  | (k', v) :: d' => if String.eqb k' k then Some v else dict_get d' k
  end.

Definition plan_of (cfg : Config) (plan_type : string) : option Plan :=
  dict_get (SUBSCRIPTION_PLANS cfg) plan_type.

(** ** bot/models/database.py *)

(** [timedelta(minutes=m)] and [timedelta(days=d)] in microseconds. *)
Definition minutes (m : Z) : Z := m * 60 * 1000000.
Definition days (d : Z) : Z := d * 86400 * 1000000.

Module User.
(** The columns of [users] that the payment code reads or writes. *)
Record t := mk {
  id : Z;
  telegram_id : Z;
  referrer_id : option Z;
  referral_balance : float;   (* Float, rubles *)
  total_referrals : Z;
  total_spent : float         (* Float, rubles *)
}.

Definition set_total_spent (u : t) (v : float) : t :=
  mk (id u) (telegram_id u) (referrer_id u) (referral_balance u)
     (total_referrals u) v.

Definition set_referral_balance (u : t) (v : float) : t :=
  mk (id u) (telegram_id u) (referrer_id u) v
     (total_referrals u) (total_spent u).
End User.

Module Subscription.
Record t := mk {
  id : Z;
  user_id : Z;
  plan_type : string;
  start_date : Z;
  end_date : Z;
  is_active : bool;
  vpn_config : string;
  config_name : string;
  server_location : string
}.

Definition set_is_active (s : t) (b : bool) : t :=
  mk (id s) (user_id s) (plan_type s) (start_date s) (end_date s) b
     (vpn_config s) (config_name s) (server_location s).

(** The [is_expired] property, given the reading of the clock. *)
Definition is_expired (s : t) (now : Z) : bool := Z.ltb (end_date s) now.
End Subscription.

Module Payment.
(** The pay URL is either the f-string YooMoney's wrapper builds around
    the request id or the value the provider sent. *)
Inductive url : Type :=
| NoUrl
| YooMoneyContract (request_id : json)
| GivenUrl (v : json).

Record t := mk {
  id : Z;
  user_id : Z;
  amount : Z;                 (* Integer, kopecks *)
  plan_type : string;
  payment_method : string;
  payment_id : json;          (* external id, None until the provider answers *)
  payment_url : url;
  status : string;
  created_at : Z;
  completed_at : option Z;
  expires_at : option Z
}.

Definition set_status (p : t) (v : string) : t :=
  mk (id p) (user_id p) (amount p) (plan_type p) (payment_method p)
     (payment_id p) (payment_url p) v (created_at p) (completed_at p)
     (expires_at p).

Definition set_completed_at (p : t) (v : option Z) : t :=
  mk (id p) (user_id p) (amount p) (plan_type p) (payment_method p)
     (payment_id p) (payment_url p) (status p) (created_at p) v
     (expires_at p).

Definition set_external (p : t) (pid : json) (u : url) : t :=
  mk (id p) (user_id p) (amount p) (plan_type p) (payment_method p)
     pid u (status p) (created_at p) (completed_at p) (expires_at p).

(** The [amount_rubles] property: [self.amount / 100]. *)
Definition amount_rubles (p : t) : float := truediv (amount p) 100.
End Payment.

(** The three tables, rows in insertion order. *)
Record DB := mkDB {
  users : list User.t;
  subscriptions : list Subscription.t;
  payments : list Payment.t
}.

Definition set_users (d : DB) (l : list User.t) : DB :=
  mkDB l (subscriptions d) (payments d).
Definition set_subscriptions (d : DB) (l : list Subscription.t) : DB :=
  mkDB (users d) l (payments d).
Definition set_payments (d : DB) (l : list Payment.t) : DB :=
  mkDB (users d) (subscriptions d) l.

(** [query(X).filter_by(id=i).first()] *)
Definition user_by_id (d : DB) (i : Z) : option User.t :=
  List.find (fun u => Z.eqb (User.id u) i) (users d).
Definition payment_by_id (d : DB) (i : Z) : option Payment.t :=
  List.find (fun p => Z.eqb (Payment.id p) i) (payments d).

(** Attribute writes on a loaded row reach the row with that primary key. *)
Definition update_user (d : DB) (u : User.t) : DB :=
  set_users d
    (map (fun x => if Z.eqb (User.id x) (User.id u) then u else x) (users d)).
Definition update_payment (d : DB) (p : Payment.t) : DB :=
  set_payments d
    (map (fun x => if Z.eqb (Payment.id x) (Payment.id p) then p else x)
         (payments d)).

(** The primary key an INSERT assigns: one more than the largest in use. *)
Definition next_id (ids : list Z) : Z := 1 + fold_right Z.max 0 ids.

(** ** Effects: the outside world and coroutines *)

(** A call of a provider's HTTP API, as the wrappers in payments.py make
    it.  [amount] is in kopecks; the wrapper converts it when it builds
    the request body. *)
Inductive api_call : Type :=
| ApiCreate (provider : string) (amount : Z) (order_id description : string)
| ApiCheck (provider : string) (payment_id : json).

(** Everything between [requests.post/put/get] and [response.json()]:
    either some exception or the decoded body. *)
Inductive http_outcome : Type :=
| HttpRaise (e : exn)
| HttpJson (j : json).

(** The texts the handlers send, by template. *)
Inductive message : Type :=
| MsgPlanNotSelected
| MsgPaymentError (text : string)
| MsgPaymentCreated (plan : string) (price : Z) (pay_url : Payment.url)
| MsgPaymentNotFound
| MsgPaymentTimeout
| MsgPaymentSuccess (plan : string) (end_date : Z) (location : string)
| MsgPaymentFailed
| MsgPaymentPending (rubles : float) (pay_url : Payment.url) (time_left : Z)
| MsgErrorGeneral
| MsgReferralBonus (rubles : float) (friend : Z)
| MsgNoBroadcastMessage
| MsgBroadcastStarted (total : Z)
| MsgBroadcastProgress (total sent failed done : Z)
| MsgBroadcastResult (sent total failed : Z)
| MsgText (text : string).

(** What is awaited from Telegram.  [MainMenu] stands for the nested
    [main_menu] handler that redraws the menu at the end of a successful
    verification; it goes through [get_or_create_user], which for a
    caller who has a row stamps [last_activity] only. *)
Inductive tg_call : Type :=
| AnswerCallback
| EditMessageText (m : message)
| SendMessage (chat_id : Z) (m : message)
| SendDocument (chat_id : Z) (config : string)
| SendPhoto (chat_id : Z) (config : string)
| MainMenu.

(** What a handler can [await]. *)
Inductive awaitable : Type :=
| Telegram (c : tg_call)
| Sleep.

Inductive event : Type :=
| EClock (t : Z)
| ERequest (c : api_call) (o : http_outcome)
| EChoice (i : nat)
| EVpnConfig (telegram_id : Z) (location : string)
| ECommit (d : DB)
| EAwait (a : awaitable) (ok : bool).

(** The oracles.  The index is the number of effects performed before
    the call, so one world can answer the same call differently at
    different times. *)
Record world := mkWorld {
  utcnow_at : nat -> Z;
  request_at : nat -> api_call -> http_outcome;
  choice_at : nat -> nat;
  vpn_config_at : nat -> Z -> string -> string;
  telegram_at : nat -> tg_call -> bool   (* false: the call raises *)
}.

(** The committed store and the history of effects, latest first. *)
Record state := mkState {
  db : DB;
  log : list event
}.

(** A handler, or a function a handler calls.  [Await] is a point where
    the event loop may run other handlers; all other nodes run without
    interruption. *)
Inductive coro (A : Type) : Type :=
| Ret (a : A)
| Raise (e : exn)
| UtcNow (k : Z -> coro A)                          (* datetime.utcnow() *)
| Request (c : api_call) (k : http_outcome -> coro A)
| RandomChoice (k : nat -> coro A)                  (* random.choice *)
| GenerateVpnConfig (telegram_id : Z) (location : string)
                    (k : string -> coro A)
| Query (k : DB -> coro A)                          (* read the store *)
| Commit (d : DB) (k : unit -> coro A)              (* session.commit() *)
| Await (a : awaitable) (k : bool -> coro A).

Arguments Ret {A} a.
Arguments Raise {A} e.
Arguments UtcNow {A} k.
Arguments Request {A} c k.
Arguments RandomChoice {A} k.
Arguments GenerateVpnConfig {A} telegram_id location k.
Arguments Query {A} k.
Arguments Commit {A} d k.
Arguments Await {A} a k.

Fixpoint bind {A B} (m : coro A) (f : A -> coro B) : coro B :=
  match m with
  | Ret a => f a
  | Raise e => Raise e
  | UtcNow k => UtcNow (fun x => bind (k x) f)
  | Request c k => Request c (fun x => bind (k x) f)
  | RandomChoice k => RandomChoice (fun x => bind (k x) f)
  | GenerateVpnConfig t l k => GenerateVpnConfig t l (fun x => bind (k x) f)
  | Query k => Query (fun x => bind (k x) f)
  | Commit d k => Commit d (fun x => bind (k x) f)
  | Await a k => Await a (fun x => bind (k x) f)
  end.

(** [try: m  except <classes matched by sel> as e: h e] *)
Fixpoint try_except {A} (m : coro A) (sel : exn -> bool) (h : exn -> coro A)
  : coro A :=
  match m with
  | Ret a => Ret a
  | Raise e => if sel e then h e else Raise e
  | UtcNow k => UtcNow (fun x => try_except (k x) sel h)
  | Request c k => Request c (fun x => try_except (k x) sel h)
  | RandomChoice k => RandomChoice (fun x => try_except (k x) sel h)
  | GenerateVpnConfig t l k =>
      GenerateVpnConfig t l (fun x => try_except (k x) sel h)
  | Query k => Query (fun x => try_except (k x) sel h)
  | Commit d k => Commit d (fun x => try_except (k x) sel h)
  | Await a k => Await a (fun x => try_except (k x) sel h)
  end.

(** [except Exception] *)
Definition any_exception (_ : exn) : bool := true.

Declare Scope coro_scope.
Delimit Scope coro_scope with coro.
Notation "'let*' x := m 'in' k" := (bind m (fun x => k))
  (at level 10, x pattern, m at level 100, k at level 200) : coro_scope.
Notation "m ;; k" := (bind m (fun _ => k))
  (at level 100, k at level 200, right associativity) : coro_scope.
Local Open Scope coro_scope.

Definition utcnow : coro Z := UtcNow Ret.
Definition request (c : api_call) : coro http_outcome := Request c Ret.
Definition query : coro DB := Query Ret.
Definition commit (d : DB) : coro unit := Commit d Ret.

(** [await] of a Telegram call or of [asyncio.sleep]. *)
Definition await (a : awaitable) : coro unit :=
  Await a (fun ok => if ok then Ret tt else Raise TelegramError).

(** [int(f)] inside a coroutine. *)
Definition py_int (f : float) : coro Z :=
  match int_of_float f with
  | Some z => Ret z
  | None => Raise (OtherException "OverflowError")
  end.

(** *** Running a coroutine to its end, with nothing interleaved *)

Inductive res (A : Type) : Type :=
| Returned (a : A)
| Raised (e : exn).
Arguments Returned {A} a.
Arguments Raised {A} e.

Definition record (s : state) (e : event) : state :=
  mkState (db s) (e :: log s).

Definition tick (s : state) : nat := length (log s).

Definition perform (w : world) (a : awaitable) (s : state) : bool * state :=
  match a with
  | Telegram c =>
      let ok := telegram_at w (tick s) c in (ok, record s (EAwait a ok))
  | Sleep => (true, record s (EAwait a true))
  end.

Fixpoint run {A} (w : world) (m : coro A) (s : state) : res A * state :=
  match m with
  | Ret a => (Returned a, s)
  | Raise e => (Raised e, s)
  | UtcNow k =>
      let t := utcnow_at w (tick s) in run w (k t) (record s (EClock t))
  | Request c k =>
      let o := request_at w (tick s) c in run w (k o) (record s (ERequest c o))
  | RandomChoice k =>
      let i := choice_at w (tick s) in run w (k i) (record s (EChoice i))
  | GenerateVpnConfig t l k =>
      run w (k (vpn_config_at w (tick s) t l)) (record s (EVpnConfig t l))
  | Query k => run w (k (db s)) s
  | Commit d k => run w (k tt) (mkState d (ECommit d :: log s))
  | Await a k =>
      let '(ok, s') := perform w a s in run w (k ok) s'
  end.

(** ** bot/utils/payments.py *)

(** The dict the [create_payment] methods return. *)
Record payment_data := mkPaymentData {
  pd_payment_id : json;
  pd_payment_url : Payment.url;
  pd_amount : Z;
  pd_expires_at : Z
}.

(** The request, [raise_for_status] and [response.json()]. *)
Definition fetch (c : api_call) : coro json :=
  let* o := request c in
  match o with
  | HttpRaise e => Raise e
  | HttpJson j => Ret j
  end.

(** [v.get(k, dflt)]: an [AttributeError] unless [v] is a dict. *)
Definition py_get (v : json) (k : string) (dflt : json) : coro json :=
  match v with
  | JObj m => Ret (default dflt (m !! k))
  | _ => Raise AttributeError
  end.

(** [v[k]] for a string key. *)
Definition py_item (v : json) (k : string) : coro json :=
  match v with
  | JObj m => match m !! k with Some x => Ret x | None => Raise KeyError end
  | _ => Raise TypeError
  end.

(** The two handlers every [create_payment] ends with:
    [except requests.RequestException] and then [except Exception]. *)
Definition wrap_create_errors (connect_msg create_msg : string)
    (body : coro payment_data) : coro payment_data :=
  try_except body any_exception (fun e =>
    if is_RequestException e then Raise (PaymentError connect_msg)
    else Raise (PaymentError create_msg)).

Module YooMoneyPayment.
Record t := mk { token : string }.

Definition create_payment (self : t) (amount : Z)
    (order_id description : string) : coro payment_data :=
  wrap_create_errors "Ошибка подключения к YooMoney"
                     "Ошибка создания платежа YooMoney"
    (let* result := fetch (ApiCreate "yoomoney" amount order_id description) in
     let* st := py_get result "status" JNull in
     if eq_str st "success" then
       let* request_id := py_get result "request_id" JNull in
       let* now := utcnow in
       Ret (mkPaymentData request_id (Payment.YooMoneyContract request_id)
                          amount (now + minutes 15))
     else
       let* _ := py_get result "error" JNull in
       Raise (PaymentError "YooMoney error")).

Definition check_payment (self : t) (payment_id : json) : coro string :=
  try_except
    (let* result := fetch (ApiCheck "yoomoney" payment_id) in
     let* st := py_get result "status" (JStr "unknown") in
     if eq_str st "success" then Ret "completed"
     else if in_strs st ["refused"; "failed"] then Ret "failed"
     else Ret "pending")
    any_exception (fun _ => Ret "unknown").
End YooMoneyPayment.

Module QiwiPayment.
Record t := mk { token : string }.

Definition create_payment (self : t) (amount : Z)
    (order_id description : string) : coro payment_data :=
  wrap_create_errors "Ошибка подключения к QIWI"
                     "Ошибка создания платежа QIWI"
    (let* _ := utcnow in     (* expirationDateTime of the request body *)
     let* result := fetch (ApiCreate "qiwi" amount order_id description) in
     let* bill_id := py_item result "billId" in
     let* pay_url := py_item result "payUrl" in
     let* now := utcnow in
     Ret (mkPaymentData bill_id (Payment.GivenUrl pay_url)
                        amount (now + minutes 15))).

Definition check_payment (self : t) (payment_id : json) : coro string :=
  try_except
    (let* result := fetch (ApiCheck "qiwi" payment_id) in
     let* st := py_get result "status" (JObj ∅) in
     let* value := py_get st "value" (JStr "unknown") in
     if eq_str value "PAID" then Ret "completed"
     else if in_strs value ["REJECTED"; "EXPIRED"] then Ret "failed"
     else Ret "pending")
    any_exception (fun _ => Ret "unknown").
End QiwiPayment.

Module CryptomusPayment.
Record t := mk { api_key : string; merchant_id : option string }.

Definition create_payment (self : t) (amount : Z)
    (order_id description : string) : coro payment_data :=
  wrap_create_errors "Ошибка подключения к Cryptomus"
                     "Ошибка создания криптоплатежа"
    (let* result := fetch (ApiCreate "crypto" amount order_id description) in
     let* st := py_get result "state" JNull in
     if eq_zero st then
       let* data := py_get result "result" (JObj ∅) in
       let* uuid := py_get data "uuid" JNull in
       let* pay_url := py_get data "url" JNull in
       let* now := utcnow in
       Ret (mkPaymentData uuid (Payment.GivenUrl pay_url)
                          amount (now + minutes 15))
     else
       let* _ := py_get result "message" JNull in
       Raise (PaymentError "Cryptomus error")).

Definition check_payment (self : t) (payment_id : json) : coro string :=
  try_except
    (let* result := fetch (ApiCheck "crypto" payment_id) in
     let* st := py_get result "state" JNull in
     if eq_zero st then
       let* data := py_get result "result" (JObj ∅) in
       let* status := py_get data "payment_status" JNull in
       if eq_str status "paid" then Ret "completed"
       else if in_strs status ["fail"; "cancel"; "system_fail"]
            then Ret "failed"
       else Ret "pending"
     else Ret "unknown")
    any_exception (fun _ => Ret "unknown").
End CryptomusPayment.

Module PaymentManager.
Record t := mk {
  yoomoney : option YooMoneyPayment.t;
  qiwi : option QiwiPayment.t;
  cryptomus : option CryptomusPayment.t
}.

(** [__init__]: a wrapper per credential that is set. *)
Definition init (cfg : Config) : t :=
  mk (if truthy (YOOMONEY_TOKEN cfg)
      then Some (YooMoneyPayment.mk (default "" (YOOMONEY_TOKEN cfg)))
      else None)
     (if truthy (QIWI_TOKEN cfg)
      then Some (QiwiPayment.mk (default "" (QIWI_TOKEN cfg)))
      else None)
     (if truthy (CRYPTOMUS_API_KEY cfg)
      then Some (CryptomusPayment.mk (default "" (CRYPTOMUS_API_KEY cfg))
                                     (CRYPTOMUS_MERCHANT_ID cfg))
      else None).

Definition create_payment (self : t) (method : string) (amount : Z)
    (order_id description : string) : coro payment_data :=
  try_except
    (match String.eqb method "yoomoney", yoomoney self with
     | true, Some y => YooMoneyPayment.create_payment y amount order_id description
     | _, _ =>
     match String.eqb method "qiwi", qiwi self with
     | true, Some q => QiwiPayment.create_payment q amount order_id description
     | _, _ =>
     match String.eqb method "crypto", cryptomus self with
     | true, Some c => CryptomusPayment.create_payment c amount order_id description
     | _, _ =>
         Raise (PaymentError ("Платежный метод " ++ method ++ " недоступен"))
     end end end)
    any_exception (fun e =>
      if is_PaymentError e then Raise e
      else Raise (PaymentError "Ошибка создания платежа")).

Definition check_payment (self : t) (method : string) (payment_id : json)
  : coro string :=
  try_except
    (match String.eqb method "yoomoney", yoomoney self with
     | true, Some y => YooMoneyPayment.check_payment y payment_id
     | _, _ =>
     match String.eqb method "qiwi", qiwi self with
     | true, Some q => QiwiPayment.check_payment q payment_id
     | _, _ =>
     match String.eqb method "crypto", cryptomus self with
     | true, Some c => CryptomusPayment.check_payment c payment_id
     | _, _ => Ret "unknown"
     end end end)
    any_exception (fun _ => Ret "unknown").

Definition get_available_methods (self : t) : list string :=
  (match yoomoney self with Some _ => ["yoomoney"] | None => [] end)
  ++ (match qiwi self with Some _ => ["qiwi"] | None => [] end)
  ++ (match cryptomus self with Some _ => ["crypto"] | None => [] end).
End PaymentManager.

(** ** bot/utils/helpers.py *)

(** [calculate_end_date]: [ValueError] for a plan that is not in
    [SUBSCRIPTION_PLANS]. *)
Definition calculate_end_date (cfg : Config) (plan_type : string) : coro Z :=
  match plan_of cfg plan_type with
  | None => Raise ValueError
  | Some plan =>
      let* now := utcnow in
      Ret (now + days (duration_days plan))
  end.

Definition server_locations : list string :=
  ["Netherlands"; "Germany"; "France"; "United States"; "Japan"; "Singapore"].

(** [get_random_server_location]: [random.choice(locations)]. *)
Definition get_random_server_location : coro string :=
  RandomChoice (fun i =>
    Ret (nth (i mod length server_locations) server_locations "Netherlands")).

(** [calculate_referral_bonus]:
    [int(amount * Config.REFERRAL_BONUS_PERCENT / 100)], the product an
    exact int, the quotient a float, [int] truncating it. *)
Definition calculate_referral_bonus (cfg : Config) (amount : Z) : coro Z :=
  py_int (truediv (amount * REFERRAL_BONUS_PERCENT cfg) 100).

(** ** Sessions *)

(** A SQLAlchemy session: the rows as the handler sees them, and whether
    it has written to them since its last commit.  The handlers never
    await between opening a session and committing what they wrote, so
    the working copy is current whenever it is written back. *)
Module Session.
Record t := mk { work : DB; dirty : bool }.

Definition write (self : t) (d : DB) : t := mk d true.

(** [db_manager.get_session()] *)
Definition open : coro t :=
  let* d := query in Ret (mk d false).

(** [session.commit()]: nothing is sent for a clean session. *)
Definition commit (self : t) : coro t :=
  if dirty self
  then (Commit (work self) (fun _ => Ret (mk (work self) false)))
  else Ret self.
End Session.

(** The [is_expired] property of [Payment]:
    [self.expires_at and datetime.utcnow() > self.expires_at]. *)
Definition payment_is_expired (p : Payment.t) : coro bool :=
  match Payment.expires_at p with
  | None => Ret false
  | Some e => let* now := utcnow in Ret (Z.ltb e now)
  end.

(** ** bot/handlers/main.py *)

(** Conversation states. *)
Definition SELECTING_PLAN : Z := 0.
Definition SELECTING_PAYMENT_METHOD : Z := 1.
Definition WAITING_PAYMENT : Z := 2.
Definition END : Z := -1.

(** [get_or_create_user], on the Telegram id of the caller.  The
    [last_activity] it stamps is not among the modelled columns. *)
Definition get_or_create_user (telegram_user_id : Z) : coro User.t :=
  let* session := Session.open in
  match List.find (fun u => Z.eqb (User.telegram_id u) telegram_user_id)
                  (users (Session.work session)) with
  | Some user =>
      let* _ := Session.commit (Session.write session (Session.work session)) in
      Ret user
  | None =>
      let d := Session.work session in
      let user := User.mk (next_id (map User.id (users d))) telegram_user_id
                          None 0%float 0 0%float in
      let* session :=
        Session.commit (Session.write session (set_users d (users d ++ [user]))) in
      let* _ := Session.commit (Session.write session (Session.work session)) in
      Ret user
  end.

(** What the body of [process_payment]'s inner [try] leaves behind: the
    provider's answer, or the [return] of its [except PaymentError]. *)
Inductive created : Type :=
| Created (pd : payment_data)
| GaveUp (ret : Z).

(** The part of [process_payment] that follows the commit of the new
    record: the call of the provider inside the inner [try], and what is
    sent to the user. *)
Definition request_invoice (payment_manager : PaymentManager.t) (plan : Plan)
    (session : Session.t) (payment : Payment.t) : coro Z :=
  let* outcome :=
    try_except
      (let* pd :=
         PaymentManager.create_payment payment_manager
           (Payment.payment_method payment)
           (Payment.amount payment)
           ("vpn_" ++ pretty (Payment.id payment))
           ("VPN подписка " ++ plan_name plan) in
       let payment :=
         Payment.set_external payment (pd_payment_id pd) (pd_payment_url pd) in
       let* _ :=
         Session.commit
           (Session.write session
              (update_payment (Session.work session) payment)) in
       Ret (Created pd))
      is_PaymentError
      (fun e =>
         await (Telegram (EditMessageText
                  (MsgPaymentError
                     (match e with PaymentError msg => msg | _ => "" end)))) ;;
         Ret (GaveUp END)) in
  match outcome with
  | GaveUp ret => Ret ret
  | Created pd =>
      await (Telegram (EditMessageText
               (MsgPaymentCreated (plan_name plan) (price plan)
                                  (pd_payment_url pd)))) ;;
      Ret WAITING_PAYMENT
  end.

(** [process_payment].  [payment_method] is the callback data without
    its [pay_] prefix, [selected_plan] is
    [context.user_data.get('selected_plan')]. *)
Definition process_payment (cfg : Config) (payment_manager : PaymentManager.t)
    (telegram_user_id : Z) (payment_method : string)
    (selected_plan : option string) : coro Z :=
  await (Telegram AnswerCallback) ;;
  if negb (truthy selected_plan) then
    await (Telegram (EditMessageText MsgPlanNotSelected)) ;;
    Ret END
  else
  let plan_type := default "" selected_plan in
  match plan_of cfg plan_type with
  | None => Raise KeyError              (* SUBSCRIPTION_PLANS[plan_type] *)
  | Some plan =>
  let* user := get_or_create_user telegram_user_id in
  let* session := Session.open in
  try_except
    ((* Payment(..., expires_at=datetime.utcnow() + timedelta(minutes=15)) *)
     let* now := utcnow in
     (* session.add; session.commit: the INSERT fills in id, status and
        created_at from the column defaults *)
     let* inserted_at := utcnow in
     let d := Session.work session in
     let payment :=
       Payment.mk (next_id (map Payment.id (payments d))) (User.id user)
                  (price plan * 100) plan_type payment_method
                  JNull Payment.NoUrl "pending" inserted_at None
                  (Some (now + minutes 15)) in
     let* session :=
       Session.commit
         (Session.write session (set_payments d (payments d ++ [payment]))) in
     request_invoice payment_manager plan session payment)
    any_exception
    (fun _ =>
       await (Telegram (EditMessageText MsgErrorGeneral)) ;;
       Ret END)
  end.

(** [for sub in old_subs: sub.is_active = False], [old_subs] being the
    rows with this [user_id] and [is_active=True]. *)
Definition deactivate_subscriptions (d : DB) (user_id : Z) : DB :=
  set_subscriptions d
    (map (fun sub =>
            if Z.eqb (Subscription.user_id sub) user_id
               && Subscription.is_active sub
            then Subscription.set_is_active sub false else sub)
         (subscriptions d)).

(** The [if payment_status == 'completed'] branch of [verify_payment]. *)
Definition activate (cfg : Config) (chat_id : Z) (session : Session.t)
    (payment : Payment.t) : coro unit :=
  let* now := utcnow in
  let payment :=
    Payment.set_completed_at (Payment.set_status payment "completed") (Some now) in
  let session :=
    Session.write session (update_payment (Session.work session) payment) in
  match user_by_id (Session.work session) (Payment.user_id payment) with
  | None => Raise AttributeError        (* user is None *)
  | Some user =>
  let user :=
    User.set_total_spent user
      (User.total_spent user + Payment.amount_rubles payment)%float in
  let session :=
    Session.write session (update_user (Session.work session) user) in
  (* old subscriptions of the user that are active *)
  let session :=
    Session.write session
      (deactivate_subscriptions (Session.work session) (Payment.user_id payment)) in
  let* server_location := get_random_server_location in
  let* end_date := calculate_end_date cfg (Payment.plan_type payment) in
  let* vpn_config :=
    GenerateVpnConfig (User.telegram_id user) server_location Ret in
  match plan_of cfg (Payment.plan_type payment) with
  | None => Raise KeyError
  | Some plan =>
  (* session.add(subscription): id and start_date come from the column
     defaults at the next commit, and nothing happens in between *)
  let* start_date := utcnow in
  let d := Session.work session in
  let subscription :=
    Subscription.mk (next_id (map Subscription.id (subscriptions d)))
                    (Payment.user_id payment) (Payment.plan_type payment)
                    start_date end_date true vpn_config
                    ("VPN_" ++ plan_name plan) server_location in
  let session :=
    Session.write session (set_subscriptions d (subscriptions d ++ [subscription])) in
  let* session :=
    match User.referrer_id user with
    | Some r =>
        if Z.eqb r 0 then Ret session else
        match user_by_id (Session.work session) r with
        | None => Ret session
        | Some referrer =>
            let* bonus := calculate_referral_bonus cfg (Payment.amount payment) in
            let referrer :=
              User.set_referral_balance referrer
                (User.referral_balance referrer + truediv bonus 100)%float in
            let* session :=
              Session.commit
                (Session.write session
                   (update_user (Session.work session) referrer)) in
            try_except
              (await (Telegram (SendMessage (User.telegram_id referrer)
                          (MsgReferralBonus (truediv bonus 100) (User.id user)))))
              any_exception (fun _ => Ret tt) ;;
            Ret session
        end
    | None => Ret session
    end in
  let* _ := Session.commit session in
  await (Telegram (EditMessageText
           (MsgPaymentSuccess (plan_name plan) end_date server_location))) ;;
  await (Telegram (SendDocument chat_id vpn_config)) ;;
  await (Telegram (SendPhoto chat_id vpn_config)) ;;
  await (Telegram MainMenu)
  end end.

(** [verify_payment].  [payment_id] is the number in the callback data,
    [chat_id] is [update.effective_chat.id]. *)
Definition verify_payment (cfg : Config) (payment_manager : PaymentManager.t)
    (chat_id payment_id : Z) : coro Z :=
  await (Telegram AnswerCallback) ;;
  let* session := Session.open in
  try_except
    (match payment_by_id (Session.work session) payment_id with
     | None =>
         await (Telegram (EditMessageText MsgPaymentNotFound)) ;;
         Ret END
     | Some payment =>
     let* expired := payment_is_expired payment in
     if expired then
       await (Telegram (EditMessageText MsgPaymentTimeout)) ;;
       Ret END
     else
     let* payment_status :=
       PaymentManager.check_payment payment_manager
         (Payment.payment_method payment) (Payment.payment_id payment) in
     (if String.eqb payment_status "completed" then
        activate cfg chat_id session payment
      else if String.eqb payment_status "failed" then
        let payment := Payment.set_status payment "failed" in
        let* _ :=
          Session.commit
            (Session.write session
               (update_payment (Session.work session) payment)) in
        await (Telegram (EditMessageText MsgPaymentFailed))
      else
        (* pending or unknown *)
        let* now := utcnow in
        match Payment.expires_at payment with
        | None => Raise TypeError
        | Some e =>
            let* time_left :=
              py_int (PrimFloat.div (truediv (e - now) 1000000) 60%float) in
            if Z.ltb 0 time_left then
              await (Telegram (EditMessageText
                       (MsgPaymentPending (Payment.amount_rubles payment)
                          (Payment.payment_url payment) time_left)))
            else
              await (Telegram (EditMessageText MsgPaymentTimeout))
        end) ;;
     Ret END
     end)
    any_exception
    (fun _ =>
       await (Telegram (EditMessageText MsgErrorGeneral)) ;;
       Ret END).

(** ** bot/handlers/admin.py *)

(** The two counters of the broadcast loop. *)
Record counters := mkCounters { sent_count : Z; failed_count : Z }.

(** One turn of the [for i, user in enumerate(users)] loop.  The [try]
    block is one block in the source; it is written in two nested parts
    because its handler sees [sent_count] as it is when the exception is
    raised: not yet incremented if [send_message] raised, incremented if
    something after it did. *)
Definition broadcast_one (text : string) (total_users : Z) (i : Z)
    (user : User.t) (c : counters) : coro counters :=
  try_except
    (await (Telegram (SendMessage (User.telegram_id user) (MsgText text))) ;;
     let c := mkCounters (sent_count c + 1) (failed_count c) in
     try_except
       ((if Z.eqb ((i + 1) mod 50) 0 then
           await (Telegram (EditMessageText
                    (MsgBroadcastProgress total_users (sent_count c)
                                          (failed_count c) (i + 1))))
         else Ret tt) ;;
        await Sleep ;;
        Ret c)
       any_exception
       (fun _ => Ret (mkCounters (sent_count c) (failed_count c + 1))))
    any_exception
    (fun _ => Ret (mkCounters (sent_count c) (failed_count c + 1))).

Fixpoint broadcast_loop (text : string) (total_users : Z) (i : Z)
    (users : list User.t) (c : counters) : coro counters :=
  match users with
  | [] => Ret c
  | user :: rest =>
      let* c := broadcast_one text total_users i user c in
      broadcast_loop text total_users (i + 1) rest c
  end.

(** [admin_broadcast_confirm]; [broadcast_message] is
    [context.user_data.get('broadcast_message')].  The final counts are
    what the last message shows; they are returned as well.  The row
    [log_admin_action] adds goes to a table outside the model. *)
Definition admin_broadcast_confirm (broadcast_message : option string)
  : coro (option counters) :=
  await (Telegram AnswerCallback) ;;
  if negb (truthy broadcast_message) then
    await (Telegram (EditMessageText MsgNoBroadcastMessage)) ;;
    Ret None
  else
  let text := default "" broadcast_message in
  let* session := Session.open in
  let users := users (Session.work session) in
  let total_users := Z.of_nat (length users) in
  await (Telegram (EditMessageText (MsgBroadcastStarted total_users))) ;;
  let* c := broadcast_loop text total_users 0 users (mkCounters 0 0) in
  await (Telegram (EditMessageText
           (MsgBroadcastResult (sent_count c) total_users (failed_count c)))) ;;
  Ret (Some c).

(** ** The event loop *)

(** A handler in the event loop: not started, suspended at an [await],
    or finished. *)
Inductive task (A : Type) : Type :=
| Ready (m : coro A)
| Waiting (a : awaitable) (k : bool -> coro A)
| Done (r : res A).
Arguments Ready {A} m.
Arguments Waiting {A} a k.
Arguments Done {A} r.

(** Run a coroutine up to its next [await]. *)
Fixpoint advance {A} (w : world) (m : coro A) (s : state) : task A * state :=
  match m with
  | Ret a => (Done (Returned a), s)
  | Raise e => (Done (Raised e), s)
  | UtcNow k =>
      let t := utcnow_at w (tick s) in advance w (k t) (record s (EClock t))
  | Request c k =>
      let o := request_at w (tick s) c in
      advance w (k o) (record s (ERequest c o))
  | RandomChoice k =>
      let i := choice_at w (tick s) in advance w (k i) (record s (EChoice i))
  | GenerateVpnConfig t l k =>
      advance w (k (vpn_config_at w (tick s) t l)) (record s (EVpnConfig t l))
  | Query k => advance w (k (db s)) s
  | Commit d k => advance w (k tt) (mkState d (ECommit d :: log s))
  | Await a k => (Waiting a k, s)
  end.

(** Give the processor to a task: it completes the [await] it is
    suspended at and runs on to its next one. *)
Definition resume {A} (w : world) (t : task A) (s : state) : task A * state :=
  match t with
  | Ready m => advance w m s
  | Waiting a k => let '(ok, s') := perform w a s in advance w (k ok) s'
  | Done r => (Done r, s)
  end.

(** The loop, following a schedule: the list of the tasks it resumes, in
    order, by their position in the pool. *)
Fixpoint event_loop {A} (w : world) (schedule : list nat)
    (pool : list (task A)) (s : state) : list (task A) * state :=
  match schedule with
  | [] => (pool, s)
  | i :: rest =>
      match pool !! i with
      | Some t =>
          let '(t', s') := resume w t s in
          event_loop w rest (<[i := t']> pool) s'
      | None => event_loop w rest pool s
      end
  end.

Definition is_done {A} (t : task A) : bool :=
  match t with Done _ => true | _ => false end.

(** ** Vocabulary of the properties *)

(** The four canonical statuses. *)
Definition canonical (r : string) : Prop :=
  r = "completed" \/ r = "failed" \/ r = "pending" \/ r = "unknown".

Inductive provider : Type := YooMoney | Qiwi | Cryptomus.

Definition provider_name (p : provider) : string :=
  match p with
  | YooMoney => "yoomoney"
  | Qiwi => "qiwi"
  | Cryptomus => "crypto"
  end.

(** The statuses each [check_payment] tests for, with what it returns. *)
Definition status_table (p : provider) : list (string * string) :=
  match p with
  | YooMoney =>
      [("success", "completed"); ("refused", "failed"); ("failed", "failed")]
  | Qiwi =>
      [("PAID", "completed"); ("REJECTED", "failed"); ("EXPIRED", "failed")]
  | Cryptomus =>
      [("paid", "completed"); ("fail", "failed"); ("cancel", "failed");
       ("system_fail", "failed")]
  end.

(** The place of the status string in a provider's answer. *)
Definition carries_status (p : provider) (body : json) (st : string) : Prop :=
  match p with
  | YooMoney =>
      exists m, body = JObj m /\ m !! "status" = Some (JStr st)
  | Qiwi =>
      exists m m', body = JObj m /\ m !! "status" = Some (JObj m')
                   /\ m' !! "value" = Some (JStr st)
  | Cryptomus =>
      exists m m' state, body = JObj m /\ m !! "state" = Some state
                   /\ eq_zero state = true
                   /\ m !! "result" = Some (JObj m')
                   /\ m' !! "payment_status" = Some (JStr st)
  end.

(** What [check_payment] answers for a status string: the table's entry,
    and the final [else] branch for a string the table does not list. *)
Definition mapped_status (p : provider) (st : string) : string :=
  default "pending" (dict_get (status_table p) st).

(** A coroutine that never commits. *)
Fixpoint no_commit {A} (m : coro A) : Prop :=
  match m with
  | Ret _ => True
  | Raise _ => True
  | UtcNow k => forall x, no_commit (k x)
  | Request _ k => forall x, no_commit (k x)
  | RandomChoice k => forall x, no_commit (k x)
  | GenerateVpnConfig _ _ k => forall x, no_commit (k x)
  | Query k => forall x, no_commit (k x)
  | Commit _ _ => False
  | Await _ k => forall x, no_commit (k x)
  end.

(** The stores committed in a history, latest first, and what a state
    says about the store: its content and the commits that led to it. *)
Definition commits (l : list event) : list DB :=
  omap (fun e => match e with ECommit d => Some d | _ => None end) l.

Definition store_history (s : state) : DB * list DB :=
  (db s, commits (log s)).

(** A coroutine that never awaits: a synchronous function. *)
Fixpoint sync {A} (m : coro A) : Prop :=
  match m with
  | Ret _ => True
  | Raise _ => True
  | UtcNow k => forall x, sync (k x)
  | Request _ k => forall x, sync (k x)
  | RandomChoice k => forall x, sync (k x)
  | GenerateVpnConfig _ _ k => forall x, sync (k x)
  | Query k => forall x, sync (k x)
  | Commit _ k => forall x, sync (k x)
  | Await _ _ => False
  end.

(** A task that will not commit any more. *)
Definition quiet_task {A} (t : task A) : Prop :=
  match t with
  | Ready m => no_commit m
  | Waiting _ k => forall ok, no_commit (k ok)
  | Done _ => True
  end.

(** What is left of [verify_payment] after its first [await], the
    answer to the callback query. *)
Definition answered_verify (cfg : Config) (pm : PaymentManager.t)
    (chat_id payment_id : Z) : bool -> coro Z :=
  match verify_payment cfg pm chat_id payment_id with
  | Await _ k => k
  | _ => fun _ => Ret END
  end.

(** A [verify_payment] task that has not reached its database work. *)
Definition fresh_verify (cfg : Config) (pm : PaymentManager.t)
    (chat_id payment_id : Z) (t : task Z) : Prop :=
  t = Ready (verify_payment cfg pm chat_id payment_id)
  \/ t = Waiting (Telegram AnswerCallback)
                 (answered_verify cfg pm chat_id payment_id).

(** The provider calls in a history, latest first. *)
Definition provider_calls (l : list event) : list api_call :=
  omap (fun e => match e with ERequest c _ => Some c | _ => None end) l.

(** The Telegram sends to chats in a history, latest first. *)
Definition sends (l : list event) : list Z :=
  omap (fun e => match e with
                 | EAwait (Telegram (SendMessage chat _)) _ => Some chat
                 | _ => None
                 end) l.

(** The rows of [user_id] with [is_active] set. *)
Definition active_subscriptions (d : DB) (user_id : Z) : list Subscription.t :=
  List.filter (fun sub => Z.eqb (Subscription.user_id sub) user_id
                          && Subscription.is_active sub)
              (subscriptions d).

(** Assumptions on a world. *)
Definition callbacks_answered (w : world) : Prop :=
  forall n, telegram_at w n AnswerCallback = true.

Definition clock_not_after (w : world) (t : Z) : Prop :=
  forall n, utcnow_at w n <= t.

Definition clock_after (w : world) (t : Z) : Prop :=
  forall n, t < utcnow_at w n.

(** The manager's check of this payment answers [r] whenever it is made. *)
Definition provider_reports (w : world) (pm : PaymentManager.t)
    (p : Payment.t) (r : string) : Prop :=
  forall s, fst (run w (PaymentManager.check_payment pm
                          (Payment.payment_method p) (Payment.payment_id p)) s)
            = Returned r.

(** [q] is the order [p], possibly with another status and completion
    time. *)
Definition same_order (p q : Payment.t) : Prop :=
  Payment.user_id q = Payment.user_id p
  /\ Payment.amount q = Payment.amount p
  /\ Payment.plan_type q = Payment.plan_type p
  /\ Payment.payment_method q = Payment.payment_method p
  /\ Payment.payment_id q = Payment.payment_id p
  /\ Payment.expires_at q = Payment.expires_at p.

(** [d] is what [n] activations of the payment [pid], which was [p]
    with buyer [u] in [d0], make of [d0], as far as the checks and the
    counts go: the order and the buyer are still there, [n] subscription
    rows have been added, the amount has been added [n] times to the
    buyer's total and the bonus [n] times to the referrer's balance. *)
Definition activated_times (pid : Z) (p : Payment.t) (u : User.t) (bonus : Z)
    (d0 : DB) (n : nat) (d : DB) : Prop :=
  (exists q, payment_by_id d pid = Some q /\ same_order p q)
  /\ (exists v,
        user_by_id d (Payment.user_id p) = Some v
        /\ User.referrer_id v = User.referrer_id u
        /\ User.total_spent v
           = Nat.iter n (fun x => (x + Payment.amount_rubles p)%float)
                      (User.total_spent u))
  /\ length (subscriptions d) = (n + length (subscriptions d0))%nat
  /\ (forall r ref,
        User.referrer_id u = Some r -> r <> 0 ->
        user_by_id d0 r = Some ref ->
        exists ref',
          user_by_id d r = Some ref'
          /\ User.referral_balance ref'
             = Nat.iter n (fun x => (x + truediv bonus 100)%float)
                        (User.referral_balance ref)).

(** Where a [verify_payment] task stands: before its database work
    ([false]) or past the commit of its activation ([true]). *)
Definition phase (cfg : Config) (pm : PaymentManager.t) (chat_id pid : Z)
    (past : bool) (t : task Z) : Prop :=
  if past then quiet_task t else fresh_verify cfg pm chat_id pid t.

(** Two [verify_payment] tasks on the payment [pid] and the store, at a
    moment of a schedule: the store holds as many activations as there
    are tasks past their commit. *)
Definition two_verifications (cfg : Config) (pm : PaymentManager.t)
    (chat_id pid : Z) (p : Payment.t) (u : User.t) (bonus : Z) (d0 : DB)
    (pool : list (task Z)) (s : state) : Prop :=
  exists t1 t2 past1 past2,
    pool = [t1; t2]
    /\ phase cfg pm chat_id pid past1 t1
    /\ phase cfg pm chat_id pid past2 t2
    /\ activated_times pid p u bonus d0
         (Nat.b2n past1 + Nat.b2n past2) (db s).

(** ** Concrete worlds and stores for the examples *)

(** A world whose providers answer every call with [body] and whose
    Telegram calls succeed; the clock stands at [t]. *)
Definition answering (t : Z) (body : json) : world :=
  mkWorld (fun _ => t) (fun _ _ => HttpJson body) (fun _ => 0%nat)
          (fun _ _ _ => "conf") (fun _ _ => true).

Definition empty_db : DB := mkDB [] [] [].
Definition start (d : DB) : state := mkState d [].

(** A world as [answering], with a clock that advances by one
    microsecond per effect. *)
Definition ticking (body : json) : world :=
  mkWorld (fun n => Z.of_nat n) (fun _ _ => HttpJson body) (fun _ => 0%nat)
          (fun _ _ _ => "conf") (fun _ _ => true).

(** A world whose providers cannot be reached. *)
Definition unreachable (t : Z) : world :=
  mkWorld (fun _ => t) (fun _ _ => HttpRaise RequestException) (fun _ => 0%nat)
          (fun _ _ _ => "conf") (fun _ _ => true).

(** A store with a buyer (user 1) referred by user 2, and the buyer's
    pending payment for the one-month plan through YooMoney, created at
    time 0. *)
Definition buyer : User.t := User.mk 1 101 (Some 2) 0%float 0 0%float.
Definition referrer : User.t := User.mk 2 102 None 0%float 1 0%float.
Definition pending_payment : Payment.t :=
  Payment.mk 1 1 29900 "1_month" "yoomoney" (JStr "req-1")
             (Payment.YooMoneyContract (JStr "req-1")) "pending"
             0 None (Some (minutes 15)).
Definition shop_db : DB := mkDB [buyer; referrer] [] [pending_payment].

Definition manager : PaymentManager.t := PaymentManager.init default_config.

(** YooMoney's answer for a paid operation. *)
Definition paid_body : json := JObj {[ "status" := JStr "success" ]}.

(** The store an activation commits: the payment completed at [now], the
    amount added to the buyer's total, the buyer's active subscriptions
    switched off, the new subscription [sub] appended and, for a buyer
    with a referrer on file, the bonus added to the referrer's balance. *)
Definition credited (cfg : Config) (p : Payment.t) (u : User.t) (d : DB) : DB :=
  match User.referrer_id u with
  | Some r =>
      if Z.eqb r 0 then d else
      match user_by_id d r,
            int_of_float (truediv (Payment.amount p * REFERRAL_BONUS_PERCENT cfg) 100)
      with
      | Some referrer, Some bonus =>
          update_user d
            (User.set_referral_balance referrer
               (User.referral_balance referrer + truediv bonus 100)%float)
      | _, _ => d
      end
  | None => d
  end.

Definition activated (cfg : Config) (p : Payment.t) (u : User.t)
    (sub : Subscription.t) (now : Z) (d : DB) : DB :=
  let p' := Payment.set_completed_at (Payment.set_status p "completed") (Some now) in
  let u' := User.set_total_spent u
              (User.total_spent u + Payment.amount_rubles p)%float in
  let d1 := deactivate_subscriptions (update_user (update_payment d p') u')
                                     (Payment.user_id p) in
  credited cfg p u' (set_subscriptions d1 (subscriptions d1 ++ [sub])).

(** [n] users with Telegram ids 1 to [n]. *)
Definition recipients (n : nat) : list User.t :=
  map (fun i => User.mk (Z.of_nat i) (Z.of_nat i) None 0%float 0 0%float)
      (seq 1 n).

(** A world in which the sends to every tenth recipient raise. *)
Definition every_tenth_send_fails : world :=
  mkWorld (fun _ => 0) (fun _ _ => HttpRaise RequestException) (fun _ => 0%nat)
          (fun _ _ _ => "conf")
          (fun _ c => match c with
                      | SendMessage chat _ => negb (Z.eqb (chat mod 10) 0)
                      | _ => true
                      end).

(** A world in which every send succeeds and the progress updates of
    the broadcast raise. *)
Definition progress_update_fails : world :=
  mkWorld (fun _ => 0) (fun _ _ => HttpRaise RequestException) (fun _ => 0%nat)
          (fun _ _ _ => "conf")
          (fun _ c => match c with
                      | EditMessageText (MsgBroadcastProgress _ _ _ _) => false
                      | _ => true
                      end).

(** No edit of the progress message raises. *)
Definition progress_updates_succeed (w : world) : Prop :=
  forall n total sent failed done,
    telegram_at w n (EditMessageText (MsgBroadcastProgress total sent failed done))
    = true.

(** A schedule that alternates between two tasks, seven turns each. *)
Definition alternating : list nat :=
  [0; 1; 0; 1; 0; 1; 0; 1; 0; 1; 0; 1; 0; 1]%nat.

(** ** Vocabulary of the further properties *)

(** How a coroutine can end: every value it returns satisfies [R] and
    every exception that leaves it satisfies [E], whatever the world
    answers on the way. *)
Fixpoint ends_in {A} (R : A -> Prop) (E : exn -> Prop) (m : coro A) : Prop :=
  match m with
  | Ret a => R a
  | Raise e => E e
  | UtcNow k => forall x, ends_in R E (k x)
  | Request _ k => forall x, ends_in R E (k x)
  | RandomChoice k => forall x, ends_in R E (k x)
  | GenerateVpnConfig _ _ k => forall x, ends_in R E (k x)
  | Query k => forall x, ends_in R E (k x)
  | Commit _ k => forall x, ends_in R E (k x)
  | Await _ k => forall x, ends_in R E (k x)
  end.

(** The result of a run satisfies [R] if it is a value and [E] if it is
    an exception. *)
Definition outcome {A} (R : A -> Prop) (E : exn -> Prop) (r : res A) : Prop :=
  match r with
  | Returned a => R a
  | Raised e => E e
  end.

(** The texts [create_payment] can raise a [PaymentError] with. *)
Definition connect_message (p : provider) : string :=
  match p with
  | YooMoney => "Ошибка подключения к YooMoney"
  | Qiwi => "Ошибка подключения к QIWI"
  | Cryptomus => "Ошибка подключения к Cryptomus"
  end.

Definition create_message (p : provider) : string :=
  match p with
  | YooMoney => "Ошибка создания платежа YooMoney"
  | Qiwi => "Ошибка создания платежа QIWI"
  | Cryptomus => "Ошибка создания криптоплатежа"
  end.

Definition unavailable_message (method : string) : string :=
  "Платежный метод " ++ method ++ " недоступен".

(** Every Telegram call succeeds. *)
Definition telegram_works (w : world) : Prop :=
  forall n c, telegram_at w n c = true.

(** The manager's [create_payment] returns whenever it is called. *)
Definition provider_creates (w : world) (pm : PaymentManager.t)
    (method : string) : Prop :=
  forall amount order_id description s,
    exists pd, fst (run w (PaymentManager.create_payment pm method amount
                             order_id description) s) = Returned pd.

(** What [PaymentManager.create_payment] can raise for [method]: a
    [PaymentError] whose text is the manager's for a method it does not
    serve, or one of the two texts of the wrapper that serves it. *)
Definition create_error (pm : PaymentManager.t) (method : string) (e : exn)
  : Prop :=
  exists msg,
    e = PaymentError msg
    /\ (msg = unavailable_message method
        \/ exists p,
             method = provider_name p
             /\ In method (PaymentManager.get_available_methods pm)
             /\ (msg = connect_message p \/ msg = create_message p)).

(** A provider's answer that is a JSON object but carries no status
    string where [check_payment] looks for one. *)
Definition lacks_status (p : provider) (body : json) : Prop :=
  match p with
  | YooMoney =>
      exists m, body = JObj m /\ m !! "status" = None
  | Qiwi =>
      exists m, body = JObj m
                /\ (m !! "status" = None
                    \/ exists m', m !! "status" = Some (JObj m')
                                  /\ m' !! "value" = None)
  | Cryptomus =>
      exists m state, body = JObj m /\ m !! "state" = Some state
                /\ eq_zero state = true
                /\ (m !! "result" = None
                    \/ exists m', m !! "result" = Some (JObj m')
                                  /\ m' !! "payment_status" = None)
  end.

Definition is_object (j : json) : bool :=
  match j with JObj _ => true | _ => false end.

(** An outcome of the HTTP exchange that gives [check_payment] no JSON
    object to read: the request raised (no connection, an error status,
    a body that is not JSON), or the body is not an object. *)
Definition no_object (o : http_outcome) : Prop :=
  match o with
  | HttpRaise _ => True
  | HttpJson j => is_object j = false
  end.

(** YooMoney's answer for an operation it refused. *)
Definition refused_body : json := JObj {[ "status" := JStr "refused" ]}.

(** YooMoney's answer for an operation in progress, and its answer to a
    payment request it accepted. *)
Definition in_progress_body : json := JObj {[ "status" := JStr "in_progress" ]}.
Definition accepted_body : json :=
  JObj {[ "status" := JStr "success"; "request_id" := JStr "req-9" ]}.

(** A clock whose readings never go back. *)
Definition clock_never_goes_back (w : world) : Prop :=
  forall i j, (i <= j)%nat -> utcnow_at w i <= utcnow_at w j.

(** A world as [ticking], with a clock that stops after a millisecond. *)
Definition stopping (body : json) : world :=
  mkWorld (fun n => Z.min (Z.of_nat n) 1000) (fun _ _ => HttpJson body)
          (fun _ => 0%nat) (fun _ _ _ => "conf") (fun _ _ => true).

(** ** Python strings and slices *)

(** [text.replace(old, new)] for a non-empty [old], on the UTF-8 bytes
    of the strings: the occurrences of [old] are found from left to
    right and do not overlap.  [skip] counts the characters still to
    drop of the occurrence that is being replaced. *)
Fixpoint replace_from (old new : string) (skip : nat) (text : string)
  : string :=
  match text with
  | EmptyString => EmptyString
  | String c rest =>
      match skip with
      | S n => replace_from old new n rest
      | O =>
          if String.prefix old text
          then new ++ replace_from old new (String.length old - 1) rest
          else String c (replace_from old new 0 rest)
      end
  end.

(** [text.replace('', new)]: [new] before every character and at the
    end. *)
Fixpoint replace_empty (new : string) (text : string) : string :=
  match text with
  | EmptyString => new
  | String c rest => new ++ String c (replace_empty new rest)
  end.

Definition str_replace (text old new : string) : string :=
  match old with
  | EmptyString => replace_empty new text
  | _ => replace_from old new 0 text
  end.

(** [l[:k]] and [l[k:]]: a negative [k] counts from the end, and a [k]
    beyond either end is the end. *)
Definition slice_index {A} (l : list A) (k : Z) : nat :=
  Z.to_nat (if Z.ltb k 0 then Z.of_nat (length l) + k else k).

Definition slice_to {A} (l : list A) (k : Z) : list A :=
  firstn (slice_index l k) l.

Definition slice_from {A} (l : list A) (k : Z) : list A :=
  skipn (slice_index l k) l.

(** The [days] and [seconds] attributes of a [timedelta] of [d]
    microseconds: [days] may be negative, [seconds] is between 0 and
    86399. *)
Definition timedelta_days (d : Z) : Z := d / days 1.
Definition timedelta_seconds (d : Z) : Z := (d mod days 1) / 1000000.

(** ** bot/utils/helpers.py: texts *)

Definition special_chars : list string :=
  ["_"; "*"; "["; "]"; "("; ")"; "~"; "`"; ">"; "#"; "+"; "-"; "="; "|";
   "{"; "}"; "."; "!"].

(** [escape_markdown]: one [replace] per special character, in the
    order of the list. *)
Definition escape_markdown (text : string) : string :=
  fold_left (fun text char => str_replace text char ("\" ++ char))
            special_chars text.

(** What [escape_markdown] amounts to, character by character. *)
Definition is_special (c : Ascii.ascii) : bool :=
  existsb (String.eqb (String c "")) special_chars.

Fixpoint escape_each (text : string) : string :=
  match text with
  | EmptyString => EmptyString
  | String c rest =>
      if is_special c then "\" ++ String c (escape_each rest)
      else String c (escape_each rest)
  end.

(** One [replace] of a single character [c], character by character. *)
Fixpoint replace_char (c : Ascii.ascii) (new text : string) : string :=
  match text with
  | EmptyString => EmptyString
  | String x rest =>
      if Ascii.eqb c x then new ++ replace_char c new rest
      else String x (replace_char c new rest)
  end.

(** Functions that measure and cut a text see it as the list of its
    characters (code points); [dot] is the character of the literal
    ['...']. *)
Section Text.

Context {char : Type}.
Variable dot : char.

(** [truncate_text(text, max_length)] *)
Definition truncate_text (text : list char) (max_length : Z) : list char :=
  if Z.leb (Z.of_nat (length text)) max_length then text
  else slice_to text (max_length - 3) ++ [dot; dot; dot].

(** admin.py, [admin_logs_view]: the lines shown between the [<pre>]
    tags, given the lines of the log file.  [lines[-20:]], each line
    longer than 100 characters cut to 97 and three dots. *)
Definition shown_log_line (line : list char) : list char :=
  if Z.ltb 100 (Z.of_nat (length line))
  then slice_to line 97 ++ [dot; dot; dot]
  else line.

Definition shown_log_lines (lines : list (list char)) : list (list char) :=
  map shown_log_line (slice_from lines (-20)).

End Text.

(** [format_time_ago(dt)], [dt] a datetime. *)
Definition format_time_ago (dt : Z) : coro string :=
  let* now := utcnow in
  let diff := now - dt in
  if Z.ltb 0 (timedelta_days diff) then
    Ret (pretty (timedelta_days diff) ++ " дн. назад")
  else if Z.ltb 3600 (timedelta_seconds diff) then
    Ret (pretty (timedelta_seconds diff / 3600) ++ " ч. назад")
  else if Z.ltb 60 (timedelta_seconds diff) then
    Ret (pretty (timedelta_seconds diff / 60) ++ " мин. назад")
  else Ret "только что".

(** ** bot/utils/helpers.py: codes, servers and configurations *)

(** [string.ascii_uppercase + string.digits] *)
Definition referral_chars : list Ascii.ascii :=
  String.list_ascii_of_string "ABCDEFGHIJKLMNOPQRSTUVWXYZ0123456789".

(** [''.join(random.choice(chars) for _ in range(n))] *)
Fixpoint random_chars (n : nat) : coro string :=
  match n with
  | O => Ret EmptyString
  | S n' =>
      RandomChoice (fun i =>
        let* rest := random_chars n' in
        Ret (String (nth (i mod length referral_chars) referral_chars Ascii.zero)
                    rest))
  end.

(** [generate_referral_code(length)]: [range] of a negative length is
    empty. *)
Definition generate_referral_code (length : Z) : coro string :=
  random_chars (Z.to_nat length).

(** The dict of [get_server_endpoint] and its default. *)
Definition servers : list (string * string) :=
  [ ("Netherlands", "nl.vpnserver.com:51820");
    ("Germany", "de.vpnserver.com:51820");
    ("France", "fr.vpnserver.com:51820");
    ("United States", "us.vpnserver.com:51820");
    ("Japan", "jp.vpnserver.com:51820");
    ("Singapore", "sg.vpnserver.com:51820") ].

Definition get_server_endpoint (location : string) : string :=
  default "nl.vpnserver.com:51820" (dict_get servers location).

(** The dict of [get_server_flag] and its default. *)
Definition flags : list (string * string) :=
  [ ("Netherlands", "🇳🇱"); ("Germany", "🇩🇪"); ("France", "🇫🇷");
    ("United States", "🇺🇸"); ("Japan", "🇯🇵"); ("Singapore", "🇸🇬");
    ("United Kingdom", "🇬🇧"); ("Canada", "🇨🇦"); ("Australia", "🇦🇺") ].

Definition get_server_flag (location : string) : string :=
  default "🌍" (dict_get flags location).

(** The last number of the address [generate_vpn_config] assigns:
    [(user_id % 254) + 1]. *)
Definition ip_suffix (user_id : Z) : Z := user_id mod 254 + 1.

(** [generate_vpn_config(user_id, server_location)], given the private
    key that [generate_private_key()] drew.  The public key the function
    derives from it is not used in the text. *)
Definition generate_vpn_config (private_key : string) (user_id : Z)
    (server_location : string) : string :=
  let client_ip := "10.0.0." ++ pretty (ip_suffix user_id) ++ "/32" in
  "[Interface]
PrivateKey = " ++ private_key ++ "
Address = " ++ client_ip ++ "
DNS = 1.1.1.1, 8.8.8.8
MTU = 1420

[Peer]
PublicKey = SERVER_PUBLIC_KEY_PLACEHOLDER
Endpoint = " ++ get_server_endpoint server_location ++ "
AllowedIPs = 0.0.0.0/0
PersistentKeepalive = 25
".

(** ** bot/models/database.py: the properties of [Subscription] and
    [User] that read the clock *)

(** [Subscription.is_expired]: [datetime.utcnow() > self.end_date]. *)
Definition subscription_is_expired (sub : Subscription.t) : coro bool :=
  let* now := utcnow in Ret (Subscription.is_expired sub now).

(** [Subscription.days_remaining] *)
Definition days_remaining (sub : Subscription.t) : coro Z :=
  let* expired := subscription_is_expired sub in
  if expired then Ret 0
  else
    let* now := utcnow in
    Ret (timedelta_days (Subscription.end_date sub - now)).

(** [next((sub for sub in subs if sub.is_active and not sub.is_expired),
    None)]: the clock is read for the subscriptions with [is_active]
    set, one after the other, until one is not expired. *)
Fixpoint first_active (subs : list Subscription.t)
  : coro (option Subscription.t) :=
  match subs with
  | [] => Ret None
  | sub :: rest =>
      if Subscription.is_active sub then
        let* expired := subscription_is_expired sub in
        if expired then first_active rest else Ret (Some sub)
      else first_active rest
  end.

(** [User.subscriptions]: the rows of the user, in the order of the
    table. *)
Definition user_subscriptions (d : DB) (user : User.t) : list Subscription.t :=
  List.filter (fun sub => Z.eqb (Subscription.user_id sub) (User.id user))
              (subscriptions d).

(** [User.active_subscription] and [User.has_active_subscription], for a
    user whose subscriptions are [subs]. *)
Definition active_subscription (subs : list Subscription.t)
  : coro (option Subscription.t) :=
  first_active subs.

Definition has_active_subscription (subs : list Subscription.t) : coro bool :=
  let* sub := active_subscription subs in
  Ret (match sub with Some _ => true | None => false end).

(** A text of twelve characters, each a string of its own. *)
Definition sample_text : list string :=
  ["s"; "u"; "b"; "s"; "c"; "r"; "i"; "p"; "t"; "i"; "o"; "n"].

(** ** bot/handlers/main.py: choosing the payment method *)

(** The keys of [PAYMENT_METHODS] (settings.py), with their names. *)
Definition PAYMENT_METHODS : list (string * string) :=
  [ ("yoomoney", "ЮMoney"); ("qiwi", "QIWI"); ("crypto", "Криптовалюты") ].

(** The callback data of the buttons [select_payment_method] makes, one
    per available method; [PAYMENT_METHODS[method]] raises for a method
    that is not a key. *)
Fixpoint payment_buttons (methods : list string) : coro (list string) :=
  match methods with
  | [] => Ret []
  | method :: rest =>
      match dict_get PAYMENT_METHODS method with
      | None => Raise KeyError
      | Some _ =>
          let* keyboard := payment_buttons rest in
          Ret (("pay_" ++ method) :: keyboard)
      end
  end.

(** What [select_payment_method] leaves behind when it returns: the
    value it has written to [user_data['selected_plan']], the callback
    data of the buttons it has sent, and the state it returns. *)
Record selection := mkSelection {
  selected_plan : string;
  keyboard : list string;
  next_state : Z
}.

(** [select_payment_method]; [data] is [query.data] and
    [payment_methods_text] gives the text of the message, which comes
    from locales/ru.py. *)
Definition select_payment_method (payment_methods_text : Plan -> string)
    (cfg : Config) (payment_manager : PaymentManager.t) (data : string)
  : coro selection :=
  await (Telegram AnswerCallback) ;;
  let plan_type := str_replace data "plan_" "" in
  (* context.user_data['selected_plan'] = plan_type *)
  match plan_of cfg plan_type with
  | None =>
      await (Telegram (EditMessageText (MsgText "❌ Неверный план"))) ;;
      Ret (mkSelection plan_type [] END)
  | Some plan =>
      let available_methods :=
        PaymentManager.get_available_methods payment_manager in
      let* keyboard := payment_buttons available_methods in
      await (Telegram (EditMessageText (MsgText (payment_methods_text plan)))) ;;
      Ret (mkSelection plan_type (keyboard ++ ["buy_vpn"])
                       SELECTING_PAYMENT_METHOD)
  end.

(** The callback data of the plan buttons of [show_plans]. *)
Definition plan_buttons : list string :=
  ["plan_1_month"; "plan_3_months"; "plan_6_months"; "plan_12_months"].

(** ** Reasoning about runs *)

Lemma run_bind {A B} (w : world) (m : coro A) (f : A -> coro B) (s : state) :
  run w (bind m f) s =
  match run w m s with
  | (Returned a, s') => run w (f a) s'
  | (Raised e, s') => (Raised e, s')
  end.
Proof.
  revert s.
  induction m as [a|e|k IH|c k IH|k IH|t l k IH|k IH|d k IH|a k IH];
    intros s; simpl; try reflexivity; try apply IH.
  destruct (perform w a s) as [ok s']. apply IH.
Qed.

Lemma run_try_except {A} (w : world) (m : coro A) sel h (s : state) :
  run w (try_except m sel h) s =
  match run w m s with
  | (Returned a, s') => (Returned a, s')
  | (Raised e, s') => if sel e then run w (h e) s' else (Raised e, s')
  end.
Proof.
  revert s.
  induction m as [a|e|k IH|c k IH|k IH|t l k IH|k IH|d k IH|a k IH];
    intros s; simpl; try reflexivity; try apply IH.
  - destruct (sel e); reflexivity.
  - destruct (perform w a s) as [ok s']. apply IH.
Qed.


Arguments String.eqb : simpl never.
Arguments YooMoneyPayment.check_payment : simpl never.
Arguments QiwiPayment.check_payment : simpl never.
Arguments CryptomusPayment.check_payment : simpl never.

(** ** payments.py: the status checks *)

Lemma canonical_completed : canonical "completed".
Proof. left; reflexivity. Qed.
Lemma canonical_failed : canonical "failed".
Proof. right; left; reflexivity. Qed.
Lemma canonical_pending : canonical "pending".
Proof. right; right; left; reflexivity. Qed.
Lemma canonical_unknown : canonical "unknown".
Proof. right; right; right; reflexivity. Qed.

Create HintDb canon.
#[local] Hint Resolve canonical_completed canonical_failed canonical_pending
  canonical_unknown : canon.

(** Case analysis on whatever a run branches on next. *)
Ltac step_run :=
  match goal with
  | |- context [run _ (match ?x with _ => _ end) _] => destruct x eqn:?
  | |- context [run _ (if ?x then _ else _) _] => destruct x eqn:?
  | |- context [bind (match ?x with _ => _ end) _] => destruct x eqn:?
  | |- context [bind (if ?x then _ else _) _] => destruct x eqn:?
  | |- context [try_except (match ?x with _ => _ end) _ _] => destruct x eqn:?
  | |- context [try_except (if ?x then _ else _) _ _] => destruct x eqn:?
  end; simpl.

Ltac run_all := simpl; repeat step_run.

(** Each wrapper's [check_payment] returns, and returns a canonical
    status, whatever the network does. *)
Lemma YooMoney_check_payment_returns w y pid s :
  exists r s', run w (YooMoneyPayment.check_payment y pid) s = (Returned r, s')
               /\ canonical r.
Proof.
  unfold YooMoneyPayment.check_payment, fetch, request, py_get.
  run_all; eauto with canon.
Qed.

Lemma Qiwi_check_payment_returns w q pid s :
  exists r s', run w (QiwiPayment.check_payment q pid) s = (Returned r, s')
               /\ canonical r.
Proof.
  unfold QiwiPayment.check_payment, fetch, request, py_get.
  run_all; eauto with canon.
Qed.

Lemma Cryptomus_check_payment_returns w c pid s :
  exists r s', run w (CryptomusPayment.check_payment c pid) s = (Returned r, s')
               /\ canonical r.
Proof.
  unfold CryptomusPayment.check_payment, fetch, request, py_get.
  run_all; eauto with canon.
Qed.


(** C10.  [PaymentManager.check_payment] is total at the public
    interface: for every manager, method string, payment id, world and
    state it returns (it never raises) one of the four strings
    completed, failed, pending, unknown; and a method that is unknown or
    has no configured wrapper yields unknown. *)
Theorem PaymentManager_check_payment_total
    (self : PaymentManager.t) (method : string) (pid : json)
    (w : world) (s : state) :
  exists r s',
    run w (PaymentManager.check_payment self method pid) s = (Returned r, s')
    /\ canonical r
    /\ (~ In method (PaymentManager.get_available_methods self)
        -> r = "unknown").
Proof.
  unfold PaymentManager.check_payment, PaymentManager.get_available_methods.
  rewrite run_try_except.
  destruct (String.eqb method "yoomoney") eqn:Ey.
  { apply String.eqb_eq in Ey; subst method.
    destruct (PaymentManager.yoomoney self) as [y|].
    - destruct (YooMoney_check_payment_returns w y pid s)
        as (r & s' & -> & Hr).
      exists r, s'. repeat split; [assumption|].
      intros Hn; exfalso; apply Hn; simpl; tauto.
    - simpl. exists "unknown", s. auto with canon. }
  destruct (String.eqb method "qiwi") eqn:Eq.
  { apply String.eqb_eq in Eq; subst method.
    destruct (PaymentManager.qiwi self) as [q|].
    - destruct (Qiwi_check_payment_returns w q pid s)
        as (r & s' & -> & Hr).
      exists r, s'. repeat split; [assumption|].
      intros Hn; exfalso; apply Hn.
      apply in_or_app; right; simpl; tauto.
    - simpl. exists "unknown", s. auto with canon. }
  destruct (String.eqb method "crypto") eqn:Ec.
  { apply String.eqb_eq in Ec; subst method.
    destruct (PaymentManager.cryptomus self) as [c|].
    - destruct (Cryptomus_check_payment_returns w c pid s)
        as (r & s' & -> & Hr).
      exists r, s'. repeat split; [assumption|].
      intros Hn; exfalso; apply Hn.
      apply in_or_app; right; apply in_or_app; right; simpl; tauto.
    - simpl. exists "unknown", s. auto with canon. }
  exists "unknown", s.
  destruct (PaymentManager.yoomoney self), (PaymentManager.qiwi self),
    (PaymentManager.cryptomus self); simpl; auto with canon.
Qed.

(** What each wrapper answers when the provider's answer carries the
    status string [st]. *)
Lemma YooMoney_check_payment_maps w y pid s body st :
  request_at w (tick s) (ApiCheck "yoomoney" pid) = HttpJson body ->
  carries_status YooMoney body st ->
  fst (run w (YooMoneyPayment.check_payment y pid) s)
  = Returned (mapped_status YooMoney st).
Proof.
  intros Hreq (m & -> & Hm).
  unfold YooMoneyPayment.check_payment, fetch, request, py_get.
  simpl. rewrite Hreq. simpl. rewrite Hm. simpl.
  unfold mapped_status. simpl.
  rewrite !(String.eqb_sym st).
  destruct (String.eqb "success" st); [reflexivity|].
  destruct (String.eqb "refused" st); [reflexivity|].
  destruct (String.eqb "failed" st); reflexivity.
Qed.

Lemma Qiwi_check_payment_maps w q pid s body st :
  request_at w (tick s) (ApiCheck "qiwi" pid) = HttpJson body ->
  carries_status Qiwi body st ->
  fst (run w (QiwiPayment.check_payment q pid) s)
  = Returned (mapped_status Qiwi st).
Proof.
  intros Hreq (m & m' & -> & Hm & Hm').
  unfold QiwiPayment.check_payment, fetch, request, py_get.
  simpl. rewrite Hreq. simpl. rewrite Hm. simpl. rewrite Hm'. simpl.
  unfold mapped_status. simpl.
  rewrite !(String.eqb_sym st).
  destruct (String.eqb "PAID" st); [reflexivity|].
  destruct (String.eqb "REJECTED" st); [reflexivity|].
  destruct (String.eqb "EXPIRED" st); reflexivity.
Qed.

Lemma Cryptomus_check_payment_maps w c pid s body st :
  request_at w (tick s) (ApiCheck "crypto" pid) = HttpJson body ->
  carries_status Cryptomus body st ->
  fst (run w (CryptomusPayment.check_payment c pid) s)
  = Returned (mapped_status Cryptomus st).
Proof.
  intros Hreq (m & m' & state & -> & Hm & Hz & Hr & Hm').
  unfold CryptomusPayment.check_payment, fetch, request, py_get.
  simpl. rewrite Hreq. simpl. rewrite Hm. simpl. rewrite Hz. simpl.
  rewrite Hr. simpl. rewrite Hm'. simpl.
  unfold mapped_status. simpl.
  rewrite !(String.eqb_sym st).
  destruct (String.eqb "paid" st); [reflexivity|].
  destruct (String.eqb "fail" st); [reflexivity|].
  destruct (String.eqb "cancel" st); [reflexivity|].
  destruct (String.eqb "system_fail" st); reflexivity.
Qed.

Lemma fst_run_try_except_returned {A} w (m : coro A) sel h s a :
  fst (run w m s) = Returned a ->
  fst (run w (try_except m sel h) s) = Returned a.
Proof.
  intros H. rewrite run_try_except.
  destruct (run w m s) as [[x|e] s']; simpl in *; congruence.
Qed.

(** C3, as the code has it.  For each of the three providers, when the
    provider is configured and its answer carries the status string
    [st], [check_payment] returns the table's entry for [st], and
    pending (not unknown) for a string the table does not list; the
    result is one of the four canonical values, and it is completed
    only for the one status the table maps to completed. *)
Theorem check_payment_maps_status
    (pm : PaymentManager.t) (p : provider) (w : world) (s : state)
    (pid body : json) (st : string) :
  In (provider_name p) (PaymentManager.get_available_methods pm) ->
  request_at w (tick s) (ApiCheck (provider_name p) pid) = HttpJson body ->
  carries_status p body st ->
  fst (run w (PaymentManager.check_payment pm (provider_name p) pid) s)
  = Returned (mapped_status p st)
  /\ canonical (mapped_status p st)
  /\ (dict_get (status_table p) st = None -> mapped_status p st = "pending")
  /\ (mapped_status p st = "completed" ->
      dict_get (status_table p) st = Some "completed").
Proof.
  intros Hin Hreq Hst.
  split.
  - unfold PaymentManager.check_payment, PaymentManager.get_available_methods
      in *.
    apply fst_run_try_except_returned.
    destruct p; simpl in Hin, Hreq |- *.
    + destruct (PaymentManager.yoomoney pm) as [y|].
      * apply YooMoney_check_payment_maps with (body := body); assumption.
      * exfalso.
        destruct (PaymentManager.qiwi pm), (PaymentManager.cryptomus pm);
          simpl in Hin; intuition discriminate.
    + change (String.eqb "qiwi" "yoomoney") with false.
      change (String.eqb "qiwi" "qiwi") with true.
      destruct (PaymentManager.qiwi pm) as [q|].
      * destruct (PaymentManager.yoomoney pm);
          apply Qiwi_check_payment_maps with (body := body); assumption.
      * exfalso.
        destruct (PaymentManager.yoomoney pm), (PaymentManager.cryptomus pm);
          simpl in Hin; intuition discriminate.
    + change (String.eqb "crypto" "yoomoney") with false.
      change (String.eqb "crypto" "qiwi") with false.
      change (String.eqb "crypto" "crypto") with true.
      destruct (PaymentManager.cryptomus pm) as [c|].
      * destruct (PaymentManager.yoomoney pm), (PaymentManager.qiwi pm);
          apply Cryptomus_check_payment_maps with (body := body); assumption.
      * exfalso.
        destruct (PaymentManager.yoomoney pm), (PaymentManager.qiwi pm);
          simpl in Hin; intuition discriminate.
  - unfold mapped_status.
    destruct p; simpl;
      repeat match goal with
             | |- context [String.eqb ?a st] => destruct (String.eqb a st)
             end; simpl;
      repeat split; auto with canon; try discriminate; try reflexivity.
Qed.

Lemma check_payment_maps_status_witness :
  fst (run (answering 0 (JObj {[ "status" := JStr "in_progress" ]}))
           (PaymentManager.check_payment manager "yoomoney" (JStr "42"))
           (start empty_db))
  = Returned "pending".
Proof.
  apply (check_payment_maps_status manager YooMoney
           (answering 0 (JObj {[ "status" := JStr "in_progress" ]}))
           (start empty_db) (JStr "42")
           (JObj {[ "status" := JStr "in_progress" ]}) "in_progress").
  - left. reflexivity.
  - reflexivity.
  - simpl. eexists. split; [reflexivity|]. vm_compute. reflexivity.
Defined.

Lemma unmapped_status_is_not_unknown :
  carries_status YooMoney (JObj {[ "status" := JStr "in_progress" ]})
                 "in_progress"
  /\ dict_get (status_table YooMoney) "in_progress" = None
  /\ fst (run (answering 0 (JObj {[ "status" := JStr "in_progress" ]}))
              (PaymentManager.check_payment manager "yoomoney" (JStr "42"))
              (start empty_db))
     <> Returned "unknown".
Proof.
  split; [|split].
  - eexists. split; [reflexivity|]. vm_compute. reflexivity.
  - reflexivity.
  - vm_compute. discriminate.
Qed.

(** ** Coroutines that do not commit *)

Lemma store_history_perform w a s :
  store_history (snd (perform w a s)) = store_history s.
Proof. destruct a; reflexivity. Qed.

Lemma run_no_commit {A} w (m : coro A) s :
  no_commit m -> store_history (snd (run w m s)) = store_history s.
Proof.
  revert s.
  induction m as [a|e|k IH|c k IH|k IH|t l k IH|k IH|d k IH|a k IH];
    intros s Hm; simpl in *; try reflexivity;
    try (rewrite IH by apply Hm; reflexivity).
  - contradiction.
  - destruct (perform w a s) as [ok s'] eqn:E.
    rewrite IH by apply Hm.
    change s' with (snd (ok, s')). rewrite <- E. apply store_history_perform.
Qed.

Lemma store_history_db s s' : store_history s = store_history s' -> db s = db s'.
Proof. unfold store_history. congruence. Qed.

Lemma no_commit_bind {A B} (m : coro A) (f : A -> coro B) :
  no_commit m -> (forall a, no_commit (f a)) -> no_commit (bind m f).
Proof.
  induction m as [a|e|k IH|c k IH|k IH|t l k IH|k IH|d k IH|a k IH];
    simpl; intros Hm Hf; auto.
Qed.

Lemma no_commit_try_except {A} (m : coro A) sel h :
  no_commit m -> (forall e, no_commit (h e)) -> no_commit (try_except m sel h).
Proof.
  induction m as [a|e|k IH|c k IH|k IH|t l k IH|k IH|d k IH|a k IH];
    simpl; intros Hm Hh; auto.
  destruct (sel e); simpl; auto.
Qed.

Lemma no_commit_await a : no_commit (await a).
Proof. simpl. intros []; exact I. Qed.

Lemma no_commit_py_get v k dflt : no_commit (py_get v k dflt).
Proof. destruct v; exact I. Qed.

Lemma no_commit_fetch c : no_commit (fetch c).
Proof. simpl. intros []; exact I. Qed.

Create HintDb quiet.
#[local] Hint Resolve no_commit_bind no_commit_try_except no_commit_await
  no_commit_py_get no_commit_fetch : quiet.

Ltac quiet :=
  repeat first
    [ exact I
    | intro
    | match goal with
      | ok : bool |- _ => destruct ok; simpl
      | |- no_commit (await _) => apply no_commit_await
      | |- no_commit (py_get _ _ _) => apply no_commit_py_get
      | |- no_commit (fetch _) => apply no_commit_fetch
      | |- no_commit (bind _ _) => apply no_commit_bind
      | |- no_commit (try_except _ _ _) => apply no_commit_try_except
      | |- no_commit (if ?b then _ else _) => destruct b
      | |- no_commit (match ?x with _ => _ end) => destruct x
      | |- no_commit _ => progress simpl
      end ].

Lemma no_commit_YooMoney_check y pid :
  no_commit (YooMoneyPayment.check_payment y pid).
Proof. unfold YooMoneyPayment.check_payment. quiet. Qed.

Lemma no_commit_Qiwi_check q pid : no_commit (QiwiPayment.check_payment q pid).
Proof. unfold QiwiPayment.check_payment. quiet. Qed.

Lemma no_commit_Cryptomus_check c pid :
  no_commit (CryptomusPayment.check_payment c pid).
Proof. unfold CryptomusPayment.check_payment. quiet. Qed.

Lemma no_commit_check_payment pm method pid :
  no_commit (PaymentManager.check_payment pm method pid).
Proof.
  unfold PaymentManager.check_payment.
  apply no_commit_try_except; [|intros; exact I].
  destruct (String.eqb method "yoomoney"), (PaymentManager.yoomoney pm);
    try apply no_commit_YooMoney_check;
    destruct (String.eqb method "qiwi"), (PaymentManager.qiwi pm);
    try apply no_commit_Qiwi_check;
    destruct (String.eqb method "crypto"), (PaymentManager.cryptomus pm);
    try apply no_commit_Cryptomus_check; exact I.
Qed.

(** ** The activation *)

Arguments update_payment : simpl never.
Arguments update_user : simpl never.
Arguments deactivate_subscriptions : simpl never.
Arguments set_subscriptions : simpl never.
Arguments user_by_id : simpl never.
Arguments payment_by_id : simpl never.
Arguments plan_of : simpl never.
Arguments truediv : simpl never.
Arguments int_of_float : simpl never.
Arguments Payment.amount_rubles : simpl never.
Arguments next_id : simpl never.
Arguments nth : simpl never.
Arguments Nat.modulo : simpl never.
Arguments PrimFloat.add : simpl never.
Arguments PrimFloat.div : simpl never.
Arguments activated : simpl never.
Arguments days : simpl never.
Arguments minutes : simpl never.

Lemma user_by_id_update_payment d p i :
  user_by_id (update_payment d p) i = user_by_id d i.
Proof. reflexivity. Qed.

Lemma user_by_id_deactivate d uid i :
  user_by_id (deactivate_subscriptions d uid) i = user_by_id d i.
Proof. reflexivity. Qed.

Lemma user_by_id_set_subscriptions d l i :
  user_by_id (set_subscriptions d l) i = user_by_id d i.
Proof. reflexivity. Qed.

Lemma amount_rubles_completed p v t :
  Payment.amount_rubles (Payment.set_completed_at (Payment.set_status p v) t)
  = Payment.amount_rubles p.
Proof. reflexivity. Qed.

(** The branch commits an activation when the buyer's row and the plan
    exist and the bonus is a finite number; the awaits that follow the
    commit cannot undo it. *)
Lemma activate_commits cfg chat d p w s u plan bonus :
  user_by_id d (Payment.user_id p) = Some u ->
  plan_of cfg (Payment.plan_type p) = Some plan ->
  int_of_float (truediv (Payment.amount p * REFERRAL_BONUS_PERCENT cfg) 100)
    = Some bonus ->
  exists now sub,
    store_history (snd (run w (activate cfg chat (Session.mk d false) p) s))
      = (activated cfg p u sub now d,
         activated cfg p u sub now d :: commits (log s))
    /\ Subscription.user_id sub = Payment.user_id p
    /\ Subscription.is_active sub = true
    /\ Subscription.plan_type sub = Payment.plan_type p.
Proof.
  intros Hu Hplan Hbonus.
  unfold activate. simpl.
  rewrite user_by_id_update_payment, Hu. simpl.
  rewrite !amount_rubles_completed.
  unfold calculate_end_date. rewrite Hplan. simpl.
  destruct (User.referrer_id u) as [r|] eqn:Hr; simpl.
  - destruct (Z.eqb r 0) eqn:Hr0; simpl.
    + rewrite run_no_commit by quiet. unfold store_history. simpl.
      do 2 eexists. split.
      * unfold activated, credited. simpl. rewrite Hr, Hr0. reflexivity.
      * split; [|split]; reflexivity.
    + rewrite !user_by_id_set_subscriptions, !user_by_id_deactivate.
      destruct (user_by_id _ r) as [ref|] eqn:Href; simpl.
      * unfold calculate_referral_bonus, py_int. rewrite Hbonus. simpl.
        destruct (telegram_at w _ (SendMessage _ _)); simpl;
          rewrite run_no_commit by quiet; unfold store_history; simpl.
        all: do 2 eexists; (split;
          [ unfold activated, credited; simpl; rewrite Hr, Hr0;
            rewrite !user_by_id_set_subscriptions, !user_by_id_deactivate;
            rewrite Href, Hbonus; reflexivity
          | split; [|split]; reflexivity ]).
      * rewrite run_no_commit by quiet. unfold store_history. simpl.
        do 2 eexists. split.
        -- unfold activated, credited. simpl. rewrite Hr, Hr0.
           rewrite !user_by_id_set_subscriptions, !user_by_id_deactivate.
           rewrite Href. reflexivity.
        -- split; [|split]; reflexivity.
  - rewrite run_no_commit by quiet. unfold store_history. simpl.
    do 2 eexists. split.
    + unfold activated, credited. simpl. rewrite Hr. reflexivity.
    + split; [|split]; reflexivity.
Qed.


Lemma run_bind_quiet {A B} w (m : coro A) (f : A -> coro B) s :
  (forall a, no_commit (f a)) ->
  store_history (snd (run w (bind m f) s)) = store_history (snd (run w m s)).
Proof.
  intros Hf. rewrite run_bind.
  destruct (run w m s) as [[a|e] s']; simpl; [|reflexivity].
  apply run_no_commit, Hf.
Qed.

Lemma run_try_except_quiet {A} w (m : coro A) sel h s :
  (forall e, no_commit (h e)) ->
  store_history (snd (run w (try_except m sel h) s))
  = store_history (snd (run w m s)).
Proof.
  intros Hh. rewrite run_try_except.
  destruct (run w m s) as [[a|e] s']; simpl; [reflexivity|].
  destruct (sel e); simpl; [|reflexivity].
  apply run_no_commit, Hh.
Qed.

(** What a [verify_payment] does to the store when the provider reports
    completed and the payment is not past [expires_at]: whatever status
    is stored, it commits an activation. *)
Lemma verify_payment_activates cfg pm chat pid w s p u plan bonus :
  callbacks_answered w ->
  payment_by_id (db s) pid = Some p ->
  (forall e, Payment.expires_at p = Some e -> clock_not_after w e) ->
  provider_reports w pm p "completed" ->
  user_by_id (db s) (Payment.user_id p) = Some u ->
  plan_of cfg (Payment.plan_type p) = Some plan ->
  int_of_float (truediv (Payment.amount p * REFERRAL_BONUS_PERCENT cfg) 100)
    = Some bonus ->
  exists now sub,
    store_history (snd (run w (verify_payment cfg pm chat pid) s))
      = (activated cfg p u sub now (db s),
         activated cfg p u sub now (db s) :: commits (log s))
    /\ Subscription.user_id sub = Payment.user_id p
    /\ Subscription.is_active sub = true
    /\ Subscription.plan_type sub = Payment.plan_type p.
Proof.
  intros Hcb Hp Hexp Hprov Hu Hplan Hbonus.
  unfold verify_payment. simpl. rewrite Hcb. simpl.
  rewrite run_try_except_quiet by quiet.
  rewrite Hp.
  assert (Hne : forall s0, exists s1,
             run w (payment_is_expired p) s0 = (Returned false, s1)
             /\ commits (log s1) = commits (log s0)).
  { intros s0. unfold payment_is_expired.
    destruct (Payment.expires_at p) as [e|] eqn:He; simpl; [|eauto].
    rewrite (proj2 (Z.ltb_ge _ _)) by apply (Hexp e eq_refl). eauto. }
  rewrite run_bind.
  destruct (Hne (record s (EAwait (Telegram AnswerCallback) true)))
    as (s1 & -> & Hs1).
  rewrite run_bind.
  destruct (run w (PaymentManager.check_payment pm _ _) s1) as [r s2] eqn:Hc.
  pose proof (Hprov s1) as Hr. rewrite Hc in Hr. simpl in Hr. subst r.
  rewrite String.eqb_refl.
  rewrite run_bind_quiet by quiet.
  assert (Hs2 : commits (log s2) = commits (log s)).
  { pose proof (run_no_commit w _ s1 (no_commit_check_payment pm
                  (Payment.payment_method p) (Payment.payment_id p))) as H.
    rewrite Hc in H. unfold store_history in H. simpl in H.
    simpl in Hs1. congruence. }
  rewrite <- Hs2.
  apply (activate_commits cfg chat (db s) p w s2 u plan bonus); assumption.
Qed.

(** ** What an activation commits *)

Lemma subscriptions_credited cfg p u d :
  subscriptions (credited cfg p u d) = subscriptions d.
Proof.
  unfold credited.
  destruct (User.referrer_id u) as [r|]; [|reflexivity].
  destruct (Z.eqb r 0); [reflexivity|].
  destruct (user_by_id d r); [|reflexivity].
  destruct (int_of_float _); reflexivity.
Qed.

Lemma payments_credited cfg p u d :
  payments (credited cfg p u d) = payments d.
Proof.
  unfold credited.
  destruct (User.referrer_id u) as [r|]; [|reflexivity].
  destruct (Z.eqb r 0); [reflexivity|].
  destruct (user_by_id d r); [|reflexivity].
  destruct (int_of_float _); reflexivity.
Qed.

Lemma subscriptions_activated cfg p u sub now d :
  subscriptions (activated cfg p u sub now d)
  = (subscriptions (deactivate_subscriptions d (Payment.user_id p)) ++ [sub])%list.
Proof. unfold activated. rewrite subscriptions_credited. reflexivity. Qed.

Lemma active_after_deactivate d uid :
  active_subscriptions (deactivate_subscriptions d uid) uid = [].
Proof.
  unfold active_subscriptions, deactivate_subscriptions, set_subscriptions.
  simpl. induction (subscriptions d) as [|x l IH]; [reflexivity|].
  simpl.
  destruct (Z.eqb (Subscription.user_id x) uid) eqn:E; simpl.
  - destruct (Subscription.is_active x) eqn:Ea; simpl;
      rewrite E; simpl; [|rewrite Ea]; exact IH.
  - rewrite E. simpl. exact IH.
Qed.

Lemma active_others_after_deactivate d uid other :
  other <> uid ->
  active_subscriptions (deactivate_subscriptions d uid) other
  = active_subscriptions d other.
Proof.
  intros Hne.
  unfold active_subscriptions, deactivate_subscriptions, set_subscriptions.
  simpl. induction (subscriptions d) as [|x l IH]; [reflexivity|].
  simpl.
  destruct (Z.eqb (Subscription.user_id x) uid) eqn:E; simpl.
  - apply Z.eqb_eq in E.
    assert (Eo : Z.eqb (Subscription.user_id x) other = false)
      by (apply Z.eqb_neq; congruence).
    destruct (Subscription.is_active x); simpl; rewrite Eo; simpl; exact IH.
  - destruct (Z.eqb (Subscription.user_id x) other && Subscription.is_active x);
      [f_equal|]; exact IH.
Qed.

Lemma active_subscriptions_activated cfg p u sub now d uid :
  active_subscriptions (activated cfg p u sub now d) uid
  = (active_subscriptions (deactivate_subscriptions d (Payment.user_id p)) uid
     ++ List.filter (fun sub => Z.eqb (Subscription.user_id sub) uid
                                && Subscription.is_active sub) [sub])%list.
Proof.
  unfold active_subscriptions at 1. rewrite subscriptions_activated.
  apply List.filter_app.
Qed.

(** C2.  After every completed activation (a [verify_payment] for which
    the provider reports completed, on a payment that is not past
    [expires_at], whose buyer and plan exist) the buyer has exactly one
    subscription with [is_active] set, the new one, hence at most one
    that is active and not expired, or active with [end_date] in the
    future, whatever the time; the prior ones are switched off and the
    new one is created by one and the same commit, the only one of the
    call, and no other user's active subscriptions change. *)
Theorem activation_leaves_one_active
    cfg pm chat pid w s p u plan bonus :
  callbacks_answered w ->
  payment_by_id (db s) pid = Some p ->
  (forall e, Payment.expires_at p = Some e -> clock_not_after w e) ->
  provider_reports w pm p "completed" ->
  user_by_id (db s) (Payment.user_id p) = Some u ->
  plan_of cfg (Payment.plan_type p) = Some plan ->
  int_of_float (truediv (Payment.amount p * REFERRAL_BONUS_PERCENT cfg) 100)
    = Some bonus ->
  let s' := snd (run w (verify_payment cfg pm chat pid) s) in
  (exists sub,
      active_subscriptions (db s') (Payment.user_id p) = [sub]
      /\ subscriptions (db s')
         = (subscriptions (deactivate_subscriptions (db s) (Payment.user_id p))
            ++ [sub])%list)
  /\ (forall now,
        (length (List.filter
                   (fun sub => negb (Subscription.is_expired sub now))
                   (active_subscriptions (db s') (Payment.user_id p)))
         <= 1)%nat
        /\ (length (List.filter
                      (fun sub => Z.ltb now (Subscription.end_date sub))
                      (active_subscriptions (db s') (Payment.user_id p)))
            <= 1)%nat)
  /\ (forall other, other <> Payment.user_id p ->
        active_subscriptions (db s') other = active_subscriptions (db s) other)
  /\ commits (log s') = db s' :: commits (log s).
Proof.
  intros Hcb Hp Hexp Hprov Hu Hplan Hbonus s'.
  destruct (verify_payment_activates cfg pm chat pid w s p u plan bonus
              Hcb Hp Hexp Hprov Hu Hplan Hbonus)
    as (now & sub & Hs & Hsu & Hsa & _).
  fold s' in Hs. unfold store_history in Hs.
  injection Hs as Hdb Hlog.
  assert (Hact : active_subscriptions (db s') (Payment.user_id p) = [sub]).
  { rewrite Hdb, active_subscriptions_activated, active_after_deactivate.
    simpl. rewrite Hsu, Z.eqb_refl, Hsa. reflexivity. }
  split; [|split; [|split]].
  - exists sub. split; [exact Hact|].
    rewrite Hdb. apply subscriptions_activated.
  - intros t. rewrite Hact. simpl.
    destruct (Subscription.is_expired sub t),
      (Z.ltb t (Subscription.end_date sub)); simpl; lia.
  - intros other Hne.
    rewrite Hdb, active_subscriptions_activated.
    rewrite active_others_after_deactivate by exact Hne.
    simpl. rewrite Hsu.
    rewrite (proj2 (Z.eqb_neq _ _)) by congruence.
    simpl. apply app_nil_r.
  - rewrite Hlog, Hdb. reflexivity.
Qed.

Lemma activation_leaves_one_active_witness :
  length (active_subscriptions
            (db (snd (run (answering 1000 paid_body)
                          (verify_payment default_config manager 101 1)
                          (start shop_db))))
            1) = 1%nat.
Proof.
  destruct (activation_leaves_one_active default_config manager 101 1
              (answering 1000 paid_body) (start shop_db)
              pending_payment buyer
              (mkPlan "1 month" 299 30 false) 2990)
    as [(sub & Hsub & _) _].
  - intros n. reflexivity.
  - reflexivity.
  - intros e He n. injection He as <-. vm_compute. discriminate.
  - intros s0. vm_compute. reflexivity.
  - reflexivity.
  - reflexivity.
  - vm_compute. reflexivity.
  - exact (f_equal (@length Subscription.t) Hsub).
Defined.

(** ** Expired payments *)

(** C5, as the code has it.  For every payment with status pending
    whose [expires_at] lies before every reading of the clock,
    [verify_payment] returns without calling a provider and without
    committing anything: the store is what it was, so the stored status
    is still pending (the code has no expired status). *)
Theorem expired_payment_is_left_pending cfg pm chat pid w s p e :
  payment_by_id (db s) pid = Some p ->
  Payment.status p = "pending" ->
  Payment.expires_at p = Some e ->
  clock_after w e ->
  let s' := snd (run w (verify_payment cfg pm chat pid) s) in
  provider_calls (log s') = provider_calls (log s)
  /\ commits (log s') = commits (log s)
  /\ db s' = db s
  /\ option_map Payment.status (payment_by_id (db s') pid) = Some "pending".
Proof.
  intros Hp Hst He Hclock s'.
  assert (H : provider_calls (log s') = provider_calls (log s)
              /\ commits (log s') = commits (log s) /\ db s' = db s).
  { subst s'. unfold verify_payment. simpl.
    destruct (telegram_at w (tick s) AnswerCallback); simpl; [|auto].
    rewrite Hp. unfold payment_is_expired. rewrite He. simpl.
    rewrite (proj2 (Z.ltb_lt _ _)) by apply Hclock. simpl.
    destruct (telegram_at w _ (EditMessageText MsgPaymentTimeout)); simpl;
      [auto|].
    destruct (telegram_at w _ (EditMessageText MsgErrorGeneral)); simpl; auto. }
  destruct H as (Hcalls & Hcommits & Hdb).
  repeat split; try assumption.
  rewrite Hdb, Hp. simpl. rewrite Hst. reflexivity.
Qed.

Lemma expired_payment_is_left_pending_witness :
  option_map Payment.status
    (payment_by_id
       (db (snd (run (answering (minutes 16) paid_body)
                     (verify_payment default_config manager 101 1)
                     (start shop_db)))) 1)
  = Some "pending".
Proof.
  apply (expired_payment_is_left_pending default_config manager 101 1
           (answering (minutes 16) paid_body) (start shop_db)
           pending_payment (minutes 15)).
  - reflexivity.
  - reflexivity.
  - reflexivity.
  - intros n. vm_compute. reflexivity.
Defined.

Lemma expired_payment_is_not_marked_expired :
  option_map Payment.status (payment_by_id shop_db 1) = Some "pending"
  /\ option_map Payment.expires_at (payment_by_id shop_db 1)
     = Some (Some (minutes 15))
  /\ option_map Payment.status
       (payment_by_id
          (db (snd (run (answering (minutes 16) paid_body)
                        (verify_payment default_config manager 101 1)
                        (start shop_db)))) 1)
     <> Some "expired".
Proof.
  split; [reflexivity|]. split; [reflexivity|].
  vm_compute. discriminate.
Qed.

(** ** Rows after an activation *)

Lemma user_by_id_id d i u : user_by_id d i = Some u -> User.id u = i.
Proof.
  unfold user_by_id. intros H. apply List.find_some in H.
  destruct H as [_ H]. apply Z.eqb_eq. exact H.
Qed.

Lemma payment_by_id_id d i p : payment_by_id d i = Some p -> Payment.id p = i.
Proof.
  unfold payment_by_id. intros H. apply List.find_some in H.
  destruct H as [_ H]. apply Z.eqb_eq. exact H.
Qed.

Lemma user_by_id_update_user_same d v v0 :
  user_by_id d (User.id v) = Some v0 ->
  user_by_id (update_user d v) (User.id v) = Some v.
Proof.
  unfold user_by_id, update_user, set_users. simpl.
  induction (users d) as [|x l IH]; simpl; [discriminate|].
  destruct (Z.eqb (User.id x) (User.id v)) eqn:E; simpl.
  - rewrite Z.eqb_refl. reflexivity.
  - rewrite E. exact IH.
Qed.

Lemma user_by_id_update_user_other d v i :
  i <> User.id v ->
  user_by_id (update_user d v) i = user_by_id d i.
Proof.
  intros Hne. unfold user_by_id, update_user, set_users. simpl.
  induction (users d) as [|x l IH]; simpl; [reflexivity|].
  destruct (Z.eqb (User.id x) (User.id v)) eqn:E; simpl.
  - apply Z.eqb_eq in E.
    rewrite (proj2 (Z.eqb_neq _ _)) by congruence.
    rewrite (proj2 (Z.eqb_neq _ _)) by congruence.
    exact IH.
  - destruct (Z.eqb (User.id x) i); [reflexivity|exact IH].
Qed.

Lemma payment_by_id_update_payment_same d v v0 :
  payment_by_id d (Payment.id v) = Some v0 ->
  payment_by_id (update_payment d v) (Payment.id v) = Some v.
Proof.
  unfold payment_by_id, update_payment, set_payments. simpl.
  induction (payments d) as [|x l IH]; simpl; [discriminate|].
  destruct (Z.eqb (Payment.id x) (Payment.id v)) eqn:E; simpl.
  - rewrite Z.eqb_refl. reflexivity.
  - rewrite E. exact IH.
Qed.

Lemma payment_by_id_activated cfg p u sub now d pid :
  payment_by_id d pid = Some p ->
  payment_by_id (activated cfg p u sub now d) pid
  = Some (Payment.set_completed_at (Payment.set_status p "completed") (Some now)).
Proof.
  intros Hp. pose proof (payment_by_id_id _ _ _ Hp) as Hid.
  unfold payment_by_id. unfold activated. rewrite payments_credited.
  change (payments _) with
    (payments (update_payment d
       (Payment.set_completed_at (Payment.set_status p "completed") (Some now)))).
  rewrite <- Hid in Hp |- *.
  apply (payment_by_id_update_payment_same d
           (Payment.set_completed_at (Payment.set_status p "completed") (Some now))
           p Hp).
Qed.

(** The buyer's row after an activation: the amount added to the total,
    nothing else of what the checks read changed. *)
Lemma buyer_after_activation cfg p u sub now d :
  user_by_id d (Payment.user_id p) = Some u ->
  exists u',
    user_by_id (activated cfg p u sub now d) (Payment.user_id p) = Some u'
    /\ User.total_spent u'
       = (User.total_spent u + Payment.amount_rubles p)%float
    /\ User.referrer_id u' = User.referrer_id u
    /\ User.id u' = User.id u.
Proof.
  intros Hu. pose proof (user_by_id_id _ _ _ Hu) as Hid.
  set (u1 := User.set_total_spent u
               (User.total_spent u + Payment.amount_rubles p)%float).
  assert (H1 : forall l dd,
             user_by_id (set_subscriptions
               (deactivate_subscriptions
                  (update_user (update_payment d dd) u1) (Payment.user_id p)) l)
               (Payment.user_id p) = Some u1).
  { intros l dd.
    rewrite user_by_id_set_subscriptions, user_by_id_deactivate.
    rewrite <- Hid. change (User.id u) with (User.id u1).
    apply (user_by_id_update_user_same _ u1 u).
    rewrite user_by_id_update_payment. simpl. rewrite Hid. exact Hu. }
  unfold activated. fold u1. unfold credited.
  destruct (User.referrer_id u1) as [r|] eqn:Hr;
    [|exists u1; rewrite H1; auto].
  destruct (Z.eqb r 0); [exists u1; rewrite H1; auto|].
  destruct (user_by_id _ r) as [ref|] eqn:Href;
    [|exists u1; rewrite H1; auto].
  destruct (int_of_float _) as [b|]; [|exists u1; rewrite H1; auto].
  destruct (Z.eq_dec r (Payment.user_id p)) as [->|Hne].
  - rewrite H1 in Href. injection Href as <-.
    eexists. split.
    + rewrite <- Hid.
      apply (user_by_id_update_user_same _
               (User.set_referral_balance u1 _) u1).
      simpl. rewrite Hid. apply H1.
    + simpl. auto.
  - exists u1. split; [|auto].
    rewrite user_by_id_update_user_other.
    + apply H1.
    + simpl. rewrite (user_by_id_id _ _ _ Href). congruence.
Qed.

(** The referrer's row after an activation: the bonus, divided by 100,
    added to the balance. *)
Lemma referrer_after_activation cfg p u sub now d r ref bonus :
  user_by_id d (Payment.user_id p) = Some u ->
  User.referrer_id u = Some r ->
  r <> 0 ->
  user_by_id d r = Some ref ->
  int_of_float (truediv (Payment.amount p * REFERRAL_BONUS_PERCENT cfg) 100)
    = Some bonus ->
  exists ref',
    user_by_id (activated cfg p u sub now d) r = Some ref'
    /\ User.referral_balance ref'
       = (User.referral_balance ref + truediv bonus 100)%float
    /\ User.id ref' = r.
Proof.
  intros Hu Hr Hr0 Href Hbonus.
  pose proof (user_by_id_id _ _ _ Hu) as Hid.
  pose proof (user_by_id_id _ _ _ Href) as Hrid.
  set (u1 := User.set_total_spent u
               (User.total_spent u + Payment.amount_rubles p)%float).
  unfold activated. fold u1. unfold credited.
  change (User.referrer_id u1) with (User.referrer_id u). rewrite Hr.
  rewrite (proj2 (Z.eqb_neq _ _)) by exact Hr0.
  rewrite user_by_id_set_subscriptions, user_by_id_deactivate.
  rewrite Hbonus.
  destruct (Z.eq_dec r (Payment.user_id p)) as [->|Hne].
  - assert (ref = u) by congruence. subst ref.
    assert (H1 : user_by_id (update_user (update_payment d
               (Payment.set_completed_at (Payment.set_status p "completed")
                  (Some now))) u1) (Payment.user_id p) = Some u1).
    { rewrite <- Hid. change (User.id u) with (User.id u1).
      apply (user_by_id_update_user_same _ u1 u).
      rewrite user_by_id_update_payment. simpl. rewrite Hid. exact Hu. }
    rewrite H1.
    eexists. split.
    + rewrite <- Hid.
      apply (user_by_id_update_user_same _
               (User.set_referral_balance u1 _) u1).
      simpl. rewrite user_by_id_set_subscriptions, user_by_id_deactivate.
      rewrite Hid. exact H1.
    + simpl. auto.
  - assert (H1 : user_by_id (update_user (update_payment d
               (Payment.set_completed_at (Payment.set_status p "completed")
                  (Some now))) u1) r = Some ref).
    { rewrite user_by_id_update_user_other by (simpl; congruence).
      rewrite user_by_id_update_payment. exact Href. }
    rewrite H1.
    eexists. split.
    + match goal with
      | |- user_by_id (update_user ?D ?V) _ = _ =>
          pose proof (user_by_id_update_user_same D V ref) as H2
      end.
      simpl in H2. rewrite Hrid in H2. apply H2.
      rewrite user_by_id_set_subscriptions, user_by_id_deactivate. exact H1.
    + simpl. auto.
Qed.

Lemma length_subscriptions_activated cfg p u sub now d :
  length (subscriptions (activated cfg p u sub now d))
  = S (length (subscriptions d)).
Proof.
  rewrite subscriptions_activated, length_app.
  unfold deactivate_subscriptions, set_subscriptions. simpl.
  rewrite length_map. lia.
Qed.

(** ** The referral bonus *)

(** C6, as the code has it.  For every completed activation whose buyer
    has a referrer on file, the referrer's balance, a float column kept
    in rubles, grows by [bonus / 100], where [bonus] is what
    [calculate_referral_bonus] returns for the amount: the int of the
    float quotient [amount * percent / 100], in kopecks.  For the four
    shipped plan prices at 10 percent that int is the floor of the
    quotient; for amount 29900 it is 2990, so the balance is credited
    with 2990 / 100 rubles, not with 2990. *)
Theorem referral_bonus_is_credited_in_rubles
    cfg pm chat pid w s p u plan bonus r ref :
  callbacks_answered w ->
  payment_by_id (db s) pid = Some p ->
  (forall e, Payment.expires_at p = Some e -> clock_not_after w e) ->
  provider_reports w pm p "completed" ->
  user_by_id (db s) (Payment.user_id p) = Some u ->
  plan_of cfg (Payment.plan_type p) = Some plan ->
  fst (run w (calculate_referral_bonus cfg (Payment.amount p)) s)
    = Returned bonus ->
  User.referrer_id u = Some r ->
  r <> 0 ->
  user_by_id (db s) r = Some ref ->
  let s' := snd (run w (verify_payment cfg pm chat pid) s) in
  (exists ref',
      user_by_id (db s') r = Some ref'
      /\ User.referral_balance ref'
         = (User.referral_balance ref + truediv bonus 100)%float)
  /\ Forall (fun amount =>
               fst (run w (calculate_referral_bonus default_config amount) s)
               = Returned (amount * 10 / 100))
            [29900; 79900; 149900; 269900]
  /\ fst (run w (calculate_referral_bonus default_config 29900) s)
     = Returned 2990.
Proof.
  intros Hcb Hp Hexp Hprov Hu Hplan Hbonus Hr Hr0 Href s'.
  assert (Hb : int_of_float
                 (truediv (Payment.amount p * REFERRAL_BONUS_PERCENT cfg) 100)
               = Some bonus).
  { unfold calculate_referral_bonus, py_int in Hbonus.
    destruct (int_of_float _) as [b|]; simpl in Hbonus; congruence. }
  split; [|split].
  - destruct (verify_payment_activates cfg pm chat pid w s p u plan bonus
                Hcb Hp Hexp Hprov Hu Hplan Hb)
      as (now & sub & Hs & _).
    fold s' in Hs. apply (f_equal fst) in Hs. simpl in Hs. rewrite Hs.
    destruct (referrer_after_activation cfg p u sub now (db s) r ref bonus
                Hu Hr Hr0 Href Hb) as (ref' & H1 & H2 & _).
    exists ref'. split; assumption.
  - repeat constructor.
  - reflexivity.
Qed.

Lemma referral_bonus_is_credited_in_rubles_witness :
  exists ref',
    user_by_id (db (snd (run (answering 1000 paid_body)
                             (verify_payment default_config manager 101 1)
                             (start shop_db)))) 2 = Some ref'
    /\ User.referral_balance ref' = (0 + truediv 2990 100)%float.
Proof.
  apply (referral_bonus_is_credited_in_rubles default_config manager 101 1
           (answering 1000 paid_body) (start shop_db)
           pending_payment buyer (mkPlan "1 month" 299 30 false) 2990
           2 referrer).
  - intros n. reflexivity.
  - reflexivity.
  - intros e He n. injection He as <-. vm_compute. discriminate.
  - intros s0. vm_compute. reflexivity.
  - reflexivity.
  - reflexivity.
  - vm_compute. reflexivity.
  - reflexivity.
  - discriminate.
  - reflexivity.
Defined.

Lemma referral_credit_is_not_the_bonus :
  Payment.amount pending_payment = 29900
  /\ REFERRAL_BONUS_PERCENT default_config = 10
  /\ option_map User.referral_balance (user_by_id shop_db 2) = Some 0%float
  /\ option_map User.referral_balance
       (user_by_id (db (snd (run (answering 1000 paid_body)
                                 (verify_payment default_config manager 101 1)
                                 (start shop_db)))) 2)
     <> Some (0 + float_of_Z 2990)%float.
Proof.
  repeat split.
  intros H.
  apply (f_equal (fun o => match o with
                           | Some f => Prim2SF f
                           | None => S754_nan
                           end)) in H.
  vm_compute in H. discriminate.
Qed.

(** ** Verifying again *)

(** C1, as the code has it.  [verify_payment] never looks at the stored
    status.  When the provider reports completed and [expires_at] has
    not passed, a first verify stores completed and a second verify, on
    the intent that is now terminal, activates again: the two create
    two subscription rows, add the amount to the buyer's total twice and
    credit the referrer twice. *)
Theorem reverification_activates_again
    cfg pm chat pid w s p u plan bonus :
  callbacks_answered w ->
  payment_by_id (db s) pid = Some p ->
  (forall e, Payment.expires_at p = Some e -> clock_not_after w e) ->
  provider_reports w pm p "completed" ->
  user_by_id (db s) (Payment.user_id p) = Some u ->
  plan_of cfg (Payment.plan_type p) = Some plan ->
  int_of_float (truediv (Payment.amount p * REFERRAL_BONUS_PERCENT cfg) 100)
    = Some bonus ->
  let s1 := snd (run w (verify_payment cfg pm chat pid) s) in
  let s2 := snd (run w (verify_payment cfg pm chat pid) s1) in
  option_map Payment.status (payment_by_id (db s1) pid) = Some "completed"
  /\ length (subscriptions (db s1)) = S (length (subscriptions (db s)))
  /\ length (subscriptions (db s2)) = S (S (length (subscriptions (db s))))
  /\ (exists u2,
         user_by_id (db s2) (Payment.user_id p) = Some u2
         /\ User.total_spent u2
            = (User.total_spent u + Payment.amount_rubles p
               + Payment.amount_rubles p)%float)
  /\ (forall r ref,
         User.referrer_id u = Some r -> r <> 0 ->
         user_by_id (db s) r = Some ref ->
         exists ref2,
           user_by_id (db s2) r = Some ref2
           /\ User.referral_balance ref2
              = (User.referral_balance ref + truediv bonus 100
                 + truediv bonus 100)%float).
Proof.
  intros Hcb Hp Hexp Hprov Hu Hplan Hbonus s1 s2.
  destruct (verify_payment_activates cfg pm chat pid w s p u plan bonus
              Hcb Hp Hexp Hprov Hu Hplan Hbonus)
    as (now1 & sub1 & Hs1 & _).
  fold s1 in Hs1. apply (f_equal fst) in Hs1. simpl in Hs1.
  set (p1 := Payment.set_completed_at (Payment.set_status p "completed")
               (Some now1)).
  assert (Hp1 : payment_by_id (db s1) pid = Some p1)
    by (rewrite Hs1; apply payment_by_id_activated; exact Hp).
  destruct (buyer_after_activation cfg p u sub1 now1 (db s) Hu)
    as (u1 & Hu1 & Hspent1 & Hrid1 & _).
  rewrite <- Hs1 in Hu1.
  destruct (verify_payment_activates cfg pm chat pid w s1 p1 u1 plan bonus
              Hcb Hp1 Hexp Hprov Hu1 Hplan Hbonus)
    as (now2 & sub2 & Hs2 & _).
  fold s2 in Hs2. apply (f_equal fst) in Hs2. simpl in Hs2.
  split; [rewrite Hp1; reflexivity|].
  split; [rewrite Hs1; apply length_subscriptions_activated|].
  split.
  { rewrite Hs2, length_subscriptions_activated.
    rewrite Hs1, length_subscriptions_activated. reflexivity. }
  split.
  { destruct (buyer_after_activation cfg p1 u1 sub2 now2 (db s1) Hu1)
      as (u2 & Hu2 & Hspent2 & _).
    rewrite <- Hs2 in Hu2.
    exists u2. split; [exact Hu2|].
    rewrite Hspent2, Hspent1. reflexivity. }
  intros r ref Hr Hr0 Href.
  destruct (referrer_after_activation cfg p u sub1 now1 (db s) r ref bonus
              Hu Hr Hr0 Href Hbonus) as (ref1 & Href1 & Hbal1 & _).
  rewrite <- Hs1 in Href1.
  assert (Hr1 : User.referrer_id u1 = Some r) by congruence.
  clear Hrid1.
  destruct (referrer_after_activation cfg p1 u1 sub2 now2 (db s1) r ref1 bonus
              Hu1 Hr1 Hr0 Href1 Hbonus) as (ref2 & Href2 & Hbal2 & _).
  rewrite <- Hs2 in Href2.
  exists ref2. split; [exact Href2|].
  rewrite Hbal2, Hbal1. reflexivity.
Qed.

Lemma reverification_activates_again_witness :
  length (subscriptions
            (db (snd (run (answering 1000 paid_body)
                          (verify_payment default_config manager 101 1)
                          (snd (run (answering 1000 paid_body)
                                    (verify_payment default_config manager 101 1)
                                    (start shop_db)))))))
  = 2%nat.
Proof.
  apply (reverification_activates_again default_config manager 101 1
           (answering 1000 paid_body) (start shop_db)
           pending_payment buyer (mkPlan "1 month" 299 30 false) 2990).
  - intros n. reflexivity.
  - reflexivity.
  - intros e He n. injection He as <-. vm_compute. discriminate.
  - intros s0. vm_compute. reflexivity.
  - reflexivity.
  - reflexivity.
  - vm_compute. reflexivity.
Defined.

Lemma verify_twice_creates_two_subscriptions :
  let w := answering 1000 paid_body in
  let verify := verify_payment default_config manager 101 1 in
  let s1 := snd (run w verify (start shop_db)) in
  let s2 := snd (run w verify s1) in
  option_map Payment.status (payment_by_id (db s1) 1) = Some "completed"
  /\ length (subscriptions (db s1)) = 1%nat
  /\ length (subscriptions (db s2)) <> 1%nat
  /\ db s2 <> db s1.
Proof.
  vm_compute. repeat split; try discriminate.
Qed.

(** ** Creating a payment *)

Arguments get_or_create_user : simpl never.
Arguments request_invoice : simpl never.
Arguments PaymentManager.create_payment : simpl never.

Lemma log_extends {A} w (m : coro A) s :
  exists l, log (snd (run w m s)) = (l ++ log s)%list.
Proof.
  revert s.
  induction m as [a|e|k IH|c k IH|k IH|t l k IH|k IH|d k IH|a k IH];
    intros s; simpl; try (exists []; reflexivity).
  - destruct (IH (utcnow_at w (tick s)) (record s (EClock (utcnow_at w (tick s)))))
      as [l ->]. simpl. exists (l ++ [EClock (utcnow_at w (tick s))])%list.
    rewrite <- app_assoc. reflexivity.
  - destruct (IH (request_at w (tick s) c)
                 (record s (ERequest c (request_at w (tick s) c))))
      as [l ->]. simpl. eexists (l ++ [_])%list.
    rewrite <- app_assoc. reflexivity.
  - destruct (IH (choice_at w (tick s)) (record s (EChoice (choice_at w (tick s)))))
      as [l ->]. simpl. eexists (l ++ [_])%list.
    rewrite <- app_assoc. reflexivity.
  - destruct (IH (vpn_config_at w (tick s) t l) (record s (EVpnConfig t l)))
      as [l' ->]. simpl. eexists (l' ++ [_])%list.
    rewrite <- app_assoc. reflexivity.
  - apply IH.
  - destruct (IH tt (mkState d (ECommit d :: log s))) as [l ->]. simpl.
    eexists (l ++ [_])%list. rewrite <- app_assoc. reflexivity.
  - destruct (perform w a s) as [ok s'] eqn:E.
    destruct (IH ok s') as [l ->].
    assert (exists e, log s' = e :: log s) as [e ->].
    { destruct a; simpl in E; injection E as <- <-; simpl; eauto. }
    eexists (l ++ [_])%list. rewrite <- app_assoc. reflexivity.
Qed.

Lemma plan_of_nonempty cfg plan_type plan :
  plan_of cfg plan_type = Some plan -> truthy (Some plan_type) = true.
Proof.
  intros H. simpl. destruct (String.eqb_spec plan_type ""); [|reflexivity].
  subst. discriminate.
Qed.

(** [get_or_create_user] returns a user; it touches the [users] table
    only and calls no provider. *)
Lemma run_get_or_create_user w tg s :
  exists user s1 l,
    run w (get_or_create_user tg) s = (Returned user, s1)
    /\ log s1 = (l ++ log s)%list
    /\ provider_calls l = []
    /\ payments (db s1) = payments (db s).
Proof.
  unfold get_or_create_user. simpl.
  destruct (List.find _ (users (db s))) as [user|]; simpl.
  - eexists _, _, [_]. repeat split.
  - eexists _, _, [_; _]. repeat split.
Qed.

Opaque get_or_create_user request_invoice.

(** Up to its first commit [process_payment] cannot fail: it builds the
    pending record from the plan and two readings of the clock, commits
    it, and only then goes on to the provider. *)
Lemma process_payment_commits_first cfg pm tg method plan_type plan w s :
  callbacks_answered w ->
  plan_of cfg plan_type = Some plan ->
  exists user s1 l,
    let t_built := utcnow_at w (tick s1) in
    let t_inserted := utcnow_at w (S (tick s1)) in
    let payment :=
      Payment.mk (next_id (map Payment.id (payments (db s1)))) (User.id user)
                 (price plan * 100) plan_type method JNull Payment.NoUrl
                 "pending" t_inserted None (Some (t_built + minutes 15)) in
    let d1 := set_payments (db s1) (payments (db s1) ++ [payment]) in
    log s1 = (l ++ log s)%list
    /\ provider_calls l = []
    /\ payments (db s1) = payments (db s)
    /\ run w (process_payment cfg pm tg method (Some plan_type)) s
       = run w (try_except
                  (request_invoice pm plan (Session.mk d1 false) payment)
                  any_exception
                  (fun _ =>
                     await (Telegram (EditMessageText MsgErrorGeneral)) ;;
                     Ret END))
               (mkState d1 (ECommit d1 :: EClock t_inserted :: EClock t_built
                              :: log s1)).
Proof.
  intros Hcb Hplan.
  destruct (run_get_or_create_user w tg
              (record s (EAwait (Telegram AnswerCallback) true)))
    as (user & s1 & l & Hrun & Hlog & Hcalls & Hpay).
  exists user, s1, (l ++ [EAwait (Telegram AnswerCallback) true])%list.
  simpl.
  split; [rewrite Hlog, <- app_assoc; reflexivity|].
  split; [unfold provider_calls in *; rewrite omap_app, Hcalls; reflexivity|].
  split; [exact Hpay|].
  unfold process_payment. simpl. rewrite Hcb.
  pose proof (plan_of_nonempty _ _ _ Hplan) as Ht. simpl in Ht.
  rewrite Ht. simpl.
  rewrite Hplan. rewrite run_bind, Hrun. simpl. reflexivity.
Qed.

(** C8, as the code has it.  For every known plan, [process_payment]
    commits, before any call of a provider, a store whose [payments]
    table is the old one with one more row: amount = price * 100 (an
    integer), status pending, [expires_at] = t + 15 minutes for the
    reading t of the clock taken when the row is built.  [created_at]
    is the next reading of the clock, taken when the row is inserted, so
    [expires_at] is [created_at] + 15 minutes only when the two readings
    agree. *)
Theorem process_payment_persists_pending_intent
    cfg pm tg method plan_type plan w s :
  callbacks_answered w ->
  plan_of cfg plan_type = Some plan ->
  let s' := snd (run w (process_payment cfg pm tg method (Some plan_type)) s) in
  exists payment d1 earlier later k,
    log s' = (later ++ ECommit d1 :: earlier ++ log s)%list
    /\ provider_calls earlier = []
    /\ payments d1 = (payments (db s) ++ [payment])%list
    /\ Payment.amount payment = price plan * 100
    /\ Payment.status payment = "pending"
    /\ Payment.plan_type payment = plan_type
    /\ Payment.payment_method payment = method
    /\ Payment.expires_at payment = Some (utcnow_at w k + minutes 15)
    /\ Payment.created_at payment = utcnow_at w (S k).
Proof.
  intros Hcb Hplan s'.
  destruct (process_payment_commits_first cfg pm tg method plan_type plan w s
              Hcb Hplan) as (user & s1 & l & Hlog & Hcalls & Hpay & Hrun).
  subst s'. rewrite Hrun.
  match goal with
  | |- context [run w ?m ?s0] => destruct (log_extends w m s0) as [later Hl]
  end.
  eexists _, _, (EClock _ :: EClock _ :: l)%list, later, (tick s1).
  split.
  { rewrite Hl. simpl. rewrite Hlog. reflexivity. }
  split; [exact Hcalls|].
  split; [simpl; rewrite Hpay; reflexivity|].
  repeat split.
Qed.

Lemma process_payment_persists_pending_intent_witness :
  exists payment d1 earlier later k,
    log (snd (run (ticking paid_body)
                  (process_payment default_config manager 101 "yoomoney"
                                   (Some "3_months"))
                  (start shop_db)))
    = (later ++ ECommit d1 :: earlier ++ [])%list
    /\ provider_calls earlier = []
    /\ payments d1 = (payments shop_db ++ [payment])%list
    /\ Payment.amount payment = 799 * 100
    /\ Payment.status payment = "pending"
    /\ Payment.plan_type payment = "3_months"
    /\ Payment.payment_method payment = "yoomoney"
    /\ Payment.expires_at payment
       = Some (utcnow_at (ticking paid_body) k + minutes 15)
    /\ Payment.created_at payment = utcnow_at (ticking paid_body) (S k).
Proof.
  apply (process_payment_persists_pending_intent default_config manager 101
           "yoomoney" "3_months" (mkPlan "3 months" 799 90 true)
           (ticking paid_body) (start shop_db)).
  - intros n. reflexivity.
  - reflexivity.
Defined.

Lemma expires_at_is_not_created_at_plus_15_minutes :
  match payment_by_id
          (db (snd (run (ticking paid_body)
                        (process_payment default_config manager 101 "yoomoney"
                                         (Some "3_months"))
                        (start shop_db)))) 2
  with
  | Some p => Payment.expires_at p <> Some (Payment.created_at p + minutes 15)
  | None => False
  end.
Proof. vm_compute. discriminate. Qed.

Transparent request_invoice.

Lemma no_commit_py_item v k : no_commit (py_item v k).
Proof. destruct v; try exact I. simpl. destruct (_ !! _); exact I. Qed.

Lemma no_commit_create_payment pm method amount order_id description :
  no_commit (PaymentManager.create_payment pm method amount order_id description).
Proof.
  unfold PaymentManager.create_payment.
  apply no_commit_try_except; [|intros e; destruct (is_PaymentError e); exact I].
  destruct (String.eqb method "yoomoney"), (PaymentManager.yoomoney pm);
    try (unfold YooMoneyPayment.create_payment, wrap_create_errors; quiet; fail);
    destruct (String.eqb method "qiwi"), (PaymentManager.qiwi pm);
    try (unfold QiwiPayment.create_payment, wrap_create_errors;
         repeat first [apply no_commit_py_item | progress quiet]; fail);
    destruct (String.eqb method "crypto"), (PaymentManager.cryptomus pm);
    try (unfold CryptomusPayment.create_payment, wrap_create_errors; quiet; fail);
    exact I.
Qed.

(** [PaymentManager.create_payment] raises nothing but [PaymentError]. *)
Lemma create_payment_raises_PaymentError
    w pm method amount order_id description s e :
  fst (run w (PaymentManager.create_payment pm method amount order_id
                description) s) = Raised e ->
  is_PaymentError e = true.
Proof.
  unfold PaymentManager.create_payment. rewrite run_try_except.
  destruct (run w _ s) as [[pd|e0] s0]; simpl; [discriminate|].
  destruct (is_PaymentError e0) eqn:E; simpl; intros H;
    injection H as <-; [exact E|reflexivity].
Qed.

(** C4, as the code has it.  Whenever the provider create call fails
    (whatever [PaymentManager.create_payment] raises is a
    [PaymentError]), [process_payment] sends the error text to the user
    and returns; it writes nothing more, so the record it has already
    committed stays in the store with status pending, without external
    id or pay URL.  Nothing marks it failed. *)
Theorem failed_creation_leaves_intent_pending
    cfg pm tg method plan_type plan w s :
  callbacks_answered w ->
  plan_of cfg plan_type = Some plan ->
  (forall amount order_id description s0, exists e,
      fst (run w (PaymentManager.create_payment pm method amount order_id
                    description) s0) = Raised e) ->
  let s' := snd (run w (process_payment cfg pm tg method (Some plan_type)) s) in
  exists payment msg ok,
    payments (db s') = (payments (db s) ++ [payment])%list
    /\ Payment.status payment = "pending"
    /\ Payment.payment_id payment = JNull
    /\ Payment.payment_url payment = Payment.NoUrl
    /\ Payment.amount payment = price plan * 100
    /\ In (EAwait (Telegram (EditMessageText (MsgPaymentError msg))) ok)
          (log s').
Proof.
  intros Hcb Hplan Hfail s'.
  destruct (process_payment_commits_first cfg pm tg method plan_type plan w s
              Hcb Hplan) as (user & s1 & l & Hlog & Hcalls & Hpay & Hrun).
  subst s'. rewrite Hrun. clear Hrun.
  unfold request_invoice.
  rewrite run_try_except, run_bind, run_try_except, run_bind.
  cbn [Payment.payment_method Payment.amount Payment.id].
  match goal with
  | |- context [run w (PaymentManager.create_payment ?a ?b ?c ?d ?e) ?s0] =>
      destruct (Hfail c d e s0) as [e0 He0];
      pose proof (create_payment_raises_PaymentError w a b c d e s0 e0 He0) as Hpe;
      pose proof (run_no_commit w _ s0 (no_commit_create_payment a b c d e)) as Hh;
      destruct (run w (PaymentManager.create_payment a b c d e) s0)
        as [r s3] eqn:E
  end.
  try rewrite E in He0. try rewrite E in Hh.
  simpl in He0, Hh. subst r. simpl. rewrite Hpe.
  destruct e0 as [|msg| | | | | |]; try discriminate.
  apply store_history_db in Hh. simpl in Hh.
  destruct (telegram_at w (tick s3) (EditMessageText (MsgPaymentError msg)))
    eqn:Hok; simpl.
  - eexists _, msg, true. rewrite Hh. simpl. rewrite Hpay.
    repeat split. left. reflexivity.
  - destruct (telegram_at w _ (EditMessageText MsgErrorGeneral)); simpl;
      eexists _, msg, false; rewrite Hh; simpl; rewrite Hpay;
      repeat split; right; left; reflexivity.
Qed.

Lemma failed_creation_leaves_intent_pending_witness :
  exists payment msg ok,
    payments (db (snd (run (unreachable 1000)
                           (process_payment default_config manager 101
                                            "yoomoney" (Some "3_months"))
                           (start shop_db))))
    = (payments shop_db ++ [payment])%list
    /\ Payment.status payment = "pending"
    /\ Payment.payment_id payment = JNull
    /\ Payment.payment_url payment = Payment.NoUrl
    /\ Payment.amount payment = 799 * 100
    /\ In (EAwait (Telegram (EditMessageText (MsgPaymentError msg))) ok)
          (log (snd (run (unreachable 1000)
                         (process_payment default_config manager 101
                                          "yoomoney" (Some "3_months"))
                         (start shop_db)))).
Proof.
  apply (failed_creation_leaves_intent_pending default_config manager 101
           "yoomoney" "3_months" (mkPlan "3 months" 799 90 true)
           (unreachable 1000) (start shop_db)).
  - intros n. reflexivity.
  - reflexivity.
  - intros amount order_id description s0. eexists. vm_compute. reflexivity.
Defined.

Lemma provider_failure_leaves_intent_pending :
  let w := unreachable 1000 in
  let s' := snd (run w (process_payment default_config manager 101 "yoomoney"
                                        (Some "3_months"))
                     (start shop_db)) in
  In (ERequest (ApiCreate "yoomoney" 79900 "vpn_2" "VPN подписка 3 months")
               (HttpRaise RequestException))
     (log s')
  /\ option_map Payment.status (payment_by_id (db s') 2) = Some "pending"
  /\ option_map Payment.status (payment_by_id (db s') 2) <> Some "failed".
Proof.
  vm_compute. split; [|split].
  - right. left. reflexivity.
  - reflexivity.
  - discriminate.
Qed.

Transparent get_or_create_user.

(** ** The broadcast *)

(** One turn of the loop always returns; it sends to the user exactly
    once, and it adds one to [sent_count] or to [failed_count], or to
    both when the send succeeds and the progress update after it
    raises. *)
Lemma run_broadcast_one w text total i user c s :
  exists c' s',
    run w (broadcast_one text total i user c) s = (Returned c', s')
    /\ sends (log s') = User.telegram_id user :: sends (log s)
    /\ store_history s' = store_history s
    /\ (sent_count c' = sent_count c /\ failed_count c' = failed_count c + 1
        \/ sent_count c' = sent_count c + 1 /\ failed_count c' = failed_count c
        \/ sent_count c' = sent_count c + 1
           /\ failed_count c' = failed_count c + 1
           /\ exists n sent failed,
                telegram_at w n (EditMessageText
                  (MsgBroadcastProgress total sent failed (i + 1))) = false).
Proof.
  unfold broadcast_one. simpl.
  destruct (telegram_at w (tick s) (SendMessage _ _)); simpl.
  - destruct (Z.eqb ((i + 1) mod 50) 0); simpl.
    + destruct (telegram_at w _ (EditMessageText _)) eqn:E; simpl.
      * eexists _, _. repeat split. right. left. split; reflexivity.
      * eexists _, _. repeat split. right. right.
        repeat split. eauto.
    + eexists _, _. repeat split. right. left. split; reflexivity.
  - eexists _, _. repeat split. left. split; reflexivity.
Qed.

(** The loop always returns, after one send to each user in the order
    of the list, whatever fails on the way. *)
Lemma run_broadcast_loop w text total users : forall i c s,
  exists c' s',
    run w (broadcast_loop text total i users c) s = (Returned c', s')
    /\ sends (log s')
       = (rev (map User.telegram_id users) ++ sends (log s))%list
    /\ store_history s' = store_history s
    /\ (progress_updates_succeed w ->
        sent_count c' + failed_count c'
        = sent_count c + failed_count c + Z.of_nat (length users)).
Proof.
  induction users as [|user rest IH]; intros i c s.
  - exists c, s. simpl. repeat split. intros _. lia.
  - cbn [broadcast_loop]. rewrite run_bind.
    destruct (run_broadcast_one w text total i user c s)
      as (c1 & s1 & -> & Hsend1 & Hh1 & Hcount1).
    destruct (IH (i + 1) c1 s1) as (c' & s' & -> & Hsend & Hh & Hcount).
    exists c', s'. split; [reflexivity|].
    split; [rewrite Hsend, Hsend1; simpl; rewrite <- app_assoc; reflexivity|].
    split; [congruence|].
    intros Hp. specialize (Hcount Hp).
    cbn [length]. rewrite Nat2Z.inj_succ.
    destruct Hcount1 as [[H1 H2]|[[H1 H2]|(H1 & H2 & n & a & b & Hf)]].
    + lia.
    + lia.
    + rewrite Hp in Hf. discriminate.
Qed.

(** The handler sends to every user in the table, in order, once the
    callback is answered and the opening progress message is shown. *)
Lemma broadcast_attempts_every_recipient w text s :
  text <> "" ->
  callbacks_answered w ->
  (forall n total, telegram_at w n (EditMessageText (MsgBroadcastStarted total))
                   = true) ->
  let s' := snd (run w (admin_broadcast_confirm (Some text)) s) in
  sends (log s')
  = (rev (map User.telegram_id (users (db s))) ++ sends (log s))%list.
Proof.
  intros Htext Hcb Hstart s'. subst s'.
  unfold admin_broadcast_confirm. simpl. rewrite Hcb.
  rewrite (proj2 (String.eqb_neq _ _)) by exact Htext. simpl.
  rewrite Hstart. simpl.
  rewrite run_bind.
  match goal with
  | |- context [run w (broadcast_loop ?t ?n ?i ?us ?c) ?s0] =>
      destruct (run_broadcast_loop w t n us i c s0)
        as (c' & s1 & -> & Hsend & _ & _)
  end.
  simpl.
  destruct (telegram_at w (tick s1) _); simpl; rewrite Hsend; reflexivity.
Qed.

(** With progress updates that do not raise, the counts of the report
    add up to the number of recipients. *)
Lemma broadcast_counts_add_up w text s c :
  progress_updates_succeed w ->
  fst (run w (admin_broadcast_confirm (Some text)) s) = Returned (Some c) ->
  sent_count c + failed_count c = Z.of_nat (length (users (db s))).
Proof.
  intros Hp. unfold admin_broadcast_confirm. simpl.
  destruct (telegram_at w (tick s) AnswerCallback); simpl; [|discriminate].
  destruct (String.eqb text ""); simpl.
  { destruct (telegram_at w _ _); simpl; discriminate. }
  destruct (telegram_at w _ (EditMessageText (MsgBroadcastStarted _))); simpl;
    [|discriminate].
  rewrite run_bind.
  match goal with
  | |- context [run w (broadcast_loop ?t ?n ?i ?us ?c0) ?s0] =>
      destruct (run_broadcast_loop w t n us i c0 s0)
        as (c' & s1 & -> & _ & _ & Hcount)
  end.
  simpl. specialize (Hcount Hp). simpl in Hcount.
  destruct (telegram_at w (tick s1) _); simpl; [|discriminate].
  intros H. injection H as <-. lia.
Qed.

(** The scenario of the specification: 100 recipients, every tenth send
    raising.  All 100 are sent to, and the report shows 90 sent and 10
    failed of 100. *)
Lemma broadcast_every_tenth_send_fails :
  let s' := run every_tenth_send_fails (admin_broadcast_confirm (Some "hello"))
                (start (mkDB (recipients 100) [] [])) in
  fst s' = Returned (Some (mkCounters 90 10))
  /\ sends (log (snd s')) = rev (map User.telegram_id (recipients 100))
  /\ In (EAwait (Telegram (EditMessageText (MsgBroadcastResult 90 100 10))) true)
        (log (snd s')).
Proof.
  vm_compute. repeat split. left. reflexivity.
Qed.

(** C9.  The claim fails on the code where a progress update raises:
    with 50 recipients whose sends all succeed and a progress update
    that raises after the 50th send, all 50 are sent to, and the report
    shows 50 sent and 1 failed of 50, so sent + failed is not the
    total. *)
Theorem broadcast_counts_a_failed_progress_update :
  let s' := run progress_update_fails (admin_broadcast_confirm (Some "hello"))
                (start (mkDB (recipients 50) [] [])) in
  fst s' = Returned (Some (mkCounters 50 1))
  /\ sends (log (snd s')) = rev (map User.telegram_id (recipients 50))
  /\ In (EAwait (Telegram (EditMessageText (MsgBroadcastResult 50 50 1))) true)
        (log (snd s'))
  /\ 50 + 1 <> Z.of_nat (length (recipients 50)).
Proof.
  vm_compute. repeat split; try discriminate. left. reflexivity.
Qed.

(** ** Tasks in the event loop *)

Lemma advance_bind {A B} w (m : coro A) (f : A -> coro B) s :
  advance w (bind m f) s =
  match advance w m s with
  | (Done (Returned a), s') => advance w (f a) s'
  | (Done (Raised e), s') => (Done (Raised e), s')
  | (Waiting a k, s') => (Waiting a (fun ok => bind (k ok) f), s')
  | (Ready m', s') => (Ready (bind m' f), s')
  end.
Proof.
  revert s.
  induction m as [a|e|k IH|c k IH|k IH|t l k IH|k IH|d k IH|a k IH];
    intros s; simpl; try reflexivity; apply IH.
Qed.

Lemma advance_try_except {A} w (m : coro A) sel h s :
  advance w (try_except m sel h) s =
  match advance w m s with
  | (Done (Returned a), s') => (Done (Returned a), s')
  | (Done (Raised e), s') =>
      if sel e then advance w (h e) s' else (Done (Raised e), s')
  | (Waiting a k, s') => (Waiting a (fun ok => try_except (k ok) sel h), s')
  | (Ready m', s') => (Ready (try_except m' sel h), s')
  end.
Proof.
  revert s.
  induction m as [a|e|k IH|c k IH|k IH|t l k IH|k IH|d k IH|a k IH];
    intros s; simpl; try reflexivity; try apply IH.
  destruct (sel e); reflexivity.
Qed.

(** A synchronous function runs to its end in one go. *)
Lemma advance_sync {A} w (m : coro A) s :
  sync m -> advance w m s = (Done (fst (run w m s)), snd (run w m s)).
Proof.
  revert s.
  induction m as [a|e|k IH|c k IH|k IH|t l k IH|k IH|d k IH|a k IH];
    intros s Hm; simpl in *; try reflexivity; try (apply IH, Hm).
  contradiction.
Qed.

Lemma sync_bind {A B} (m : coro A) (f : A -> coro B) :
  sync m -> (forall a, sync (f a)) -> sync (bind m f).
Proof.
  induction m as [a|e|k IH|c k IH|k IH|t l k IH|k IH|d k IH|a k IH];
    simpl; intros Hm Hf; auto; contradiction.
Qed.

Lemma sync_try_except {A} (m : coro A) sel h :
  sync m -> (forall e, sync (h e)) -> sync (try_except m sel h).
Proof.
  induction m as [a|e|k IH|c k IH|k IH|t l k IH|k IH|d k IH|a k IH];
    simpl; intros Hm Hh; auto; try contradiction.
  destruct (sel e); simpl; auto.
Qed.

Ltac synchronous :=
  repeat first
    [ exact I
    | intro
    | match goal with
      | |- sync (bind _ _) => apply sync_bind
      | |- sync (try_except _ _ _) => apply sync_try_except
      | |- sync (if ?b then _ else _) => destruct b
      | |- sync (match ?x with _ => _ end) => destruct x
      | |- sync _ => progress simpl
      end ].

Lemma sync_check_payment pm method pid :
  sync (PaymentManager.check_payment pm method pid).
Proof.
  unfold PaymentManager.check_payment.
  apply sync_try_except; [|intros; exact I].
  destruct (String.eqb method "yoomoney"), (PaymentManager.yoomoney pm);
    try (unfold YooMoneyPayment.check_payment, fetch, py_get; synchronous; fail);
    destruct (String.eqb method "qiwi"), (PaymentManager.qiwi pm);
    try (unfold QiwiPayment.check_payment, fetch, py_get; synchronous; fail);
    destruct (String.eqb method "crypto"), (PaymentManager.cryptomus pm);
    try (unfold CryptomusPayment.check_payment, fetch, py_get; synchronous; fail);
    exact I.
Qed.

(** A coroutine that does not commit stays so across its awaits, and
    leaves the store alone on the way. *)
Lemma advance_no_commit {A} w (m : coro A) s :
  no_commit m ->
  quiet_task (fst (advance w m s))
  /\ store_history (snd (advance w m s)) = store_history s.
Proof.
  revert s.
  induction m as [a|e|k IH|c k IH|k IH|t l k IH|k IH|d k IH|a k IH];
    intros s Hm; simpl in *; try (split; [exact I|reflexivity]).
  - destruct (IH (utcnow_at w (tick s))
                 (record s (EClock (utcnow_at w (tick s)))) (Hm _)); auto.
  - destruct (IH (request_at w (tick s) c)
                 (record s (ERequest c (request_at w (tick s) c))) (Hm _));
      auto.
  - destruct (IH (choice_at w (tick s))
                 (record s (EChoice (choice_at w (tick s)))) (Hm _)); auto.
  - destruct (IH (vpn_config_at w (tick s) t l)
                 (record s (EVpnConfig t l)) (Hm _)); auto.
  - apply IH, Hm.
  - contradiction.
  - split; [exact Hm|reflexivity].
Qed.

Lemma resume_quiet {A} w (t : task A) s :
  quiet_task t ->
  quiet_task (fst (resume w t s))
  /\ store_history (snd (resume w t s)) = store_history s.
Proof.
  destruct t as [m|a k|r]; simpl; intros Ht.
  - apply advance_no_commit, Ht.
  - destruct (perform w a s) as [ok s1] eqn:E.
    destruct (advance_no_commit w (k ok) s1 (Ht ok)) as [H1 H2].
    split; [exact H1|]. rewrite H2.
    change s1 with (snd (ok, s1)). rewrite <- E. apply store_history_perform.
  - split; [exact I|reflexivity].
Qed.

(** The activation, seen from the event loop: by its first [await] it
    has committed, and it commits nothing after. *)
Lemma advance_activate cfg chat d p w s u plan bonus :
  user_by_id d (Payment.user_id p) = Some u ->
  plan_of cfg (Payment.plan_type p) = Some plan ->
  int_of_float (truediv (Payment.amount p * REFERRAL_BONUS_PERCENT cfg) 100)
    = Some bonus ->
  exists now sub,
    quiet_task (fst (advance w (activate cfg chat (Session.mk d false) p) s))
    /\ db (snd (advance w (activate cfg chat (Session.mk d false) p) s))
       = activated cfg p u sub now d.
Proof.
  intros Hu Hplan Hbonus.
  unfold activate. simpl.
  rewrite user_by_id_update_payment, Hu. simpl.
  rewrite !amount_rubles_completed.
  unfold calculate_end_date. rewrite Hplan. simpl.
  destruct (User.referrer_id u) as [r|] eqn:Hr; simpl.
  - destruct (Z.eqb r 0) eqn:Hr0; simpl.
    + do 2 eexists. split; [quiet|].
      unfold activated, credited. simpl. rewrite Hr, Hr0. reflexivity.
    + rewrite !user_by_id_set_subscriptions, !user_by_id_deactivate.
      destruct (user_by_id _ r) as [ref|] eqn:Href; simpl.
      * unfold calculate_referral_bonus, py_int. rewrite Hbonus. simpl.
        do 2 eexists. split; [quiet|].
        unfold activated, credited; simpl; rewrite Hr, Hr0.
        rewrite !user_by_id_set_subscriptions, !user_by_id_deactivate.
        rewrite Href, Hbonus. reflexivity.
      * do 2 eexists. split; [quiet|].
        unfold activated, credited. simpl. rewrite Hr, Hr0.
        rewrite !user_by_id_set_subscriptions, !user_by_id_deactivate.
        rewrite Href. reflexivity.
  - do 2 eexists. split; [quiet|].
    unfold activated, credited. simpl. rewrite Hr. reflexivity.
Qed.

Lemma advance_bind_quiet {A B} w (m : coro A) (f : A -> coro B) s :
  quiet_task (fst (advance w m s)) ->
  (forall a, no_commit (f a)) ->
  quiet_task (fst (advance w (bind m f) s))
  /\ store_history (snd (advance w (bind m f) s))
     = store_history (snd (advance w m s)).
Proof.
  intros Hq Hf. rewrite advance_bind.
  destruct (advance w m s) as [[m'|a k|[x|e]] s']; simpl in *.
  - split; [apply no_commit_bind; auto|reflexivity].
  - split; [intros ok; apply no_commit_bind; auto|reflexivity].
  - apply advance_no_commit, Hf.
  - split; [exact I|reflexivity].
Qed.

Lemma advance_try_except_quiet {A} w (m : coro A) sel h s :
  quiet_task (fst (advance w m s)) ->
  (forall e, no_commit (h e)) ->
  quiet_task (fst (advance w (try_except m sel h) s))
  /\ store_history (snd (advance w (try_except m sel h) s))
     = store_history (snd (advance w m s)).
Proof.
  intros Hq Hh. rewrite advance_try_except.
  destruct (advance w m s) as [[m'|a k|[x|e]] s']; simpl in *.
  - split; [apply no_commit_try_except; auto|reflexivity].
  - split; [intros ok; apply no_commit_try_except; auto|reflexivity].
  - split; [exact I|reflexivity].
  - destruct (sel e); [|split; [exact I|reflexivity]].
    apply advance_no_commit, Hh.
Qed.

Lemma sync_payment_is_expired p : sync (payment_is_expired p).
Proof.
  unfold payment_is_expired. destruct (Payment.expires_at p); simpl; auto.
Qed.

Opaque activate.

(** A [verify_payment] task resumed after its callback answer does its
    whole database work before it awaits again: under the conditions of
    an activation, it has committed the activation by then. *)
Lemma resume_answered_verify cfg pm chat pid w s p u plan bonus :
  callbacks_answered w ->
  payment_by_id (db s) pid = Some p ->
  (forall e, Payment.expires_at p = Some e -> clock_not_after w e) ->
  provider_reports w pm p "completed" ->
  user_by_id (db s) (Payment.user_id p) = Some u ->
  plan_of cfg (Payment.plan_type p) = Some plan ->
  int_of_float (truediv (Payment.amount p * REFERRAL_BONUS_PERCENT cfg) 100)
    = Some bonus ->
  exists now sub,
    quiet_task
      (fst (resume w (Waiting (Telegram AnswerCallback)
                              (answered_verify cfg pm chat pid)) s))
    /\ db (snd (resume w (Waiting (Telegram AnswerCallback)
                                  (answered_verify cfg pm chat pid)) s))
       = activated cfg p u sub now (db s).
Proof.
  intros Hcb Hp Hexp Hprov Hu Hplan Hbonus.
  unfold resume, answered_verify, verify_payment. simpl. rewrite Hcb. simpl.
  rewrite Hp.
  set (s0 := record s (EAwait (Telegram AnswerCallback) true)).
  match goal with
  | |- context [advance w (try_except ?m ?sel ?h) s0] =>
      set (body := m); set (handler := h)
  end.
  assert (Hbody : exists now sub,
             quiet_task (fst (advance w body s0))
             /\ db (snd (advance w body s0)) = activated cfg p u sub now (db s)).
  { subst body. rewrite advance_bind.
    rewrite (advance_sync w _ s0 (sync_payment_is_expired p)).
    assert (Hne : exists s1, run w (payment_is_expired p) s0 = (Returned false, s1)).
    { unfold payment_is_expired.
      destruct (Payment.expires_at p) as [e|] eqn:He; simpl; [|eauto].
      rewrite (proj2 (Z.ltb_ge _ _)) by apply (Hexp e eq_refl). eauto. }
    destruct Hne as [s1 ->]. cbn [fst snd].
    rewrite advance_bind.
    rewrite (advance_sync w _ s1 (sync_check_payment pm _ _)).
    destruct (run w (PaymentManager.check_payment pm _ _) s1) as [r s2] eqn:Hc.
    pose proof (Hprov s1) as Hr. rewrite Hc in Hr. simpl in Hr. subst r.
    cbn [fst snd]. rewrite String.eqb_refl.
    destruct (advance_activate cfg chat (db s) p w s2 u plan bonus
                Hu Hplan Hbonus) as (now & sub & Hq & Hdb).
    exists now, sub.
    destruct (advance_bind_quiet w
                (activate cfg chat (Session.mk (db s) false) p)
                (fun _ => Ret END) s2 Hq (fun _ => I)) as [Hq' Hh'].
    split; [exact Hq'|].
    apply store_history_db in Hh'. rewrite Hh'. exact Hdb. }
  destruct Hbody as (now & sub & Hq & Hdb).
  exists now, sub.
  destruct (advance_try_except_quiet w body any_exception handler s0 Hq)
    as [Hq' Hh'].
  { intros e. subst handler. quiet. }
  split; [exact Hq'|].
  apply store_history_db in Hh'. rewrite Hh'. exact Hdb.
Qed.

Transparent activate.

(** ** Two verifications of one intent at a time *)

Section TwoVerifications.

Variables (cfg : Config) (pm : PaymentManager.t) (chat pid : Z).
Variables (w : world) (d0 : DB) (p : Payment.t) (u : User.t).
Variables (plan : Plan) (bonus : Z).

Hypothesis Hcb : callbacks_answered w.
Hypothesis Hp : payment_by_id d0 pid = Some p.
Hypothesis Hexp :
  forall e, Payment.expires_at p = Some e -> clock_not_after w e.
Hypothesis Hprov : provider_reports w pm p "completed".
Hypothesis Hu : user_by_id d0 (Payment.user_id p) = Some u.
Hypothesis Hplan : plan_of cfg (Payment.plan_type p) = Some plan.
Hypothesis Hbonus :
  int_of_float (truediv (Payment.amount p * REFERRAL_BONUS_PERCENT cfg) 100)
  = Some bonus.

Local Abbreviation times := (activated_times pid p u bonus d0).

Lemma activated_times_start : times 0%nat d0.
Proof.
  unfold activated_times. split; [|split; [|split]].
  - exists p. split; [exact Hp|]. repeat split.
  - exists u. auto.
  - reflexivity.
  - intros r ref _ _ Href. exists ref. auto.
Qed.

Lemma activated_times_step n d q v sub now :
  times n d ->
  payment_by_id d pid = Some q ->
  same_order p q ->
  user_by_id d (Payment.user_id p) = Some v ->
  times (S n) (activated cfg q v sub now d).
Proof.
  intros (_ & (v0 & Hv0 & Hvr & Hvs) & Hlen & Hrefs) Hq Hsame Hv.
  assert (v0 = v) by congruence. subst v0.
  destruct Hsame as (Suid & Samt & Splan & Smeth & Spid & Sexp).
  assert (Hrub : Payment.amount_rubles q = Payment.amount_rubles p)
    by (unfold Payment.amount_rubles; rewrite Samt; reflexivity).
  rewrite <- Suid in Hv.
  split; [|split; [|split]].
  - eexists. split; [apply payment_by_id_activated; exact Hq|].
    repeat split; assumption.
  - destruct (buyer_after_activation cfg q v sub now d Hv)
      as (v' & Hv' & Hspent & Hr' & _).
    exists v'. rewrite <- Suid. split; [exact Hv'|].
    split; [congruence|].
    simpl. rewrite Hspent, Hvs, Hrub. reflexivity.
  - rewrite length_subscriptions_activated, Hlen. reflexivity.
  - intros r ref Hr Hr0 Href.
    destruct (Hrefs r ref Hr Hr0 Href) as (ref1 & Href1 & Hbal1).
    assert (Hb : int_of_float
                   (truediv (Payment.amount q * REFERRAL_BONUS_PERCENT cfg) 100)
                 = Some bonus) by (rewrite Samt; exact Hbonus).
    destruct (referrer_after_activation cfg q v sub now d r ref1 bonus
                Hv (eq_trans Hvr Hr) Hr0 Href1 Hb) as (ref' & Href' & Hbal' & _).
    exists ref'. split; [exact Href'|].
    simpl. rewrite Hbal', Hbal1. reflexivity.
Qed.

(** One turn of the loop on one of the tasks: either the store is as it
    was and the task is where it was, or the task has gone from before
    its database work to past its commit and the store holds one
    activation more. *)
Lemma phase_step past t s n :
  phase cfg pm chat pid past t ->
  times n (db s) ->
  (phase cfg pm chat pid past (fst (resume w t s))
   /\ times n (db (snd (resume w t s))))
  \/ (past = false
      /\ phase cfg pm chat pid true (fst (resume w t s))
      /\ times (S n) (db (snd (resume w t s)))).
Proof.
  intros Hphase Htimes.
  destruct past; simpl in Hphase.
  - left. destruct (resume_quiet w t s Hphase) as [Hq Hh].
    split; [exact Hq|].
    apply store_history_db in Hh. rewrite Hh. exact Htimes.
  - destruct Hphase as [-> | ->].
    + left. split; [right; reflexivity|exact Htimes].
    + right. split; [reflexivity|].
      pose proof Htimes as ((q & Hq & Hsame) & (v & Hv & _) & _).
      pose proof Hsame as (Suid & Samt & Splan & Smeth & Spid & Sexp).
      assert (Hprov' : provider_reports w pm q "completed").
      { unfold provider_reports. rewrite Smeth, Spid. exact Hprov. }
      destruct (resume_answered_verify cfg pm chat pid w s q v plan bonus)
        as (now & sub & Hquiet & Hdb); try assumption.
      * rewrite Sexp. exact Hexp.
      * rewrite Suid. exact Hv.
      * rewrite Splan. exact Hplan.
      * rewrite Samt. exact Hbonus.
      * split; [exact Hquiet|].
        rewrite Hdb. apply activated_times_step; assumption.
Qed.

Local Abbreviation invariant := (two_verifications cfg pm chat pid p u bonus d0).

(** The invariant holds at every moment of every schedule. *)
Lemma two_verifications_kept schedule : forall pool s,
  invariant pool s ->
  invariant (fst (event_loop w schedule pool s))
            (snd (event_loop w schedule pool s)).
Proof.
  induction schedule as [|i rest IH]; intros pool s Hinv; [exact Hinv|].
  destruct Hinv as (t1 & t2 & past1 & past2 & -> & H1 & H2 & Ht).
  destruct i as [|[|i]]; simpl.
  - destruct (phase_step past1 t1 s _ H1 Ht) as [[H1' Ht']|(-> & H1' & Ht')];
      destruct (resume w t1 s) as [t1' s']; simpl in *; apply IH.
    + exists t1', t2, past1, past2. auto.
    + exists t1', t2, true, past2. auto.
  - destruct (phase_step past2 t2 s _ H2 Ht) as [[H2' Ht']|(-> & H2' & Ht')];
      destruct (resume w t2 s) as [t2' s']; simpl in *; apply IH.
    + exists t1, t2', past1, past2. auto.
    + exists t1, t2', past1, true.
      split; [reflexivity|]. split; [exact H1|]. split; [exact H2'|].
      destruct past1; exact Ht'.
  - apply IH. exists t1, t2, past1, past2. auto.
Qed.

Lemma done_is_past t :
  fresh_verify cfg pm chat pid t -> is_done t = false.
Proof. intros [-> | ->]; reflexivity. Qed.

End TwoVerifications.

(** C7, as the code has it.  The code has no conditional update and no
    lock, and it does not need one to be wrong: a [verify_payment] does
    all its database work between two awaits, so the event loop runs
    the two activations one after the other, and the second does not
    look at what the first stored.  For every schedule of two
    simultaneous verifications of one intent that lets both finish,
    when the provider reports completed, both activate: two subscription
    rows are created, the amount is added twice to the buyer's total and
    the referrer is credited twice. *)
Theorem simultaneous_verifications_both_activate
    cfg pm chat pid w s p u plan bonus schedule :
  callbacks_answered w ->
  payment_by_id (db s) pid = Some p ->
  (forall e, Payment.expires_at p = Some e -> clock_not_after w e) ->
  provider_reports w pm p "completed" ->
  user_by_id (db s) (Payment.user_id p) = Some u ->
  plan_of cfg (Payment.plan_type p) = Some plan ->
  int_of_float (truediv (Payment.amount p * REFERRAL_BONUS_PERCENT cfg) 100)
    = Some bonus ->
  let verify := verify_payment cfg pm chat pid in
  let final := event_loop w schedule [Ready verify; Ready verify] s in
  forallb is_done (fst final) = true ->
  length (subscriptions (db (snd final)))
  = (2 + length (subscriptions (db s)))%nat
  /\ (exists v,
        user_by_id (db (snd final)) (Payment.user_id p) = Some v
        /\ User.total_spent v
           = (User.total_spent u + Payment.amount_rubles p
              + Payment.amount_rubles p)%float)
  /\ (forall r ref,
        User.referrer_id u = Some r -> r <> 0 ->
        user_by_id (db s) r = Some ref ->
        exists ref',
          user_by_id (db (snd final)) r = Some ref'
          /\ User.referral_balance ref'
             = (User.referral_balance ref + truediv bonus 100
                + truediv bonus 100)%float).
Proof.
  intros Hcb Hp Hexp Hprov Hu Hplan Hbonus verify final Hdone.
  assert (Hstart : two_verifications cfg pm chat pid p u bonus (db s)
                     [Ready verify; Ready verify] s).
  { exists (Ready verify), (Ready verify), false, false.
    split; [reflexivity|]. split; [left; reflexivity|].
    split; [left; reflexivity|].
    apply activated_times_start; assumption. }
  pose proof (two_verifications_kept cfg pm chat pid w (db s) p u plan bonus
                Hcb Hexp Hprov Hplan Hbonus schedule _ _ Hstart) as Hend.
  fold final in Hend.
  destruct Hend as (t1 & t2 & past1 & past2 & Hpool & H1 & H2 & Ht).
  rewrite Hpool in Hdone. simpl in Hdone.
  apply andb_prop in Hdone. destruct Hdone as [Hd1 Hd2].
  apply andb_prop in Hd2. destruct Hd2 as [Hd2 _].
  destruct past1;
    [|simpl in H1; rewrite (done_is_past _ _ _ _ _ H1) in Hd1; discriminate].
  destruct past2;
    [|simpl in H2; rewrite (done_is_past _ _ _ _ _ H2) in Hd2; discriminate].
  destruct Ht as (_ & (v & Hv & _ & Hspent) & Hlen & Hrefs).
  split; [exact Hlen|]. split.
  - exists v. split; [exact Hv|exact Hspent].
  - intros r ref Hr Hr0 Href.
    destruct (Hrefs r ref Hr Hr0 Href) as (ref' & Href' & Hbal).
    exists ref'. split; [exact Href'|exact Hbal].
Qed.

Lemma simultaneous_verifications_both_activate_witness :
  length (subscriptions
            (db (snd (event_loop (answering 1000 paid_body) alternating
                        [Ready (verify_payment default_config manager 101 1);
                         Ready (verify_payment default_config manager 101 1)]
                        (start shop_db)))))
  = 2%nat.
Proof.
  apply (simultaneous_verifications_both_activate default_config manager 101 1
           (answering 1000 paid_body) (start shop_db)
           pending_payment buyer (mkPlan "1 month" 299 30 false) 2990
           alternating).
  - intros n. reflexivity.
  - reflexivity.
  - intros e He n. injection He as <-. vm_compute. discriminate.
  - intros s0. vm_compute. reflexivity.
  - reflexivity.
  - reflexivity.
  - vm_compute. reflexivity.
  - vm_compute. reflexivity.
Defined.

Lemma simultaneous_verifications_activate_twice :
  let verify := verify_payment default_config manager 101 1 in
  let final := event_loop (answering 1000 paid_body) alternating
                          [Ready verify; Ready verify] (start shop_db) in
  forallb is_done (fst final) = true
  /\ length (subscriptions (db (snd final))) <> 1%nat
  /\ length (commits (log (snd final))) <> 1%nat
  /\ option_map User.referral_balance (user_by_id (db (snd final)) 2)
     <> Some (0 + truediv 2990 100)%float.
Proof.
  split; [vm_compute; reflexivity|].
  split; [vm_compute; discriminate|].
  split; [vm_compute; discriminate|].
  intros H.
  apply (f_equal (fun o => match o with
                           | Some f => Prim2SF f
                           | None => S754_nan
                           end)) in H.
  vm_compute in H. discriminate.
Qed.

(** ** How coroutines end *)

Lemma run_ends_in {A} w (m : coro A) (R : A -> Prop) (E : exn -> Prop) s :
  ends_in R E m -> outcome R E (fst (run w m s)).
Proof.
  revert s.
  induction m as [a|e|k IH|c k IH|k IH|t l k IH|k IH|d k IH|a k IH];
    intros s Hm; simpl in *; try assumption; try (apply IH, Hm).
  destruct (perform w a s) as [ok s']. apply IH, Hm.
Qed.

Lemma ends_in_bind {A B} (m : coro A) (f : A -> coro B)
    (R : B -> Prop) (E : exn -> Prop) :
  ends_in (fun a => ends_in R E (f a)) E m -> ends_in R E (bind m f).
Proof.
  induction m as [a|e|k IH|c k IH|k IH|t l k IH|k IH|d k IH|a k IH];
    simpl; intros Hm; auto.
Qed.

Lemma ends_in_try_except {A} (m : coro A)
    (sel : exn -> bool) (h : exn -> coro A)
    (R : A -> Prop) (E : exn -> Prop) :
  ends_in R (fun e => if sel e then ends_in R E (h e) else E e) m ->
  ends_in R E (try_except m sel h).
Proof.
  induction m as [a|e|k IH|c k IH|k IH|t l k IH|k IH|d k IH|a k IH];
    simpl; intros Hm; auto.
  destruct (sel e); assumption.
Qed.

Lemma ends_in_weaken {A} (m : coro A) (R R' : A -> Prop) (E E' : exn -> Prop) :
  (forall a, R a -> R' a) -> (forall e, E e -> E' e) ->
  ends_in R E m -> ends_in R' E' m.
Proof.
  intros HR HE.
  induction m as [a|e|k IH|c k IH|k IH|t l k IH|k IH|d k IH|a k IH];
    simpl; intros Hm; auto.
Qed.

Lemma ends_in_await a (R : unit -> Prop) (E : exn -> Prop) :
  R tt -> E TelegramError -> ends_in R E (await a).
Proof. intros HR HE. simpl. intros []; assumption. Qed.

Lemma ends_in_py_get v k dflt (R : json -> Prop) (E : exn -> Prop) :
  (forall x, R x) -> E AttributeError -> ends_in R E (py_get v k dflt).
Proof. intros HR HE. destruct v; simpl; auto. Qed.

Lemma ends_in_py_item v k (R : json -> Prop) (E : exn -> Prop) :
  (forall x, R x) -> E KeyError -> E TypeError -> ends_in R E (py_item v k).
Proof.
  intros HR HK HT. destruct v; simpl; auto. destruct (_ !! _); simpl; auto.
Qed.

Lemma ends_in_fetch c (R : json -> Prop) (E : exn -> Prop) :
  (forall x, R x) -> (forall e, E e) -> ends_in R E (fetch c).
Proof. intros HR HE. simpl. intros []; simpl; auto. Qed.

(** What the body of a wrapper's [create_payment] raises does not
    matter: the two handlers turn it into a [PaymentError] with one of
    the wrapper's two texts. *)
Lemma ends_in_wrap_create_errors connect_msg create_msg body
    (R : payment_data -> Prop) (E : exn -> Prop) :
  E (PaymentError connect_msg) -> E (PaymentError create_msg) ->
  ends_in R (fun _ => True) body ->
  ends_in R E (wrap_create_errors connect_msg create_msg body).
Proof.
  intros Hc Hm Hb. unfold wrap_create_errors.
  apply ends_in_try_except.
  eapply ends_in_weaken; [| |exact Hb]; [auto|].
  intros e _. simpl. destruct (is_RequestException e); assumption.
Qed.

(** Goals [ends_in R (fun _ => True) m] for a body made of the
    operations of payments.py. *)
Ltac any_end :=
  repeat first
    [ exact I
    | reflexivity
    | match goal with
      | |- ends_in _ _ (bind _ _) => apply ends_in_bind
      | |- ends_in _ _ (fetch _) => apply ends_in_fetch
      | |- ends_in _ _ (py_get _ _ _) => apply ends_in_py_get
      | |- ends_in _ _ (py_item _ _) => apply ends_in_py_item
      | |- ends_in _ _ (if ?b then _ else _) => destruct b
      | |- ends_in _ _ (match ?x with _ => _ end) => destruct x
      | |- ends_in _ _ _ => progress simpl
      end
    | intro ].

Lemma YooMoney_create_payment_ends y amount order_id description E :
  E (PaymentError (connect_message YooMoney)) ->
  E (PaymentError (create_message YooMoney)) ->
  ends_in (fun pd => pd_amount pd = amount) E
    (YooMoneyPayment.create_payment y amount order_id description).
Proof.
  intros Hc Hm. unfold YooMoneyPayment.create_payment.
  apply ends_in_wrap_create_errors; [exact Hc|exact Hm|]. any_end.
Qed.

Lemma Qiwi_create_payment_ends q amount order_id description E :
  E (PaymentError (connect_message Qiwi)) ->
  E (PaymentError (create_message Qiwi)) ->
  ends_in (fun pd => pd_amount pd = amount) E
    (QiwiPayment.create_payment q amount order_id description).
Proof.
  intros Hc Hm. unfold QiwiPayment.create_payment.
  apply ends_in_wrap_create_errors; [exact Hc|exact Hm|]. any_end.
Qed.

Lemma Cryptomus_create_payment_ends c amount order_id description E :
  E (PaymentError (connect_message Cryptomus)) ->
  E (PaymentError (create_message Cryptomus)) ->
  ends_in (fun pd => pd_amount pd = amount) E
    (CryptomusPayment.create_payment c amount order_id description).
Proof.
  intros Hc Hm. unfold CryptomusPayment.create_payment.
  apply ends_in_wrap_create_errors; [exact Hc|exact Hm|]. any_end.
Qed.

(** ** payments.py: what creating and checking never do *)

(** X1.  [PaymentManager.create_payment] either returns payment data
    whose amount is the amount asked for, or raises a [PaymentError]
    with one of a fixed set of texts: the manager's text for a method
    it does not serve, or the connection text or the creation text of
    the wrapper that serves the method.  No other exception leaves it,
    the manager's own fallback text is never used, and the error detail
    a provider sends never reaches the caller. *)
Theorem create_payment_raises_fixed_texts
    (pm : PaymentManager.t) (method : string) (amount : Z)
    (order_id description : string) (w : world) (s : state) :
  outcome (fun pd => pd_amount pd = amount) (create_error pm method)
    (fst (run w (PaymentManager.create_payment pm method amount order_id
                   description) s)).
Proof.
  apply run_ends_in.
  unfold PaymentManager.create_payment.
  apply ends_in_try_except.
  apply ends_in_weaken
    with (R := fun pd => pd_amount pd = amount) (E := create_error pm method);
    [auto| |].
  { intros e (msg & -> & H). simpl. exists msg. split; [reflexivity|exact H]. }
  assert (Hun : create_error pm method
                  (PaymentError ("Платежный метод " ++ method ++ " недоступен"))).
  { eexists. split; [reflexivity|]. left. reflexivity. }
  unfold PaymentManager.get_available_methods, create_error.
  destruct (String.eqb method "yoomoney") eqn:Ey.
  { apply String.eqb_eq in Ey; subst method.
    destruct (PaymentManager.yoomoney pm) as [y|] eqn:Hy.
    - apply YooMoney_create_payment_ends;
        (eexists; split; [reflexivity|]; right; exists YooMoney;
         unfold PaymentManager.get_available_methods; rewrite Hy;
         split; [reflexivity|]; split; [left; reflexivity|]; auto).
    - change (String.eqb "yoomoney" "qiwi") with false.
      change (String.eqb "yoomoney" "crypto") with false.
      destruct (PaymentManager.qiwi pm), (PaymentManager.cryptomus pm);
        exact Hun. }
  destruct (String.eqb method "qiwi") eqn:Eq.
  { apply String.eqb_eq in Eq; subst method.
    destruct (PaymentManager.qiwi pm) as [q|] eqn:Hq.
    - assert (Hin : In "qiwi" (PaymentManager.get_available_methods pm)).
      { unfold PaymentManager.get_available_methods. rewrite Hq.
        apply in_or_app. right. left. reflexivity. }
      destruct (PaymentManager.yoomoney pm);
        apply Qiwi_create_payment_ends;
        (eexists; split; [reflexivity|]; right; exists Qiwi;
         split; [reflexivity|]; split; [exact Hin|]; auto).
    - change (String.eqb "qiwi" "crypto") with false.
      destruct (PaymentManager.yoomoney pm), (PaymentManager.cryptomus pm);
        exact Hun. }
  destruct (String.eqb method "crypto") eqn:Ec.
  { apply String.eqb_eq in Ec; subst method.
    destruct (PaymentManager.cryptomus pm) as [c|] eqn:Hc.
    - assert (Hin : In "crypto" (PaymentManager.get_available_methods pm)).
      { unfold PaymentManager.get_available_methods. rewrite Hc.
        apply in_or_app. right. apply in_or_app. right. left. reflexivity. }
      destruct (PaymentManager.yoomoney pm), (PaymentManager.qiwi pm);
        apply Cryptomus_create_payment_ends;
        (eexists; split; [reflexivity|]; right; exists Cryptomus;
         split; [reflexivity|]; split; [exact Hin|]; auto).
    - destruct (PaymentManager.yoomoney pm), (PaymentManager.qiwi pm);
        exact Hun. }
  destruct (PaymentManager.yoomoney pm), (PaymentManager.qiwi pm),
    (PaymentManager.cryptomus pm); exact Hun.
Qed.

Lemma not_available_cases pm method :
  ~ In method (PaymentManager.get_available_methods pm) ->
  (String.eqb method "yoomoney" = false \/ PaymentManager.yoomoney pm = None)
  /\ (String.eqb method "qiwi" = false \/ PaymentManager.qiwi pm = None)
  /\ (String.eqb method "crypto" = false \/ PaymentManager.cryptomus pm = None).
Proof.
  unfold PaymentManager.get_available_methods. intros Hn.
  split; [|split].
  - destruct (String.eqb_spec method "yoomoney") as [->|]; [|auto].
    destruct (PaymentManager.yoomoney pm); [|auto].
    exfalso. apply Hn. left. reflexivity.
  - destruct (String.eqb_spec method "qiwi") as [->|]; [|auto].
    destruct (PaymentManager.qiwi pm); [|auto].
    exfalso. apply Hn. apply in_or_app. right. left. reflexivity.
  - destruct (String.eqb_spec method "crypto") as [->|]; [|auto].
    destruct (PaymentManager.cryptomus pm); [|auto].
    exfalso. apply Hn. apply in_or_app. right. apply in_or_app. right.
    left. reflexivity.
Qed.

(** X2.  For a method the manager does not serve (an unknown name, or a
    provider whose credential is not configured) nothing is asked of
    anybody: [create_payment] raises the [PaymentError] that names the
    method and [check_payment] returns unknown, and neither performs a
    single effect (no request, no reading of the clock). *)
Theorem unavailable_method_makes_no_request
    (pm : PaymentManager.t) (method : string) (amount : Z)
    (order_id description : string) (pid : json) (w : world) (s : state) :
  ~ In method (PaymentManager.get_available_methods pm) ->
  run w (PaymentManager.create_payment pm method amount order_id description) s
  = (Raised (PaymentError (unavailable_message method)), s)
  /\ run w (PaymentManager.check_payment pm method pid) s
     = (Returned "unknown", s).
Proof.
  intros Hn.
  destruct (not_available_cases pm method Hn) as (Hy & Hq & Hc).
  unfold PaymentManager.create_payment, PaymentManager.check_payment.
  rewrite !run_try_except.
  split.
  - destruct Hy as [-> | ->], Hq as [-> | ->], Hc as [-> | ->];
      repeat match goal with
             | |- context [match ?b with true => _ | false => _ end] =>
                 destruct b
             | |- context [match ?o with Some _ => _ | None => _ end] =>
                 destruct o
             end; reflexivity.
  - destruct Hy as [-> | ->], Hq as [-> | ->], Hc as [-> | ->];
      repeat match goal with
             | |- context [match ?b with true => _ | false => _ end] =>
                 destruct b
             | |- context [match ?o with Some _ => _ | None => _ end] =>
                 destruct o
             end; reflexivity.
Qed.

Lemma unavailable_method_makes_no_request_witness :
  run (answering 0 paid_body)
      (PaymentManager.create_payment manager "paypal" 29900 "vpn_1" "VPN")
      (start shop_db)
  = (Raised (PaymentError (unavailable_message "paypal")), start shop_db)
  /\ run (answering 0 paid_body)
         (PaymentManager.check_payment manager "paypal" (JStr "1"))
         (start shop_db)
     = (Returned "unknown", start shop_db).
Proof.
  apply (unavailable_method_makes_no_request manager "paypal" 29900 "vpn_1"
           "VPN" (JStr "1") (answering 0 paid_body) (start shop_db)).
  vm_compute. intros H. decompose [or] H; try discriminate; contradiction.
Defined.

Lemma available_cases pm p :
  In (provider_name p) (PaymentManager.get_available_methods pm) ->
  match p with
  | YooMoney => exists y, PaymentManager.yoomoney pm = Some y
  | Qiwi => exists q, PaymentManager.qiwi pm = Some q
  | Cryptomus => exists c, PaymentManager.cryptomus pm = Some c
  end.
Proof.
  unfold PaymentManager.get_available_methods.
  destruct p, (PaymentManager.yoomoney pm), (PaymentManager.qiwi pm),
    (PaymentManager.cryptomus pm); simpl; intros H; eauto;
    exfalso; intuition discriminate.
Qed.

(** The manager hands a served method over to its wrapper. *)
Lemma create_payment_dispatch pm p amount order_id description :
  In (provider_name p) (PaymentManager.get_available_methods pm) ->
  exists body,
    PaymentManager.create_payment pm (provider_name p) amount order_id
      description
    = try_except body any_exception
        (fun e => if is_PaymentError e then Raise e
                  else Raise (PaymentError "Ошибка создания платежа"))
    /\ match p with
       | YooMoney => exists y,
           body = YooMoneyPayment.create_payment y amount order_id description
       | Qiwi => exists q,
           body = QiwiPayment.create_payment q amount order_id description
       | Cryptomus => exists c,
           body = CryptomusPayment.create_payment c amount order_id description
       end.
Proof.
  intros Hin. apply available_cases in Hin.
  unfold PaymentManager.create_payment.
  destruct p; destruct Hin as [x Hx]; rewrite Hx.
  - change (String.eqb "yoomoney" "yoomoney") with true.
    eexists. split; [reflexivity|]. eauto.
  - change (String.eqb "qiwi" "yoomoney") with false.
    change (String.eqb "qiwi" "qiwi") with true.
    destruct (PaymentManager.yoomoney pm);
      (eexists; split; [reflexivity|]; eauto).
  - change (String.eqb "crypto" "yoomoney") with false.
    change (String.eqb "crypto" "qiwi") with false.
    change (String.eqb "crypto" "crypto") with true.
    destruct (PaymentManager.yoomoney pm), (PaymentManager.qiwi pm);
      (eexists; split; [reflexivity|]; eauto).
Qed.

Lemma check_payment_dispatch pm p pid :
  In (provider_name p) (PaymentManager.get_available_methods pm) ->
  exists body,
    PaymentManager.check_payment pm (provider_name p) pid
    = try_except body any_exception (fun _ => Ret "unknown")
    /\ match p with
       | YooMoney => exists y, body = YooMoneyPayment.check_payment y pid
       | Qiwi => exists q, body = QiwiPayment.check_payment q pid
       | Cryptomus => exists c, body = CryptomusPayment.check_payment c pid
       end.
Proof.
  intros Hin. apply available_cases in Hin.
  unfold PaymentManager.check_payment.
  destruct p; destruct Hin as [x Hx]; rewrite Hx.
  - change (String.eqb "yoomoney" "yoomoney") with true.
    eexists. split; [reflexivity|]. eauto.
  - change (String.eqb "qiwi" "yoomoney") with false.
    change (String.eqb "qiwi" "qiwi") with true.
    destruct (PaymentManager.yoomoney pm);
      (eexists; split; [reflexivity|]; eauto).
  - change (String.eqb "crypto" "yoomoney") with false.
    change (String.eqb "crypto" "qiwi") with false.
    change (String.eqb "crypto" "crypto") with true.
    destruct (PaymentManager.yoomoney pm), (PaymentManager.qiwi pm);
      (eexists; split; [reflexivity|]; eauto).
Qed.

(** X3.  For a method the manager serves, one call of [create_payment]
    or of [check_payment] makes exactly one request, to the provider the
    method names and with the arguments of the call: whatever the
    provider answers, nothing is retried and no other provider is
    asked. *)
Theorem available_method_makes_one_request
    (pm : PaymentManager.t) (p : provider) (amount : Z)
    (order_id description : string) (pid : json) (w : world) (s : state) :
  In (provider_name p) (PaymentManager.get_available_methods pm) ->
  provider_calls
    (log (snd (run w (PaymentManager.create_payment pm (provider_name p)
                        amount order_id description) s)))
  = ApiCreate (provider_name p) amount order_id description
      :: provider_calls (log s)
  /\ provider_calls
       (log (snd (run w (PaymentManager.check_payment pm (provider_name p)
                           pid) s)))
     = ApiCheck (provider_name p) pid :: provider_calls (log s).
Proof.
  intros Hin. split.
  - destruct (create_payment_dispatch pm p amount order_id description Hin)
      as (body & -> & Hbody).
    destruct p; destruct Hbody as [x ->];
      unfold YooMoneyPayment.create_payment, QiwiPayment.create_payment,
        CryptomusPayment.create_payment, wrap_create_errors, fetch, request,
        py_get, py_item;
      run_all; reflexivity.
  - destruct (check_payment_dispatch pm p pid Hin) as (body & -> & Hbody).
    destruct p; destruct Hbody as [x ->];
      unfold YooMoneyPayment.check_payment, QiwiPayment.check_payment,
        CryptomusPayment.check_payment, fetch, request, py_get;
      run_all; reflexivity.
Qed.

Lemma available_method_makes_one_request_witness :
  provider_calls
    (log (snd (run (unreachable 0)
                   (PaymentManager.create_payment manager "qiwi" 79900
                      "vpn_7" "VPN") (start shop_db))))
  = [ApiCreate "qiwi" 79900 "vpn_7" "VPN"]
  /\ provider_calls
       (log (snd (run (unreachable 0)
                      (PaymentManager.check_payment manager "qiwi" (JStr "b7"))
                      (start shop_db))))
     = [ApiCheck "qiwi" (JStr "b7")].
Proof.
  apply (available_method_makes_one_request manager Qiwi 79900 "vpn_7" "VPN"
           (JStr "b7") (unreachable 0) (start shop_db)).
  right. left. reflexivity.
Defined.

(** X4.  An answer that is a JSON object without the status field is
    reported as pending: the defaults the wrappers give to [.get]
    (the string unknown for YooMoney and QIWI, [None] for Cryptomus) are
    not among the statuses they test for, so the final [else] branch
    decides.  The canonical value unknown is not what a missing status
    gives. *)
Theorem answer_without_status_is_pending
    (pm : PaymentManager.t) (p : provider) (w : world) (s : state)
    (pid body : json) :
  In (provider_name p) (PaymentManager.get_available_methods pm) ->
  request_at w (tick s) (ApiCheck (provider_name p) pid) = HttpJson body ->
  lacks_status p body ->
  fst (run w (PaymentManager.check_payment pm (provider_name p) pid) s)
  = Returned "pending".
Proof.
  intros Hin Hreq Hbody.
  destruct (check_payment_dispatch pm p pid Hin) as (m & -> & Hm).
  apply fst_run_try_except_returned.
  destruct p; destruct Hm as [x ->]; simpl in Hreq, Hbody.
  - destruct Hbody as (o & -> & Ho).
    unfold YooMoneyPayment.check_payment, fetch, request, py_get.
    simpl. rewrite Hreq. simpl. rewrite Ho. reflexivity.
  - destruct Hbody as (o & -> & [Ho | (o' & Ho & Ho')]);
      unfold QiwiPayment.check_payment, fetch, request, py_get;
      simpl; rewrite Hreq; simpl; rewrite Ho; simpl.
    + reflexivity.
    + rewrite Ho'. reflexivity.
  - destruct Hbody as (o & st & -> & Hst & Hz & [Ho | (o' & Ho & Ho')]);
      unfold CryptomusPayment.check_payment, fetch, request, py_get;
      simpl; rewrite Hreq; simpl; rewrite Hst; simpl; rewrite Hz; simpl;
      rewrite Ho; simpl.
    + reflexivity.
    + rewrite Ho'. reflexivity.
Qed.

Lemma answer_without_status_is_pending_witness :
  fst (run (answering 0 (JObj {[ "operation_id" := JStr "7" ]}))
           (PaymentManager.check_payment manager "yoomoney" (JStr "7"))
           (start empty_db))
  = Returned "pending".
Proof.
  apply (answer_without_status_is_pending manager YooMoney
           (answering 0 (JObj {[ "operation_id" := JStr "7" ]}))
           (start empty_db) (JStr "7")
           (JObj {[ "operation_id" := JStr "7" ]})).
  - left. reflexivity.
  - reflexivity.
  - simpl. eexists. split; [reflexivity|]. vm_compute. reflexivity.
Defined.

(** X5.  When the HTTP exchange gives no JSON object (the request
    raises: no connection, a timeout, an error status, a body that is
    not JSON; or the body is a list, a string, a number, [null]),
    [check_payment] returns unknown: the exception, the [AttributeError]
    of [.get] on a non-dict included, is swallowed by the wrapper's
    [except Exception]. *)
Theorem answer_that_is_no_object_is_unknown
    (pm : PaymentManager.t) (p : provider) (w : world) (s : state)
    (pid : json) :
  In (provider_name p) (PaymentManager.get_available_methods pm) ->
  no_object (request_at w (tick s) (ApiCheck (provider_name p) pid)) ->
  fst (run w (PaymentManager.check_payment pm (provider_name p) pid) s)
  = Returned "unknown".
Proof.
  intros Hin Hno.
  destruct (check_payment_dispatch pm p pid Hin) as (m & -> & Hm).
  apply fst_run_try_except_returned.
  destruct p; destruct Hm as [x ->]; simpl in Hno;
    unfold YooMoneyPayment.check_payment, QiwiPayment.check_payment,
      CryptomusPayment.check_payment, fetch, request, py_get;
    simpl;
    destruct (request_at w (tick s) _) as [e|j]; simpl; try reflexivity;
    destruct j; simpl; try reflexivity; discriminate.
Qed.

Lemma answer_that_is_no_object_is_unknown_witness :
  fst (run (answering 0 (JArr []))
           (PaymentManager.check_payment manager "crypto" (JStr "7"))
           (start empty_db))
  = Returned "unknown".
Proof.
  apply (answer_that_is_no_object_is_unknown manager Cryptomus
           (answering 0 (JArr [])) (start empty_db) (JStr "7")).
  - right. right. left. reflexivity.
  - reflexivity.
Defined.

(** ** main.py: how the payment handlers end *)

Lemma ends_in_any {A} (m : coro A) : ends_in (fun _ => True) (fun _ => True) m.
Proof.
  induction m as [a|e|k IH|c k IH|k IH|t l k IH|k IH|d k IH|a k IH];
    simpl; auto.
Qed.


Lemma ends_in_Session_open (R : Session.t -> Prop) (E : exn -> Prop) :
  (forall d, R (Session.mk d false)) -> ends_in R E Session.open.
Proof. intros H. simpl. exact H. Qed.

Lemma ends_in_utcnow (R : Z -> Prop) (E : exn -> Prop) :
  (forall t, R t) -> ends_in R E utcnow.
Proof. intros H. simpl. exact H. Qed.

Lemma ends_in_Session_commit session (R : Session.t -> Prop) (E : exn -> Prop) :
  (forall x, R x) -> ends_in R E (Session.commit session).
Proof.
  intros H. unfold Session.commit. destruct (Session.dirty session); simpl; auto.
Qed.


Lemma get_or_create_user_returns tg :
  ends_in (fun _ => True) (fun _ => False) (get_or_create_user tg).
Proof.
  unfold get_or_create_user. simpl. intros d.
  destruct (List.find _ (users d)); simpl; auto.
Qed.

(** How [process_payment] can end. *)
Lemma process_payment_outcome
    (cfg : Config) (pm : PaymentManager.t) (tg : Z) (method : string)
    (selected_plan : option string) (w : world) (s : state) :
  outcome (fun r => r = END \/ r = WAITING_PAYMENT)
          (fun e => e = TelegramError
                    \/ e = KeyError
                       /\ exists plan_type,
                            selected_plan = Some plan_type
                            /\ plan_type <> ""
                            /\ plan_of cfg plan_type = None)
    (fst (run w (process_payment cfg pm tg method selected_plan) s)).
Proof.
  apply run_ends_in. unfold process_payment.
  apply ends_in_bind, ends_in_await; [|left; reflexivity].
  destruct selected_plan as [plan_type|]; cbn [truthy negb];
    [|apply ends_in_bind, ends_in_await; simpl; auto].
  destruct (String.eqb_spec plan_type "") as [->|Hne]; cbn [negb];
    [apply ends_in_bind, ends_in_await; simpl; auto|].
  cbn [default from_option id].
  destruct (plan_of cfg plan_type) as [plan|] eqn:Hplan;
    [|right; split; [reflexivity|]; exists plan_type; auto].
  apply ends_in_bind.
  eapply ends_in_weaken; [| |apply get_or_create_user_returns];
    [|intros e []].
  intros user _. apply ends_in_bind, ends_in_Session_open. intros d. cbv beta.
  apply ends_in_try_except.
  eapply ends_in_weaken
    with (R := fun r => r = END \/ r = WAITING_PAYMENT) (E := fun _ => True);
    [auto| |].
  { intros e _. simpl. intros [|]; simpl; auto. }
  apply ends_in_bind, ends_in_utcnow. intros t1. cbv beta.
  apply ends_in_bind, ends_in_utcnow. intros t2. cbv beta.
  apply ends_in_bind.
  eapply ends_in_weaken; [| |apply ends_in_any]; [|auto].
  intros session _. unfold request_invoice.
  apply ends_in_bind. apply ends_in_try_except.
  apply ends_in_bind.
  eapply ends_in_weaken; [| |apply ends_in_any].
  - intros pd _. apply ends_in_bind, ends_in_Session_commit.
    intros session'. simpl. intros [|]; simpl; auto.
  - intros e _. destruct (is_PaymentError e); [|exact I].
    simpl. intros [|]; simpl; auto.
Qed.

(** X7.  [process_payment] returns [ConversationHandler.END] or
    [WAITING_PAYMENT] and nothing else.  Two exceptions can leave it: the
    one of a Telegram call that fails, and a [KeyError], which it raises
    exactly for a selected plan that is not a key of
    [SUBSCRIPTION_PLANS] (the lookup [SUBSCRIPTION_PLANS[plan_type]]
    stands before the [try]).  Whatever the provider and the database
    do inside the [try] is turned into a message and END. *)
Theorem process_payment_ends
    (cfg : Config) (pm : PaymentManager.t) (tg : Z) (method : string)
    (selected_plan : option string) (w : world) (s : state) :
  outcome (fun r => r = END \/ r = WAITING_PAYMENT)
          (fun e => e = TelegramError
                    \/ e = KeyError
                       /\ exists plan_type,
                            selected_plan = Some plan_type
                            /\ plan_type <> ""
                            /\ plan_of cfg plan_type = None)
    (fst (run w (process_payment cfg pm tg method selected_plan) s)).
Proof.
  exact (process_payment_outcome cfg pm tg method selected_plan w s).
Qed.

(** ** main.py: what a verification writes *)

(** A payment that is not past [expires_at] passes the expiry check,
    which commits nothing. *)
Lemma payment_not_expired w p s0 :
  (forall e, Payment.expires_at p = Some e -> clock_not_after w e) ->
  exists s1,
    run w (payment_is_expired p) s0 = (Returned false, s1)
    /\ store_history s1 = store_history s0.
Proof.
  intros Hexp. unfold payment_is_expired.
  destruct (Payment.expires_at p) as [e|] eqn:He; simpl; [|eauto].
  rewrite (proj2 (Z.ltb_ge _ _)) by apply (Hexp e eq_refl). eauto.
Qed.

(** X8.  When the provider reports failed for a payment that is not past
    [expires_at], [verify_payment] stores failed as the payment's status
    and commits once; it writes nothing else: the users and the
    subscriptions are what they were, and the payment keeps its other
    columns. *)
Theorem failed_payment_is_marked_failed
    (cfg : Config) (pm : PaymentManager.t) (chat_id pid : Z)
    (w : world) (s : state) (p : Payment.t) :
  callbacks_answered w ->
  payment_by_id (db s) pid = Some p ->
  (forall e, Payment.expires_at p = Some e -> clock_not_after w e) ->
  provider_reports w pm p "failed" ->
  let s' := snd (run w (verify_payment cfg pm chat_id pid) s) in
  db s' = update_payment (db s) (Payment.set_status p "failed")
  /\ commits (log s') = db s' :: commits (log s)
  /\ payment_by_id (db s') pid = Some (Payment.set_status p "failed")
  /\ users (db s') = users (db s)
  /\ subscriptions (db s') = subscriptions (db s).
Proof.
  intros Hcb Hp Hexp Hprov s'.
  assert (H : store_history s'
              = (update_payment (db s) (Payment.set_status p "failed"),
                 update_payment (db s) (Payment.set_status p "failed")
                   :: commits (log s))).
  { subst s'. unfold verify_payment. simpl. rewrite Hcb. simpl.
    rewrite run_try_except_quiet by quiet.
    rewrite Hp. rewrite run_bind.
    destruct (payment_not_expired w p
                (record s (EAwait (Telegram AnswerCallback) true)) Hexp)
      as (s1 & -> & Hs1).
    rewrite run_bind.
    destruct (run w (PaymentManager.check_payment pm _ _) s1) as [r s2] eqn:Hc.
    pose proof (Hprov s1) as Hr. rewrite Hc in Hr. simpl in Hr. subst r.
    change (String.eqb "failed" "completed") with false.
    change (String.eqb "failed" "failed") with true.
    rewrite run_bind_quiet by quiet.
    pose proof (run_no_commit w _ s1 (no_commit_check_payment pm
                  (Payment.payment_method p) (Payment.payment_id p))) as Hq.
    rewrite Hc in Hq. simpl in Hq.
    unfold store_history in *. simpl in *.
    injection Hs1 as _ Hl1. injection Hq as _ Hl2.
    destruct (telegram_at w _ _); simpl; congruence. }
  unfold store_history in H. injection H as Hdb Hlog.
  split; [exact Hdb|]. split; [rewrite Hlog, Hdb; reflexivity|].
  rewrite Hdb. split; [|split; reflexivity].
  pose proof (payment_by_id_id _ _ _ Hp) as Hid.
  rewrite <- Hid in Hp |- *.
  apply (payment_by_id_update_payment_same (db s)
           (Payment.set_status p "failed") p Hp).
Qed.

Lemma failed_payment_is_marked_failed_witness :
  payment_by_id
    (db (snd (run (answering 1000 refused_body)
                  (verify_payment default_config manager 101 1)
                  (start shop_db)))) 1
  = Some (Payment.set_status pending_payment "failed").
Proof.
  apply (failed_payment_is_marked_failed default_config manager 101 1
           (answering 1000 refused_body) (start shop_db) pending_payment).
  - intros n. reflexivity.
  - reflexivity.
  - intros e He n. injection He as <-. vm_compute. discriminate.
  - intros s0. vm_compute. reflexivity.
Defined.

Lemma no_commit_py_int f : no_commit (py_int f).
Proof. unfold py_int. destruct (int_of_float f); exact I. Qed.

Lemma no_commit_payment_is_expired p : no_commit (payment_is_expired p).
Proof. unfold payment_is_expired. destruct (Payment.expires_at p); simpl; auto. Qed.

(** X9.  When the provider reports anything but completed or failed
    (pending, unknown) [verify_payment] writes nothing: the store and
    the list of commits are what they were, whether the payment is past
    [expires_at] or not and whatever Telegram does.  The status stored
    for the payment is never changed to what the provider reported. *)
Theorem unsettled_payment_changes_nothing
    (cfg : Config) (pm : PaymentManager.t) (chat_id pid : Z)
    (w : world) (s : state) (p : Payment.t) (r : string) :
  payment_by_id (db s) pid = Some p ->
  provider_reports w pm p r ->
  r <> "completed" -> r <> "failed" ->
  store_history (snd (run w (verify_payment cfg pm chat_id pid) s))
  = store_history s.
Proof.
  intros Hp Hprov Hc Hf.
  unfold verify_payment. simpl.
  destruct (telegram_at w (tick s) AnswerCallback); simpl; [|reflexivity].
  rewrite run_try_except_quiet by quiet.
  rewrite Hp. rewrite run_bind.
  pose proof (run_no_commit w _ (record s (EAwait (Telegram AnswerCallback) true))
                (no_commit_payment_is_expired p)) as He.
  destruct (run w (payment_is_expired p) _) as [[expired|e] s1]; simpl in He;
    [|exact He].
  destruct expired.
  { rewrite run_no_commit by quiet. exact He. }
  rewrite run_bind.
  pose proof (run_no_commit w _ s1 (no_commit_check_payment pm
                (Payment.payment_method p) (Payment.payment_id p))) as Hq.
  pose proof (Hprov s1) as Hr.
  destruct (run w (PaymentManager.check_payment pm _ _) s1) as [r' s2].
  simpl in Hr, Hq. subst r'.
  rewrite (proj2 (String.eqb_neq _ _)) by exact Hc.
  rewrite (proj2 (String.eqb_neq _ _)) by exact Hf.
  rewrite run_no_commit.
  - rewrite Hq. exact He.
  - apply no_commit_bind; [|intros; exact I].
    simpl. intros now. destruct (Payment.expires_at p); [|exact I].
    apply no_commit_bind; [apply no_commit_py_int|].
    intros t. destruct (Z.ltb 0 t); apply no_commit_await.
Qed.

Lemma unsettled_payment_changes_nothing_witness :
  store_history (snd (run (answering 1000 in_progress_body)
                          (verify_payment default_config manager 101 1)
                          (start shop_db)))
  = store_history (start shop_db).
Proof.
  apply (unsettled_payment_changes_nothing default_config manager 101 1
           (answering 1000 in_progress_body) (start shop_db)
           pending_payment "pending").
  - reflexivity.
  - intros s0. vm_compute. reflexivity.
  - discriminate.
  - discriminate.
Defined.

(** X10.  For a payment id that no row has, [verify_payment] asks no
    provider and writes nothing; once it has answered the callback
    query, the only thing it does is to send the text that the payment
    was not found. *)
Theorem unknown_payment_is_not_verified
    (cfg : Config) (pm : PaymentManager.t) (chat_id pid : Z)
    (w : world) (s : state) :
  callbacks_answered w ->
  payment_by_id (db s) pid = None ->
  let s' := snd (run w (verify_payment cfg pm chat_id pid) s) in
  store_history s' = store_history s
  /\ provider_calls (log s') = provider_calls (log s)
  /\ exists ok rest,
       log s' = (rest ++ EAwait (Telegram (EditMessageText MsgPaymentNotFound)) ok
                   :: EAwait (Telegram AnswerCallback) true :: log s)%list
       /\ (ok = true -> rest = []).
Proof.
  intros Hcb Hp s'. subst s'.
  unfold verify_payment. simpl. rewrite Hcb. simpl. rewrite Hp. simpl.
  destruct (telegram_at w _ (EditMessageText MsgPaymentNotFound)); simpl.
  - repeat split. exists true, []. split; [reflexivity|auto].
  - destruct (telegram_at w _ (EditMessageText MsgErrorGeneral)); simpl;
      repeat split; eexists false, [_]; (split; [reflexivity|discriminate]).
Qed.

Lemma unknown_payment_is_not_verified_witness :
  provider_calls
    (log (snd (run (answering 1000 paid_body)
                   (verify_payment default_config manager 101 77)
                   (start shop_db))))
  = [].
Proof.
  apply (unknown_payment_is_not_verified default_config manager 101 77
           (answering 1000 paid_body) (start shop_db)).
  - intros n. reflexivity.
  - reflexivity.
Defined.

(** ** main.py: what creating a payment writes *)

(** X11.  Without a selected plan ([selected_plan] missing from
    [user_data], or the empty string) [process_payment] creates nothing:
    no user row, no payment row, no commit and no call of a provider; it
    answers the callback query, says that no plan is selected and
    returns END. *)
Theorem no_selected_plan_creates_nothing
    (cfg : Config) (pm : PaymentManager.t) (tg : Z) (method : string)
    (selected_plan : option string) (w : world) (s : state) :
  truthy selected_plan = false ->
  let r := run w (process_payment cfg pm tg method selected_plan) s in
  store_history (snd r) = store_history s
  /\ provider_calls (log (snd r)) = provider_calls (log s)
  /\ (telegram_works w ->
      fst r = Returned END
      /\ log (snd r)
         = EAwait (Telegram (EditMessageText MsgPlanNotSelected)) true
             :: EAwait (Telegram AnswerCallback) true :: log s).
Proof.
  intros Hsel r. subst r. unfold process_payment. rewrite Hsel. simpl.
  destruct (telegram_at w (tick s) AnswerCallback) eqn:E1; simpl.
  - destruct (telegram_at w _ (EditMessageText MsgPlanNotSelected)) eqn:E2;
      simpl; (split; [reflexivity|]); (split; [reflexivity|]).
    + intros _. split; reflexivity.
    + intros Hw. rewrite Hw in E2. discriminate.
  - split; [reflexivity|]. split; [reflexivity|].
    intros Hw. rewrite Hw in E1. discriminate.
Qed.

Lemma no_selected_plan_creates_nothing_witness :
  store_history
    (snd (run (answering 0 paid_body)
              (process_payment default_config manager 101 "yoomoney" (Some ""))
              (start shop_db)))
  = store_history (start shop_db).
Proof.
  apply (no_selected_plan_creates_nothing default_config manager 101
           "yoomoney" (Some "") (answering 0 paid_body) (start shop_db)).
  reflexivity.
Defined.

(** The key of a new row is not the key of any row there is. *)
Lemma next_id_fresh ids x : In x ids -> x <> next_id ids.
Proof.
  unfold next_id. intros Hin.
  assert (x <= fold_right Z.max 0 ids); [|lia].
  induction ids as [|y l IH]; simpl in *; [contradiction|].
  destruct Hin as [->|Hin]; [lia|]. specialize (IH Hin). lia.
Qed.

Lemma update_other_payments (l : list Payment.t) (i : Z) (p' : Payment.t) :
  (forall x, In x l -> Payment.id x <> i) ->
  map (fun x => if Z.eqb (Payment.id x) i then p' else x) l = l.
Proof.
  induction l as [|x l IH]; simpl; intros H; [reflexivity|].
  rewrite (proj2 (Z.eqb_neq _ _)) by (apply H; left; reflexivity).
  f_equal. apply IH. intros y Hy. apply H. right. exact Hy.
Qed.

(** Writing to the row that was just appended leaves the other rows
    alone. *)
Lemma update_appended_payment d p p' :
  Payment.id p = next_id (map Payment.id (payments d)) ->
  Payment.id p' = Payment.id p ->
  payments (update_payment (set_payments d (payments d ++ [p])) p')
  = (payments d ++ [p'])%list.
Proof.
  intros Hid Hid'. unfold update_payment, set_payments. simpl.
  rewrite map_app. simpl. rewrite Hid', Z.eqb_refl. f_equal.
  apply update_other_payments.
  intros x Hx. rewrite Hid. apply next_id_fresh.
  apply in_map_iff. eauto.
Qed.

(** X12.  When the provider accepts the request, [process_payment]
    leaves one new payment row: status pending, amount = price * 100,
    with the external id and the pay URL that the provider call for the
    order [vpn_<id>] returned, written to the row by a second commit;
    the rows that were there are untouched.  When Telegram works it then
    returns [WAITING_PAYMENT]. *)
Theorem created_payment_is_stored_with_its_url
    (cfg : Config) (pm : PaymentManager.t) (tg : Z)
    (method plan_type : string) (plan : Plan) (w : world) (s : state) :
  callbacks_answered w ->
  plan_of cfg plan_type = Some plan ->
  provider_creates w pm method ->
  let r := run w (process_payment cfg pm tg method (Some plan_type)) s in
  (exists payment pd s0 s0',
      payments (db (snd r)) = (payments (db s) ++ [payment])%list
      /\ Payment.id payment = next_id (map Payment.id (payments (db s)))
      /\ Payment.status payment = "pending"
      /\ Payment.amount payment = price plan * 100
      /\ Payment.plan_type payment = plan_type
      /\ Payment.payment_method payment = method
      /\ Payment.payment_id payment = pd_payment_id pd
      /\ Payment.payment_url payment = pd_payment_url pd
      /\ run w (PaymentManager.create_payment pm method (price plan * 100)
                  ("vpn_" ++ pretty (Payment.id payment))
                  ("VPN подписка " ++ plan_name plan)) s0
         = (Returned pd, s0')
      /\ commits (log (snd r)) = db (snd r) :: commits (log s0'))
  /\ (telegram_works w -> fst r = Returned WAITING_PAYMENT).
Proof.
  intros Hcb Hplan Hcreate r.
  destruct (process_payment_commits_first cfg pm tg method plan_type plan w s
              Hcb Hplan) as (user & s1 & l & Hlog & Hcalls & Hpay & Hrun).
  subst r. rewrite Hrun. clear Hrun.
  unfold request_invoice.
  rewrite run_try_except, run_bind, run_try_except, run_bind.
  cbn [Payment.payment_method Payment.amount Payment.id].
  match goal with
  | |- context [run w (PaymentManager.create_payment ?a ?b ?c ?d ?e) ?s0] =>
      destruct (Hcreate c d e s0) as [pd Hpd];
      pose proof (run_no_commit w _ s0 (no_commit_create_payment a b c d e)) as Hh;
      destruct (run w (PaymentManager.create_payment a b c d e) s0)
        as [r s3] eqn:E
  end.
  simpl in Hpd, Hh. subst r.
  unfold store_history in Hh. simpl in Hh. injection Hh as Hdb3 Hlog3.
  simpl.
  match goal with
  | |- context [update_payment ?d0 ?p0] =>
      pose proof (update_appended_payment (db s1)
                    (Payment.mk (next_id (map Payment.id (payments (db s1))))
                       (User.id user) (price plan * 100) plan_type method
                       JNull Payment.NoUrl "pending"
                       (utcnow_at w (S (tick s1))) None
                       (Some (utcnow_at w (tick s1) + minutes 15)))
                    p0 eq_refl eq_refl) as Hup
  end.
  split.
  - eexists _, pd, _, s3.
    destruct (telegram_at w _ (EditMessageText (MsgPaymentCreated _ _ _)));
      simpl;
      [|destruct (telegram_at w _ (EditMessageText MsgErrorGeneral)); simpl];
      (split; [rewrite <- Hpay; exact Hup|]);
      (split; [simpl; rewrite Hpay; reflexivity|]);
      (do 6 (split; [reflexivity|]));
      (split; [exact E|reflexivity]).
  - intros Hw. rewrite Hw. reflexivity.
Qed.

Lemma created_payment_is_stored_with_its_url_witness :
  fst (run (answering 0 accepted_body)
           (process_payment default_config manager 101 "yoomoney"
                            (Some "3_months"))
           (start shop_db))
  = Returned WAITING_PAYMENT.
Proof.
  apply (created_payment_is_stored_with_its_url default_config manager 101
           "yoomoney" "3_months" (mkPlan "3 months" 799 90 true)
           (answering 0 accepted_body) (start shop_db)).
  - intros n. reflexivity.
  - reflexivity.
  - intros amount order_id description s0. eexists. vm_compute. reflexivity.
  - intros n c. reflexivity.
Defined.

(** ** main.py: [get_or_create_user] *)








(** ** helpers.py: [escape_markdown] *)

Lemma str_replace_char c new text :
  str_replace text (String c "") new = replace_char c new text.
Proof.
  unfold str_replace.
  induction text as [|x rest IH]; [reflexivity|].
  cbn [replace_from replace_char String.prefix String.length Nat.sub].
  destruct (Ascii.ascii_dec c x) as [->|Hne].
  - rewrite Ascii.eqb_refl.
    replace (String.prefix "" rest) with true by (destruct rest; reflexivity).
    rewrite IH. reflexivity.
  - rewrite (proj2 (Ascii.eqb_neq _ _) Hne). rewrite IH. reflexivity.
Qed.

Lemma string_app_assoc (a b c : string) : (a ++ b) ++ c = a ++ (b ++ c).
Proof.
  induction a as [|x a IH]; [reflexivity|].
  change (String x ((a ++ b) ++ c) = String x (a ++ (b ++ c))).
  f_equal. exact IH.
Qed.

Lemma replace_char_app c new a b :
  replace_char c new (a ++ b) = replace_char c new a ++ replace_char c new b.
Proof.
  induction a as [|x a IH]; [reflexivity|].
  simpl. destruct (Ascii.eqb c x); rewrite IH.
  - symmetry. apply string_app_assoc.
  - reflexivity.
Qed.

(** The chain of replacements distributes over concatenation. *)
Lemma escape_chain_app (chars : list string) : forall a b,
  Forall (fun char => exists c, char = String c "") chars ->
  fold_left (fun text char => str_replace text char ("\" ++ char)) chars (a ++ b)
  = fold_left (fun text char => str_replace text char ("\" ++ char)) chars a
    ++ fold_left (fun text char => str_replace text char ("\" ++ char)) chars b.
Proof.
  induction chars as [|char chars IH]; intros a b Hc; [reflexivity|].
  inversion Hc as [|? ? [c ->] Hrest]; subst.
  cbn [fold_left]. rewrite !str_replace_char, replace_char_app.
  apply IH. exact Hrest.
Qed.

Lemma special_chars_are_characters :
  Forall (fun char => exists c, char = String c "") special_chars.
Proof. unfold special_chars. repeat constructor; eexists; reflexivity. Qed.

Lemma escape_markdown_app a b :
  escape_markdown (a ++ b) = escape_markdown a ++ escape_markdown b.
Proof. apply escape_chain_app, special_chars_are_characters. Qed.

(** On a single character the chain adds one backslash to a special
    character and leaves any other character, the backslash included,
    as it is. *)
Lemma escape_markdown_character c :
  escape_markdown (String c "") = escape_each (String c "").
Proof.
  destruct c as [[] [] [] [] [] [] [] []]; vm_compute; reflexivity.
Qed.

Lemma escape_markdown_escape_each (text : string) :
  escape_markdown text = escape_each text.
Proof.
  induction text as [|c rest IH]; [reflexivity|].
  change (String c rest) with (String c "" ++ rest) at 1.
  rewrite escape_markdown_app, escape_markdown_character, IH.
  simpl. destruct (is_special c); reflexivity.
Qed.

(** X15.  The eighteen successive replacements of [escape_markdown]
    amount to one pass over the text: every special character gets
    exactly one backslash in front of it and every other character is
    copied.  No replacement sees the backslashes an earlier one
    inserted as something to escape, so nothing is escaped twice; a
    backslash of the text itself is copied without being escaped. *)
Theorem escape_markdown_is_one_pass (text : string) :
  escape_markdown text = escape_each text.
Proof. exact (escape_markdown_escape_each text). Qed.

Lemma escape_each_head text x r :
  escape_each text = String x r -> is_special x = false.
Proof.
  destruct text as [|c rest]; simpl; [discriminate|].
  destruct (is_special c) eqn:E; simpl; intros H; injection H as <- _.
  - reflexivity.
  - exact E.
Qed.

Lemma escape_each_injective : forall a b,
  escape_each a = escape_each b -> a = b.
Proof.
  induction a as [|ca ra IH]; intros [|cb rb]; simpl.
  - reflexivity.
  - destruct (is_special cb); discriminate.
  - destruct (is_special ca); discriminate.
  - destruct (is_special ca) eqn:Ea, (is_special cb) eqn:Eb; simpl; intros H.
    + injection H as -> H. f_equal. apply IH, H.
    + injection H as <- H. symmetry in H.
      apply escape_each_head in H. congruence.
    + injection H as -> H.
      apply escape_each_head in H. congruence.
    + injection H as -> H. f_equal. apply IH, H.
Qed.

(** X16.  [escape_markdown] loses nothing: two different texts are
    never escaped to the same text. *)
Theorem escape_markdown_keeps_texts_apart (a b : string) :
  a <> b -> escape_markdown a <> escape_markdown b.
Proof.
  intros Hne H. apply Hne.
  rewrite !escape_markdown_escape_each in H.
  apply escape_each_injective, H.
Qed.

Lemma escape_markdown_keeps_texts_apart_witness :
  escape_markdown "a_b" <> escape_markdown "a\_b".
Proof.
  apply (escape_markdown_keeps_texts_apart "a_b" "a\_b"). discriminate.
Defined.

(** ** helpers.py and admin.py: cutting texts *)

Lemma length_slice_to {A} (l : list A) (k : Z) :
  Z.of_nat (length (slice_to l k))
  = Z.max 0 (Z.min (Z.of_nat (length l))
                   (if Z.ltb k 0 then Z.of_nat (length l) + k else k)).
Proof.
  unfold slice_to, slice_index. rewrite length_take.
  destruct (Z.ltb k 0); lia.
Qed.

(** X17.  With a limit of at least 3, [truncate_text] keeps the limit:
    the result is never longer than [max_length].  It is the text
    itself when that is short enough, and otherwise the first
    [max_length - 3] characters of the text followed by three dots,
    which is exactly [max_length] long. *)
Theorem truncate_text_keeps_the_limit
    {char : Type} (dot : char) (text : list char) (max_length : Z) :
  3 <= max_length ->
  Z.of_nat (length (truncate_text dot text max_length)) <= max_length
  /\ (Z.of_nat (length text) <= max_length ->
      truncate_text dot text max_length = text)
  /\ (max_length < Z.of_nat (length text) ->
      truncate_text dot text max_length
      = (firstn (Z.to_nat (max_length - 3)) text ++ [dot; dot; dot])%list
      /\ Z.of_nat (length (truncate_text dot text max_length)) = max_length).
Proof.
  intros Hmax. unfold truncate_text.
  destruct (Z.leb_spec (Z.of_nat (length text)) max_length) as [Hle|Hgt].
  - split; [exact Hle|]. split; [reflexivity|lia].
  - assert (Hlen : Z.of_nat (length (slice_to text (max_length - 3)
                                       ++ [dot; dot; dot])%list) = max_length).
    { rewrite length_app, Nat2Z.inj_add, length_slice_to. simpl.
      destruct (Z.ltb_spec (max_length - 3) 0); lia. }
    split; [lia|]. split; [lia|]. intros _. split; [|exact Hlen].
    unfold slice_to, slice_index.
    destruct (Z.ltb_spec (max_length - 3) 0); [lia|reflexivity].
Qed.

Lemma truncate_text_keeps_the_limit_witness :
  Z.of_nat (length (truncate_text "." sample_text 8)) <= 8.
Proof.
  apply (truncate_text_keeps_the_limit "." sample_text 8).
  lia.
Defined.

(** X18.  With a limit below 3, [truncate_text] cannot keep it: a text
    longer than the limit comes back longer than the limit, because the
    three dots alone exceed it; and for a limit from 0 to 2 the slice
    [text[:max_length - 3]] counts from the end, so a text of at least
    three characters comes back [max_length] characters longer than it
    was. *)
Theorem truncate_text_breaks_a_small_limit
    {char : Type} (dot : char) (text : list char) (max_length : Z) :
  max_length < 3 ->
  max_length < Z.of_nat (length text) ->
  max_length < Z.of_nat (length (truncate_text dot text max_length))
  /\ (0 <= max_length -> 3 <= Z.of_nat (length text) ->
      Z.of_nat (length (truncate_text dot text max_length))
      = Z.of_nat (length text) + max_length).
Proof.
  intros Hmax Hlen. unfold truncate_text.
  rewrite (proj2 (Z.leb_gt _ _)) by exact Hlen.
  rewrite length_app, Nat2Z.inj_add, length_slice_to. simpl.
  rewrite (proj2 (Z.ltb_lt _ _)) by lia.
  split; lia.
Qed.

Lemma truncate_text_breaks_a_small_limit_witness :
  2 < Z.of_nat (length (truncate_text "." sample_text 2)).
Proof.
  apply (truncate_text_breaks_a_small_limit "." sample_text 2).
  - lia.
  - simpl. lia.
Defined.

Lemma length_shown_log_line {char : Type} (dot : char) (line : list char) :
  Z.of_nat (length (shown_log_line dot line)) <= 100.
Proof.
  unfold shown_log_line.
  destruct (Z.ltb_spec 100 (Z.of_nat (length line))) as [Hgt|Hle]; [|exact Hle].
  rewrite length_app, Nat2Z.inj_add, length_slice_to. simpl. lia.
Qed.

(** X19.  The log view of the admin panel shows at most 20 lines, each
    at most 100 characters long: the lines are the last lines of the
    file, in order, a line of up to 100 characters as it is, a longer
    one cut to its first 97 characters and three dots. *)
Theorem log_view_is_bounded
    {char : Type} (dot : char) (lines : list (list char)) :
  (length (shown_log_lines dot lines) <= 20)%nat
  /\ Forall (fun line => Z.of_nat (length line) <= 100)
            (shown_log_lines dot lines)
  /\ exists earlier latest,
       lines = (earlier ++ latest)%list
       /\ length latest = Nat.min 20 (length lines)
       /\ shown_log_lines dot lines = map (shown_log_line dot) latest
       /\ Forall2 (fun line shown =>
                     if Z.ltb 100 (Z.of_nat (length line))
                     then shown = (firstn 97 line ++ [dot; dot; dot])%list
                     else shown = line)
                  latest (shown_log_lines dot lines).
Proof.
  unfold shown_log_lines, slice_from, slice_index.
  change (Z.ltb (-20) 0) with true. cbv iota.
  set (n := Z.to_nat (Z.of_nat (length lines) + -20)).
  assert (Hn : n = (length lines - 20)%nat) by (subst n; lia).
  split; [rewrite length_map, length_drop; lia|].
  split.
  - apply List.Forall_forall. intros shown Hin.
    apply in_map_iff in Hin. destruct Hin as (line & <- & _).
    apply length_shown_log_line.
  - exists (firstn n lines), (skipn n lines).
    split; [symmetry; apply firstn_skipn|].
    split; [rewrite length_drop; lia|].
    split; [reflexivity|].
    induction (skipn n lines) as [|line rest IH]; constructor; [|exact IH].
    unfold shown_log_line.
    destruct (Z.ltb 100 (Z.of_nat (length line))) eqn:E; [|reflexivity].
    unfold slice_to, slice_index. simpl. reflexivity.
Qed.

(** ** helpers.py: [format_time_ago] *)

Lemma timedelta_days_seconds d :
  timedelta_days d = d / 1000000 / 86400
  /\ timedelta_seconds d = (d / 1000000) mod 86400.
Proof.
  unfold timedelta_days, timedelta_seconds, days.
  change (1 * 86400 * 1000000) with (1000000 * 86400).
  split.
  - symmetry. apply Z.div_div; lia.
  - rewrite Z.rem_mul_r by lia.
    rewrite (Z.add_comm (d mod 1000000)), Z.mul_comm, Z.div_add_l by lia.
    rewrite (Z.div_small (d mod 1000000)); [lia|].
    apply Z.mod_pos_bound. lia.
Qed.

(** X20.  For a time that is not in the future, [format_time_ago]
    answers by the whole seconds elapsed: up to 60 seconds just now,
    from 61 seconds on the whole minutes (1 to 60), from 3601 seconds on
    the whole hours (1 to 23), from a full day on the whole days.  The
    comparisons of the source are strict, so one minute ago is still
    just now and one hour ago is 60 minutes ago. *)
Theorem format_time_ago_thresholds (w : world) (s : state) (dt : Z) :
  let secs := (utcnow_at w (tick s) - dt) / 1000000 in
  dt <= utcnow_at w (tick s) ->
  fst (run w (format_time_ago dt) s)
  = Returned
      (if Z.ltb secs 61 then "только что"
       else if Z.ltb secs 3601 then pretty (secs / 60) ++ " мин. назад"
       else if Z.ltb secs 86400 then pretty (secs / 3600) ++ " ч. назад"
       else pretty (secs / 86400) ++ " дн. назад")
  /\ (61 <= secs < 3601 -> 1 <= secs / 60 <= 60)
  /\ (3601 <= secs < 86400 -> 1 <= secs / 3600 <= 23)
  /\ (86400 <= secs -> 1 <= secs / 86400).
Proof.
  intros secs Hpast.
  assert (Hsecs : 0 <= secs) by (apply Z.div_pos; lia).
  split.
  - unfold format_time_ago. simpl.
    destruct (timedelta_days_seconds (utcnow_at w (tick s) - dt)) as [-> ->].
    fold secs.
    destruct (Z.ltb_spec secs 86400) as [Hday|Hday].
    + rewrite (Z.div_small secs 86400) by lia.
      rewrite (Z.mod_small secs 86400) by lia.
      change (Z.ltb 0 0) with false. cbv iota.
      destruct (Z.ltb_spec secs 61), (Z.ltb_spec secs 3601),
        (Z.ltb_spec 3600 secs), (Z.ltb_spec 60 secs);
        try lia; reflexivity.
    + assert (1 <= secs / 86400) by (apply Z.div_le_lower_bound; lia).
      rewrite (proj2 (Z.ltb_lt 0 (secs / 86400))) by lia.
      destruct (Z.ltb_spec secs 61), (Z.ltb_spec secs 3601);
        try lia; reflexivity.
  - split; [|split]; intros H.
    + split; [apply Z.div_le_lower_bound; lia|].
      apply Z.lt_succ_r, Z.div_lt_upper_bound; lia.
    + split; [apply Z.div_le_lower_bound; lia|].
      apply Z.lt_succ_r, Z.div_lt_upper_bound; lia.
    + apply Z.div_le_lower_bound; lia.
Qed.

Lemma format_time_ago_thresholds_witness :
  fst (run (answering 3600000000 paid_body) (format_time_ago 0) (start empty_db))
  = Returned "60 мин. назад".
Proof.
  apply (format_time_ago_thresholds (answering 3600000000 paid_body)
           (start empty_db) 0).
  vm_compute. discriminate.
Defined.

(** X21.  A time in the future is not recognised as such: the [days] of
    a negative [timedelta] are negative and its [seconds] count up from
    the day before, so a time up to 22 hours 59 minutes 59 seconds
    ahead of the clock is reported as between 1 and 23 hours ago, the
    nearer the more hours. *)
Theorem future_time_is_reported_as_hours_ago (w : world) (s : state) (dt : Z) :
  let ahead := dt - utcnow_at w (tick s) in
  0 < ahead -> ahead <= 82799 * 1000000 ->
  exists h,
    1 <= h <= 23
    /\ h = (86400000000 - ahead) / 1000000 / 3600
    /\ fst (run w (format_time_ago dt) s) = Returned (pretty h ++ " ч. назад").
Proof.
  intros ahead Hpos Hmax.
  exists ((86400000000 - ahead) / 1000000 / 3600).
  assert (Hs : 3601 <= (86400000000 - ahead) / 1000000 < 86400).
  { split; [apply Z.div_le_lower_bound; lia|].
    apply Z.div_lt_upper_bound; lia. }
  split; [|split; [reflexivity|]].
  { split; [apply Z.div_le_lower_bound; lia|].
    apply Z.lt_succ_r, Z.div_lt_upper_bound; lia. }
  unfold format_time_ago. simpl.
  set (diff := utcnow_at w (tick s) - dt).
  assert (Hd : timedelta_days diff = -1).
  { unfold timedelta_days, days. change (1 * 86400 * 1000000) with 86400000000.
    symmetry. apply (Z.div_unique diff 86400000000 (-1) (86400000000 - ahead)).
    - left. subst diff ahead. lia.
    - subst diff ahead. lia. }
  assert (Ht : timedelta_seconds diff = (86400000000 - ahead) / 1000000).
  { unfold timedelta_seconds, days.
    change (1 * 86400 * 1000000) with 86400000000.
    f_equal. symmetry.
    apply (Z.mod_unique diff 86400000000 (-1) (86400000000 - ahead)).
    - left. subst diff ahead. lia.
    - subst diff ahead. lia. }
  rewrite Hd, Ht. change (Z.ltb 0 (-1)) with false. cbv iota.
  rewrite (proj2 (Z.ltb_lt 3600 _)) by lia. reflexivity.
Qed.

Lemma future_time_is_reported_as_hours_ago_witness :
  exists h,
    1 <= h <= 23
    /\ h = (86400000000 - 1000000) / 1000000 / 3600
    /\ fst (run (answering 0 paid_body) (format_time_ago 1000000)
                (start empty_db))
       = Returned (pretty h ++ " ч. назад").
Proof.
  apply (future_time_is_reported_as_hours_ago (answering 0 paid_body)
           (start empty_db) 1000000).
  - reflexivity.
  - vm_compute. discriminate.
Defined.

(** ** helpers.py: codes, servers and configurations *)

Lemma run_random_chars w n : forall s,
  exists code s',
    run w (random_chars n) s = (Returned code, s')
    /\ String.length code = n
    /\ Forall (fun c => In c referral_chars) (String.list_ascii_of_string code)
    /\ exists draws,
         log s' = (map EChoice draws ++ log s)%list /\ length draws = n.
Proof.
  induction n as [|n IH]; intros s.
  - exists "", s. repeat split; [constructor|]. exists []. split; reflexivity.
  - cbn [random_chars run]. rewrite run_bind.
    destruct (IH (record s (EChoice (choice_at w (tick s)))))
      as (rest & s' & -> & Hlen & Hall & draws & Hlog & Hdraws).
    eexists _, s'. split; [reflexivity|].
    split; [simpl; rewrite Hlen; reflexivity|].
    split.
    + cbn [String.list_ascii_of_string]. constructor; [|exact Hall].
      apply nth_In. apply Nat.mod_upper_bound. discriminate.
    + exists (draws ++ [choice_at w (tick s)])%list.
      split; [|rewrite length_app; simpl; lia].
      rewrite Hlog, map_app, <- app_assoc. reflexivity.
Qed.

(** X22.  [generate_referral_code(length)] returns a code of exactly
    [length] characters (none for a length that is not positive), each
    an upper-case letter or a digit, whatever the random choices are;
    it makes one random choice per character and nothing else. *)
Theorem referral_code_has_the_asked_length
    (w : world) (s : state) (length : Z) :
  exists code s' draws,
    run w (generate_referral_code length) s = (Returned code, s')
    /\ Z.of_nat (String.length code) = Z.max 0 length
    /\ Forall (fun c => In c referral_chars) (String.list_ascii_of_string code)
    /\ log s' = (map EChoice draws ++ log s)%list
    /\ List.length draws = String.length code.
Proof.
  unfold generate_referral_code.
  destruct (run_random_chars w (Z.to_nat length) s)
    as (code & s' & Hrun & Hlen & Hall & draws & Hlog & Hdraws).
  exists code, s', draws. split; [exact Hrun|].
  split; [rewrite Hlen; lia|]. split; [exact Hall|].
  split; [exact Hlog|]. congruence.
Qed.

(** X23.  Whatever the random choice, the location that
    [get_random_server_location] returns is one of the six of its list,
    and each of them is a key of the server table and of the flag
    table: for a location drawn this way [get_server_endpoint] and
    [get_server_flag] never fall back to their defaults.  The six
    endpoints are pairwise different. *)
Theorem random_location_is_served (w : world) (s : state) :
  (exists location,
      fst (run w get_random_server_location s) = Returned location
      /\ In location server_locations
      /\ dict_get servers location = Some (get_server_endpoint location)
      /\ dict_get flags location = Some (get_server_flag location))
  /\ NoDup (map get_server_endpoint server_locations).
Proof.
  split.
  - unfold get_random_server_location. cbn [run fst].
    change (length server_locations) with 6%nat.
    pose proof (Nat.mod_upper_bound (choice_at w (tick s)) 6) as Hb.
    destruct (choice_at w (tick s) mod 6)%nat as [|[|[|[|[|[|n]]]]]];
      [| | | | | |lia];
      (eexists; split; [reflexivity|]; vm_compute; intuition).
  - vm_compute. repeat constructor; intros H; inversion H; subst;
      repeat match goal with
             | H : _ ∈ _ |- _ => inversion H; clear H; subst
             end.
Qed.

(** X24.  The address [generate_vpn_config] puts into a configuration
    ends in a number from 1 to 254, for every user id, a negative one
    included.  It depends on the id modulo 254 only: two users whose
    ids differ by a multiple of 254 get the same address, and with the
    same key and location the same configuration.  For a location that
    is not in the server table the configuration is the one for the
    Netherlands. *)
Theorem vpn_address_is_shared_modulo_254
    (private_key : string) (user_id k : Z) (location : string) :
  1 <= ip_suffix user_id <= 254
  /\ ip_suffix (user_id + 254 * k) = ip_suffix user_id
  /\ generate_vpn_config private_key (user_id + 254 * k) location
     = generate_vpn_config private_key user_id location
  /\ (dict_get servers location = None ->
      generate_vpn_config private_key user_id location
      = generate_vpn_config private_key user_id "Netherlands").
Proof.
  assert (Hk : ip_suffix (user_id + 254 * k) = ip_suffix user_id).
  { unfold ip_suffix. rewrite (Z.mul_comm 254 k), Z_mod_plus_full.
    reflexivity. }
  split; [|split; [exact Hk|split]].
  - unfold ip_suffix. pose proof (Z.mod_pos_bound user_id 254). lia.
  - unfold generate_vpn_config. rewrite Hk. reflexivity.
  - intros Hnone. unfold generate_vpn_config, get_server_endpoint.
    rewrite Hnone. reflexivity.
Qed.

(** ** main.py and database.py: the subscription an activation creates *)

(** [activate_commits], with the dates of the new subscription: its end
    is computed from the third effect of the branch, a reading of the
    clock, and its start is the fifth, a later reading. *)
Lemma activate_commits_dates cfg chat d p w s u plan bonus :
  user_by_id d (Payment.user_id p) = Some u ->
  plan_of cfg (Payment.plan_type p) = Some plan ->
  int_of_float (truediv (Payment.amount p * REFERRAL_BONUS_PERCENT cfg) 100)
    = Some bonus ->
  exists now sub,
    store_history (snd (run w (activate cfg chat (Session.mk d false) p) s))
      = (activated cfg p u sub now d,
         activated cfg p u sub now d :: commits (log s))
    /\ Subscription.user_id sub = Payment.user_id p
    /\ Subscription.is_active sub = true
    /\ Subscription.end_date sub
       = utcnow_at w (2 + tick s) + days (duration_days plan)
    /\ Subscription.start_date sub = utcnow_at w (4 + tick s).
Proof.
  intros Hu Hplan Hbonus.
  unfold activate. simpl.
  rewrite user_by_id_update_payment, Hu. simpl.
  rewrite !amount_rubles_completed.
  unfold calculate_end_date. rewrite Hplan. simpl.
  destruct (User.referrer_id u) as [r|] eqn:Hr; simpl.
  - destruct (Z.eqb r 0) eqn:Hr0; simpl.
    + rewrite run_no_commit by quiet. unfold store_history. simpl.
      do 2 eexists. split.
      * unfold activated, credited. simpl. rewrite Hr, Hr0. reflexivity.
      * split; [|split; [|split]]; reflexivity.
    + rewrite !user_by_id_set_subscriptions, !user_by_id_deactivate.
      destruct (user_by_id _ r) as [ref|] eqn:Href; simpl.
      * unfold calculate_referral_bonus, py_int. rewrite Hbonus. simpl.
        destruct (telegram_at w _ (SendMessage _ _)); simpl;
          rewrite run_no_commit by quiet; unfold store_history; simpl.
        all: do 2 eexists; (split;
          [ unfold activated, credited; simpl; rewrite Hr, Hr0;
            rewrite !user_by_id_set_subscriptions, !user_by_id_deactivate;
            rewrite Href, Hbonus; reflexivity
          | split; [|split; [|split]]; reflexivity ]).
      * rewrite run_no_commit by quiet. unfold store_history. simpl.
        do 2 eexists. split.
        -- unfold activated, credited. simpl. rewrite Hr, Hr0.
           rewrite !user_by_id_set_subscriptions, !user_by_id_deactivate.
           rewrite Href. reflexivity.
        -- split; [|split; [|split]]; reflexivity.
  - rewrite run_no_commit by quiet. unfold store_history. simpl.
    do 2 eexists. split.
    + unfold activated, credited. simpl. rewrite Hr. reflexivity.
    + split; [|split; [|split]]; reflexivity.
Qed.

Lemma verify_payment_activates_dates cfg pm chat pid w s p u plan bonus :
  callbacks_answered w ->
  payment_by_id (db s) pid = Some p ->
  (forall e, Payment.expires_at p = Some e -> clock_not_after w e) ->
  provider_reports w pm p "completed" ->
  user_by_id (db s) (Payment.user_id p) = Some u ->
  plan_of cfg (Payment.plan_type p) = Some plan ->
  int_of_float (truediv (Payment.amount p * REFERRAL_BONUS_PERCENT cfg) 100)
    = Some bonus ->
  exists n now sub,
    db (snd (run w (verify_payment cfg pm chat pid) s))
      = activated cfg p u sub now (db s)
    /\ Subscription.user_id sub = Payment.user_id p
    /\ Subscription.is_active sub = true
    /\ Subscription.end_date sub
       = utcnow_at w (2 + n) + days (duration_days plan)
    /\ Subscription.start_date sub = utcnow_at w (4 + n).
Proof.
  intros Hcb Hp Hexp Hprov Hu Hplan Hbonus.
  unfold verify_payment. simpl. rewrite Hcb. simpl.
  match goal with
  | |- context [run w (try_except ?m ?sel ?h) ?s0] =>
      pose proof (run_try_except_quiet w m sel h s0) as Hq
  end.
  apply store_history_db in Hq; [|quiet]. rewrite Hq. clear Hq.
  rewrite Hp. rewrite run_bind.
  destruct (payment_not_expired w p
              (record s (EAwait (Telegram AnswerCallback) true)) Hexp)
    as (s1 & -> & Hs1).
  rewrite run_bind.
  destruct (run w (PaymentManager.check_payment pm _ _) s1) as [r s2] eqn:Hc.
  pose proof (Hprov s1) as Hr. rewrite Hc in Hr. simpl in Hr. subst r.
  rewrite String.eqb_refl.
  match goal with
  | |- context [run w (bind ?m ?f) ?s0] =>
      pose proof (run_bind_quiet w m f s0) as Hq
  end.
  apply store_history_db in Hq; [|quiet]. rewrite Hq. clear Hq.
  pose proof (run_no_commit w _ s1 (no_commit_check_payment pm
                (Payment.payment_method p) (Payment.payment_id p))) as H2.
  rewrite Hc in H2. simpl in H2.
  destruct (activate_commits_dates cfg chat (db s) p w s2 u plan bonus
              Hu Hplan Hbonus) as (now & sub & Hs & H).
  exists (tick s2), now, sub. split; [|exact H].
  unfold store_history in Hs. injection Hs as Hs _. exact Hs.
Qed.

Lemma plan_of_duration cfg plan_type plan :
  plan_of cfg plan_type = Some plan ->
  In (duration_days plan) [30; 90; 180; 365].
Proof.
  unfold plan_of, SUBSCRIPTION_PLANS. simpl.
  repeat (destruct (String.eqb _ plan_type);
          [intros H; injection H as <-; simpl; tauto|]).
  discriminate.
Qed.

(** X25.  The subscription that a completed verification creates never
    lasts longer than its plan: its end is a reading of the clock plus
    the 30, 90, 180 or 365 days of the plan, and its start is a later
    reading, so with a clock that does not go back the time from start
    to end is at most the plan's duration, and less by what the clock
    advanced in between. *)
Theorem subscription_lasts_at_most_its_plan
    (cfg : Config) (pm : PaymentManager.t) (chat pid : Z) (w : world)
    (s : state) (p : Payment.t) (u : User.t) (plan : Plan) (bonus : Z) :
  callbacks_answered w ->
  payment_by_id (db s) pid = Some p ->
  (forall e, Payment.expires_at p = Some e -> clock_not_after w e) ->
  provider_reports w pm p "completed" ->
  user_by_id (db s) (Payment.user_id p) = Some u ->
  plan_of cfg (Payment.plan_type p) = Some plan ->
  int_of_float (truediv (Payment.amount p * REFERRAL_BONUS_PERCENT cfg) 100)
    = Some bonus ->
  clock_never_goes_back w ->
  let s' := snd (run w (verify_payment cfg pm chat pid) s) in
  exists sub earlier n,
    subscriptions (db s') = (earlier ++ [sub])%list
    /\ Subscription.end_date sub
       = utcnow_at w n + days (duration_days plan)
    /\ Subscription.start_date sub = utcnow_at w (2 + n)
    /\ Subscription.end_date sub - Subscription.start_date sub
       <= days (duration_days plan)
    /\ In (duration_days plan) [30; 90; 180; 365].
Proof.
  intros Hcb Hp Hexp Hprov Hu Hplan Hbonus Hclock s'.
  destruct (verify_payment_activates_dates cfg pm chat pid w s p u plan bonus
              Hcb Hp Hexp Hprov Hu Hplan Hbonus)
    as (n & now & sub & Hdb & _ & _ & Hend & Hstart).
  fold s' in Hdb.
  exists sub, (subscriptions (deactivate_subscriptions (db s) (Payment.user_id p))),
    (2 + n)%nat.
  split; [rewrite Hdb; apply subscriptions_activated|].
  split; [exact Hend|]. split; [exact Hstart|].
  split; [|exact (plan_of_duration _ _ _ Hplan)].
  rewrite Hend, Hstart.
  pose proof (Hclock (2 + n)%nat (4 + n)%nat ltac:(lia)).
  change (2 + (2 + n))%nat with (4 + n)%nat. lia.
Qed.

Lemma subscription_lasts_at_most_its_plan_witness :
  exists sub earlier n,
    subscriptions (db (snd (run (stopping paid_body)
                                (verify_payment default_config manager 101 1)
                                (start shop_db))))
    = (earlier ++ [sub])%list
    /\ Subscription.end_date sub = utcnow_at (stopping paid_body) n + days 30
    /\ Subscription.start_date sub = utcnow_at (stopping paid_body) (2 + n)
    /\ Subscription.end_date sub - Subscription.start_date sub <= days 30
    /\ In 30 [30; 90; 180; 365].
Proof.
  apply (subscription_lasts_at_most_its_plan default_config manager 101 1
           (stopping paid_body) (start shop_db) pending_payment buyer
           (mkPlan "1 month" 299 30 false) 2990).
  - intros n. reflexivity.
  - reflexivity.
  - intros e He n. injection He as <-. unfold minutes. simpl. lia.
  - intros s0. vm_compute. reflexivity.
  - reflexivity.
  - reflexivity.
  - vm_compute. reflexivity.
  - intros i j Hij. simpl. lia.
Defined.

(** ** database.py: the properties that read the clock *)

(** Subscriptions that are switched off are passed over without a look
    at the clock. *)
Lemma first_active_skips w l rest s :
  Forall (fun sub => Subscription.is_active sub = false) l ->
  run w (first_active (l ++ rest)) s = run w (first_active rest) s.
Proof.
  induction l as [|x l IH]; intros Hl; [reflexivity|].
  inversion Hl as [|? ? Hx Hl']; subst.
  cbn [app first_active]. rewrite Hx. apply IH, Hl'.
Qed.

Lemma user_subscriptions_deactivated d uid user :
  User.id user = uid ->
  Forall (fun sub => Subscription.is_active sub = false)
         (user_subscriptions (deactivate_subscriptions d uid) user).
Proof.
  intros <-.
  unfold user_subscriptions, deactivate_subscriptions, set_subscriptions.
  simpl. induction (subscriptions d) as [|x l IH]; simpl; [constructor|].
  destruct (Z.eqb (Subscription.user_id x) (User.id user)) eqn:E; simpl.
  - destruct (Subscription.is_active x) eqn:Ea; simpl; rewrite E;
      (constructor; [first [reflexivity|exact Ea]|exact IH]).
  - rewrite E. exact IH.
Qed.

(** X26.  After a completed verification the buyer's
    [active_subscription] is the subscription the verification created,
    at every later time up to its end date, and [None] after it: the
    earlier subscriptions of the buyer are switched off, so they are
    passed over, whatever their end dates.  [has_active_subscription]
    is true exactly up to that end date. *)
Theorem buyer_has_the_new_subscription
    (cfg : Config) (pm : PaymentManager.t) (chat pid : Z) (w : world)
    (s : state) (p : Payment.t) (u : User.t) (plan : Plan) (bonus : Z) :
  callbacks_answered w ->
  payment_by_id (db s) pid = Some p ->
  (forall e, Payment.expires_at p = Some e -> clock_not_after w e) ->
  provider_reports w pm p "completed" ->
  user_by_id (db s) (Payment.user_id p) = Some u ->
  plan_of cfg (Payment.plan_type p) = Some plan ->
  int_of_float (truediv (Payment.amount p * REFERRAL_BONUS_PERCENT cfg) 100)
    = Some bonus ->
  let s' := snd (run w (verify_payment cfg pm chat pid) s) in
  exists sub earlier,
    subscriptions (db s') = (earlier ++ [sub])%list
    /\ forall (w2 : world) (s2 : state),
         db s2 = db s' ->
         let now := utcnow_at w2 (tick s2) in
         fst (run w2 (active_subscription (user_subscriptions (db s2) u)) s2)
         = Returned (if Z.ltb (Subscription.end_date sub) now then None
                     else Some sub)
         /\ fst (run w2 (has_active_subscription
                           (user_subscriptions (db s2) u)) s2)
            = Returned (negb (Z.ltb (Subscription.end_date sub) now)).
Proof.
  intros Hcb Hp Hexp Hprov Hu Hplan Hbonus s'.
  destruct (verify_payment_activates_dates cfg pm chat pid w s p u plan bonus
              Hcb Hp Hexp Hprov Hu Hplan Hbonus)
    as (n & t & sub & Hdb & Hsu & Hsa & _).
  fold s' in Hdb.
  exists sub, (subscriptions (deactivate_subscriptions (db s) (Payment.user_id p))).
  split; [rewrite Hdb; apply subscriptions_activated|].
  intros w2 s2 Hs2 now.
  pose proof (user_by_id_id _ _ _ Hu) as Hid.
  assert (Hsubs : user_subscriptions (db s2) u
                  = (user_subscriptions
                       (deactivate_subscriptions (db s) (Payment.user_id p)) u
                     ++ [sub])%list).
  { unfold user_subscriptions.
    rewrite Hs2, Hdb, subscriptions_activated, List.filter_app.
    simpl. rewrite Hsu, <- Hid, Z.eqb_refl. reflexivity. }
  assert (Hrun : run w2 (active_subscription (user_subscriptions (db s2) u)) s2
                 = (Returned (if Z.ltb (Subscription.end_date sub) now
                              then None else Some sub),
                    record s2 (EClock now))).
  { unfold active_subscription. rewrite Hsubs.
    rewrite first_active_skips
      by (apply user_subscriptions_deactivated; exact Hid).
    cbn [first_active]. rewrite Hsa.
    unfold subscription_is_expired, Subscription.is_expired. simpl.
    fold now. destruct (Z.ltb (Subscription.end_date sub) now); reflexivity. }
  split; [rewrite Hrun; reflexivity|].
  unfold has_active_subscription. rewrite run_bind, Hrun.
  destruct (Z.ltb (Subscription.end_date sub) now); reflexivity.
Qed.

Lemma buyer_has_the_new_subscription_witness :
  exists sub earlier,
    subscriptions (db (snd (run (answering 1000 paid_body)
                                (verify_payment default_config manager 101 1)
                                (start shop_db))))
    = (earlier ++ [sub])%list
    /\ forall (w2 : world) (s2 : state),
         db s2 = db (snd (run (answering 1000 paid_body)
                              (verify_payment default_config manager 101 1)
                              (start shop_db))) ->
         let now := utcnow_at w2 (tick s2) in
         fst (run w2 (active_subscription (user_subscriptions (db s2) buyer)) s2)
         = Returned (if Z.ltb (Subscription.end_date sub) now then None
                     else Some sub)
         /\ fst (run w2 (has_active_subscription
                           (user_subscriptions (db s2) buyer)) s2)
            = Returned (negb (Z.ltb (Subscription.end_date sub) now)).
Proof.
  apply (buyer_has_the_new_subscription default_config manager 101 1
           (answering 1000 paid_body) (start shop_db) pending_payment buyer
           (mkPlan "1 month" 299 30 false) 2990).
  - intros n. reflexivity.
  - reflexivity.
  - intros e He n. injection He as <-. vm_compute. discriminate.
  - intros s0. vm_compute. reflexivity.
  - reflexivity.
  - reflexivity.
  - vm_compute. reflexivity.
Defined.

(** X27.  [days_remaining] is 0 for a subscription that is expired when
    the clock is first read, and otherwise the number of whole days from
    the second reading of the clock to the end date, rounded down.  It
    is not negative when the second reading is not after the end date;
    when the end date passes between the two readings it is negative,
    although the subscription is then expired. *)
Theorem days_remaining_counts_whole_days
    (w : world) (s : state) (sub : Subscription.t) :
  let first := utcnow_at w (tick s) in
  let second := utcnow_at w (S (tick s)) in
  let e := Subscription.end_date sub in
  exists d,
    fst (run w (days_remaining sub) s) = Returned d
    /\ (e < first -> d = 0)
    /\ (first <= e ->
        d * 86400000000 <= e - second < (d + 1) * 86400000000)
    /\ (first <= e -> second <= e -> 0 <= d)
    /\ (first <= e -> e < second -> d < 0).
Proof.
  intros first second e.
  unfold days_remaining, subscription_is_expired, Subscription.is_expired.
  simpl. fold first e.
  destruct (Z.ltb_spec e first) as [Hexp|Hnot]; simpl.
  - exists 0. split; [reflexivity|]. repeat split; lia.
  - fold second. exists (timedelta_days (e - second)).
    split; [reflexivity|].
    unfold timedelta_days, days. change (1 * 86400 * 1000000) with 86400000000.
    pose proof (Z.div_mod (e - second) 86400000000 ltac:(lia)) as Hdm.
    pose proof (Z.mod_pos_bound (e - second) 86400000000 ltac:(lia)) as Hb.
    split; [lia|]. split; [lia|].
    split; intros; [apply Z.div_pos|apply Z.div_lt_upper_bound]; lia.
Qed.

(** ** main.py: from the plan buttons to the payment *)

Arguments str_replace : simpl never.

Lemma run_payment_buttons w pm s :
  run w (payment_buttons (PaymentManager.get_available_methods pm)) s
  = (Returned (map (fun method => "pay_" ++ method)
                   (PaymentManager.get_available_methods pm)), s).
Proof.
  unfold PaymentManager.get_available_methods.
  destruct (PaymentManager.yoomoney pm), (PaymentManager.qiwi pm),
    (PaymentManager.cryptomus pm); reflexivity.
Qed.

(** X28.  Each of the four plan buttons of [show_plans] leads to a
    payment: for its callback data [select_payment_method] finds the
    plan, whatever the prices configured, stores its key as the selected
    plan and offers one button per available payment method (no
    [KeyError] from [PAYMENT_METHODS]) and the button back; and
    [process_payment] recovers from each of these buttons a method the
    manager serves, and finds the stored plan, so that it does not raise
    [KeyError]. *)
Theorem plan_buttons_lead_to_a_payment
    (payment_methods_text : Plan -> string) (cfg : Config)
    (pm : PaymentManager.t) (data : string) (w : world) (s : state) :
  In data plan_buttons ->
  telegram_works w ->
  exists plan_type plan,
    data = "plan_" ++ plan_type
    /\ plan_of cfg plan_type = Some plan
    /\ fst (run w (select_payment_method payment_methods_text cfg pm data) s)
       = Returned
           (mkSelection plan_type
              (map (fun method => "pay_" ++ method)
                   (PaymentManager.get_available_methods pm) ++ ["buy_vpn"])
              SELECTING_PAYMENT_METHOD)
    /\ (forall method,
          In method (PaymentManager.get_available_methods pm) ->
          str_replace ("pay_" ++ method) "pay_" "" = method)
    /\ forall tg method w' s',
         fst (run w' (process_payment cfg pm tg method (Some plan_type)) s')
         <> Raised KeyError.
Proof.
  intros Hdata Hw.
  assert (Hplan : exists plan_type plan,
             data = "plan_" ++ plan_type
             /\ str_replace data "plan_" "" = plan_type
             /\ plan_type <> ""
             /\ plan_of cfg plan_type = Some plan).
  { simpl in Hdata.
    destruct Hdata as [<-|[<-|[<-|[<-|[]]]]];
      eexists _, _; (split; [reflexivity|]); (split; [reflexivity|]);
      (split; [discriminate|reflexivity]). }
  destruct Hplan as (plan_type & plan & Hd & Hrep & Hne & Hplan).
  exists plan_type, plan. split; [exact Hd|]. split; [exact Hplan|].
  split; [|split].
  - unfold select_payment_method. rewrite Hrep.
    rewrite run_bind. simpl. rewrite Hw. simpl. rewrite Hplan.
    rewrite run_bind, run_payment_buttons. simpl. rewrite Hw. reflexivity.
  - unfold PaymentManager.get_available_methods. intros method Hin.
    destruct (PaymentManager.yoomoney pm), (PaymentManager.qiwi pm),
      (PaymentManager.cryptomus pm); simpl in Hin;
      repeat (destruct Hin as [<-|Hin]; [reflexivity|]);
      contradiction.
  - intros tg method w' s' Hraise.
    pose proof (process_payment_outcome cfg pm tg method (Some plan_type)
                  w' s') as H.
    rewrite Hraise in H. simpl in H.
    destruct H as [H|(_ & pt & Hpt & _ & Hnone)]; [discriminate|].
    injection Hpt as <-. congruence.
Qed.

Lemma plan_buttons_lead_to_a_payment_witness :
  exists plan_type plan,
    "plan_3_months" = "plan_" ++ plan_type
    /\ plan_of default_config plan_type = Some plan
    /\ fst (run (answering 0 paid_body)
                (select_payment_method plan_name default_config manager
                   "plan_3_months") (start shop_db))
       = Returned
           (mkSelection plan_type
              (map (fun method => "pay_" ++ method)
                   (PaymentManager.get_available_methods manager) ++ ["buy_vpn"])
              SELECTING_PAYMENT_METHOD)
    /\ (forall method,
          In method (PaymentManager.get_available_methods manager) ->
          str_replace ("pay_" ++ method) "pay_" "" = method)
    /\ forall tg method w' s',
         fst (run w' (process_payment default_config manager tg method
                        (Some plan_type)) s')
         <> Raised KeyError.
Proof.
  apply (plan_buttons_lead_to_a_payment plan_name default_config manager
           "plan_3_months" (answering 0 paid_body) (start shop_db)).
  - right. left. reflexivity.
  - intros n c. reflexivity.
Defined.

(** X29.  [select_payment_method] writes the plan taken from the
    callback data to [user_data] before it looks the plan up: for data
    that names no plan of [SUBSCRIPTION_PLANS] it reports a wrong plan
    and returns END, writing nothing to the store, and the selected
    plan it leaves behind is that unknown name.  A [process_payment]
    that runs with this selection raises [KeyError] right after it has
    answered the callback query, before any row is written. *)
Theorem unknown_plan_is_stored_and_breaks_payment
    (payment_methods_text : Plan -> string) (cfg : Config)
    (pm : PaymentManager.t) (data : string) (tg : Z) (method : string)
    (w w' : world) (s s' : state) :
  telegram_works w ->
  callbacks_answered w' ->
  plan_of cfg (str_replace data "plan_" "") = None ->
  str_replace data "plan_" "" <> "" ->
  exists sel s1,
    run w (select_payment_method payment_methods_text cfg pm data) s
    = (Returned sel, s1)
    /\ selected_plan sel = str_replace data "plan_" ""
    /\ next_state sel = END
    /\ store_history s1 = store_history s
    /\ run w' (process_payment cfg pm tg method (Some (selected_plan sel))) s'
       = (Raised KeyError, record s' (EAwait (Telegram AnswerCallback) true)).
Proof.
  intros Hw Hcb Hnone Hne.
  unfold select_payment_method. rewrite Hnone. simpl.
  rewrite Hw. simpl. rewrite Hw. simpl.
  eexists _, _. split; [reflexivity|]. simpl.
  split; [reflexivity|]. split; [reflexivity|]. split; [reflexivity|].
  unfold process_payment. simpl. rewrite Hcb. simpl.
  rewrite (proj2 (String.eqb_neq _ _) Hne). simpl.
  rewrite Hnone. reflexivity.
Qed.

Lemma unknown_plan_is_stored_and_breaks_payment_witness :
  exists sel s1,
    run (answering 0 paid_body)
        (select_payment_method plan_name default_config manager "plan_2_months")
        (start shop_db)
    = (Returned sel, s1)
    /\ selected_plan sel = str_replace "plan_2_months" "plan_" ""
    /\ next_state sel = END
    /\ store_history s1 = store_history (start shop_db)
    /\ run (answering 0 paid_body)
           (process_payment default_config manager 101 "yoomoney"
                            (Some (selected_plan sel))) (start shop_db)
       = (Raised KeyError,
          record (start shop_db) (EAwait (Telegram AnswerCallback) true)).
Proof.
  apply (unknown_plan_is_stored_and_breaks_payment plan_name default_config
           manager "plan_2_months" 101 "yoomoney" (answering 0 paid_body)
           (answering 0 paid_body) (start shop_db) (start shop_db)).
  - intros n c. reflexivity.
  - intros n. reflexivity.
  - reflexivity.
  - discriminate.
Defined.

(** ** admin.py: the broadcast *)


